(** * Ticketing backend: tenant resolution, access control, ticket creation

    A shallow embedding of the multi-tenant ticketing backend
    (Express middleware and route handlers over a Prisma store):

    - [JS]: the string primitives the middleware uses ([trim],
      [toLowerCase], [split(sep)[0]], the two [replace] calls);
    - [Store]: the rows of the relational store and the Prisma queries
      the handlers issue, over lists kept in insertion order;
    - [Http]: requests, responses and the outcome of a middleware;
    - [Organization]: [identifyOrganization], [verifyOrganizationAccess],
      [requireOrgAdmin] (middleware/organization.ts);
    - [Notifications]: [createNotification], [createNotificationsForUsers],
      [createActivityLog] and the activity-log wrappers;
    - [Tickets]: token generation, [POST /], [POST /public] and the
      handler registered for [GET /public] (routes/tickets.ts);
    - [Statuses]: [GET /] and [DELETE /:id] of the status router;
    - [Admin]: [GET /categories] of the super-admin router;
    - [Auth]: [authenticate], [optionalAuthenticate], [requireAdmin]
      (middleware/auth.ts);
    - [OrganizationFallback]: [getOrganizationFromUser] and its
      optional variant, and the guard chains of the routers;
    - [TicketAccess]: [GET /:id] of the ticket router and the users
      notified of a comment;
    - [TicketRouter]: the [GET] routes of the ticket router on a path
      of one segment, in the order of their registration;
    - [Comments]: [POST /:id/comments] of the ticket router;
    - [StatusesCrud]: [GET /:id], [POST /] and [PUT /:id] of the status
      router;
    - [Organizations]: creation of an organization and the member
      routes;
    - [Categories]: assigning users to a category and removing them.

    Strings are Rocq strings whose characters stand for the code units
    0..255 (ASCII and Latin-1), on which [toLowerCase] and [trim] are
    written out exactly. Reads of the store always answer; the writes
    of the three best-effort helpers may be rejected, the creation of
    a ticket is rejected on a duplicate tracking token, and that of a
    membership or a comment on a user key without a user row. Where a
    query has no [orderBy], or rows tie in its order, the rows are
    given in the order of the table. Calls the handlers do not await
    are run to completion in program order. *)

From Stdlib Require Import String Ascii List Bool Arith NArith ZArith QArith Lia.
From Stdlib Require Import Qround.
Import ListNotations.
Local Close Scope Q_scope.
Local Open Scope string_scope.
Local Open Scope bool_scope.

(* ===================================================================== *)
(** ** JavaScript string primitives *)
(* ===================================================================== *)

Module JS.

(** Truthiness of a JS string: every string but the empty one. *)
Definition truthyS (s : string) : bool :=
  match s with EmptyString => false | String _ _ => true end.

(** Truthiness of a [string | undefined] (or [string | null]) value. *)
Definition truthy (o : option string) : bool :=
  match o with Some s => truthyS s | None => false end.

(** [a || b] on [string | undefined] operands with a string default. *)
Definition orElse (o : option string) (d : string) : string :=
  match o with
  | Some s => if truthyS s then s else d
  | None => d
  end.

(** [x || null]: a falsy string becomes null. *)
Definition orNull (o : option string) : option string :=
  if truthy o then o else None.

Fixpoint dropWhile {A} (p : A -> bool) (l : list A) : list A :=
  match l with
  | [] => []
  | x :: l' => if p x then dropWhile p l' else l
  end.

Definition dropWhileEnd {A} (p : A -> bool) (l : list A) : list A :=
  rev (dropWhile p (rev l)).

Fixpoint takeWhile {A} (p : A -> bool) (l : list A) : list A :=
  match l with
  | [] => []
  | x :: l' => if p x then x :: takeWhile p l' else []
  end.

Definition code (c : ascii) : N := N_of_ascii c.

Definition between (lo hi : N) (c : ascii) : bool :=
  ((lo <=? code c) && (code c <=? hi))%N.

(** WhiteSpace and LineTerminator code units below 256:
    TAB, LF, VT, FF, CR, SP, NBSP. *)
Definition isWhiteSpace (c : ascii) : bool :=
  between 9 13 c || (code c =? 32)%N || (code c =? 160)%N.

(** Upper-case letters below 256: A-Z, and the Latin-1 capitals
    except the multiplication sign. *)
Definition isUpper (c : ascii) : bool :=
  between 65 90 c || between 192 214 c || between 216 222 c.

Definition lowerChar (c : ascii) : ascii :=
  if isUpper c then ascii_of_N (code c + 32) else c.

(** [s.trim()] *)
Definition trimL (l : list ascii) : list ascii :=
  dropWhileEnd isWhiteSpace (dropWhile isWhiteSpace l).

(** [s.toLowerCase()] *)
Definition toLowerCaseL (l : list ascii) : list ascii := map lowerChar l.

(** The character class [[a-z0-9-]]. *)
Definition slugChar (c : ascii) : bool :=
  between 97 122 c || between 48 57 c || (code c =? 45)%N.

Definition hyphen : ascii := "-"%char.

Definition isHyphen (c : ascii) : bool := (code c =? 45)%N.

(** [s.replace(/[^a-z0-9-]/g, '-')] *)
Definition replaceNonSlugL (l : list ascii) : list ascii :=
  map (fun c => if slugChar c then c else hyphen) l.

(** [s.replace(/^-+|-+$/g, '')]: the leading run of hyphens is
    removed first, then the trailing run of what is left. *)
Definition stripHyphensL (l : list ascii) : list ascii :=
  dropWhileEnd isHyphen (dropWhile isHyphen l).

Definition lift (f : list ascii -> list ascii) (s : string) : string :=
  string_of_list_ascii (f (list_ascii_of_string s)).

Definition trim : string -> string := lift trimL.
Definition toLowerCase : string -> string := lift toLowerCaseL.
Definition replaceNonSlug : string -> string := lift replaceNonSlugL.
Definition stripHyphens : string -> string := lift stripHyphensL.

(** [s.split(sep)[0]]: everything before the first separator, the
    whole string when there is none. *)
Definition splitHead (sep : ascii) : string -> string :=
  lift (takeWhile (fun c => negb (Ascii.eqb c sep))).

(** [s.includes(c)] for a one-character needle. *)
Definition includesChar (c : ascii) (s : string) : bool :=
  existsb (Ascii.eqb c) (list_ascii_of_string s).

Definition startsWithHyphen (s : string) : bool :=
  match list_ascii_of_string s with
  | c :: _ => isHyphen c
  | [] => false
  end.

Definition endsWithHyphen (s : string) : bool :=
  match rev (list_ascii_of_string s) with
  | c :: _ => isHyphen c
  | [] => false
  end.

Definition allSlugChars (s : string) : bool :=
  forallb slugChar (list_ascii_of_string s).

(** The slug normalisation of [identifyOrganization], written twice
    in the source (for the candidate and, as [norm], for stored
    slugs) with the same chain of calls:
    [String(s).trim().toLowerCase()
       .replace(/[^a-z0-9-]/g, '-').replace(/^-+|-+$/g, '')]. *)
Definition normalizeSlug (s : string) : string :=
  stripHyphens (replaceNonSlug (toLowerCase (trim s))).

End JS.

(* ===================================================================== *)
(** ** The relational store and the Prisma queries issued against it *)
(* ===================================================================== *)

Module Role.
(** Global role of a user, carried in the bearer token. *)
Inductive t := USER | ADMIN | SUPERADMIN.

Definition eqb (a b : t) : bool :=
  match a, b with
  | USER, USER | ADMIN, ADMIN | SUPERADMIN, SUPERADMIN => true
  | _, _ => false
  end.
End Role.

Module OrgRole.
(** Role of a membership row (UserOrganization.role). *)
Inductive t := MEMBER | ADMIN.

Definition eqb (a b : t) : bool :=
  match a, b with
  | MEMBER, MEMBER | ADMIN, ADMIN => true
  | _, _ => false
  end.
End OrgRole.

Module Store.

(** Keys are strings (cuid). *)
Abbreviation Id := string (only parsing).

Inductive Priority := LOW | MEDIUM | HIGH | URGENT.

Inductive NotificationType :=
  TICKET_CREATED | TICKET_ASSIGNED | TICKET_STATUS_CHANGED | COMMENT_ADDED.

Record Organization := {
  org_id : Id;
  org_name : string;
  org_slug : string;
  org_subdomain : option string
}.

Record UserOrganization := {
  uo_userId : Id;
  uo_organizationId : Id;
  uo_role : OrgRole.t
}.

(** The columns of a user selected by [include: { user: { select:
    { id, email, name } } }]. *)
Record User := {
  user_id : Id;
  user_email : string;
  user_name : string
}.

Record Category := {
  cat_id : Id;
  cat_organizationId : Id;
  cat_name : string
}.

(** A row of user_category_assignments together with its [user]
    relation field, as [findMany] returns it with [include: { user }]. *)
Record UserCategoryAssignment := {
  uca_userId : Id;
  uca_categoryId : Id;
  uca_organizationId : Id;
  uca_user : User
}.

Record Ticket := {
  t_id : Id;
  t_title : string;
  t_description : string;
  t_priority : Priority;
  t_categoryId : option Id;
  t_userId : option Id;
  t_organizationId : Id;
  t_publicToken : option string;
  t_submitterName : option string;
  t_submitterEmail : option string;
  t_assignedTo : option Id;
  t_statusId : option Id
}.

Record Comment := {
  c_id : Id;
  c_ticketId : Id;
  c_userId : option Id;
  c_content : string
}.

Record TicketStatus := {
  ts_id : Id;
  ts_name : string;
  ts_order : Z;
  ts_organizationId : Id
}.

Record Notification := {
  n_userId : Id;
  n_type : NotificationType;
  n_title : string;
  n_message : string;
  n_ticketId : option Id
}.

Definition Metadata := list (string * option string).

Record ActivityLog := {
  al_ticketId : Id;
  al_userId : option Id;
  al_action : string;
  al_field : option string;
  al_oldValue : option string;
  al_newValue : option string;
  al_metadata : Metadata
}.

(** The tables, each in insertion order. *)
Record DB := {
  organizations : list Organization;
  users : list User;
  userOrganizations : list UserOrganization;
  categories : list Category;
  userCategoryAssignments : list UserCategoryAssignment;
  tickets : list Ticket;
  comments : list Comment;
  ticketStatuses : list TicketStatus;
  notifications : list Notification;
  activityLogs : list ActivityLog
}.

Definition optEqb (o : option string) (s : string) : bool :=
  match o with Some x => String.eqb x s | None => false end.

(** A [where] field whose value is [undefined] is left out of the
    query by Prisma: it constrains nothing. *)
Definition whereField (filter : option string) (column : string) : bool :=
  match filter with Some x => String.eqb x column | None => true end.

(** [prisma.organization.findFirst({ where: { OR: [{ slug }, { subdomain }] } })] *)
Definition organization_findFirst_slugOrSubdomain (db : DB) (s : string)
  : option Organization :=
  find (fun o => String.eqb (org_slug o) s || optEqb (org_subdomain o) s)
       (organizations db).

(** [prisma.organization.findMany({ select: ... })] *)
Definition organization_findMany (db : DB) : list Organization :=
  organizations db.

(** [prisma.userOrganization.findUnique({ where: { userId_organizationId } })] *)
Definition userOrganization_findUnique (db : DB) (userId organizationId : Id)
  : option UserOrganization :=
  find (fun m => String.eqb (uo_userId m) userId
                 && String.eqb (uo_organizationId m) organizationId)
       (userOrganizations db).

(** The [user] relation of a row: the user with that key, if any. *)
Definition user_findUnique (db : DB) (id : Id) : option User :=
  find (fun u => String.eqb (user_id u) id) (users db).

(** The [organization] relation of a row, reduced to
    [select: { slug: true }]. *)
Definition organization_slugOf (db : DB) (id : Id) : option string :=
  option_map org_slug
    (find (fun o => String.eqb (org_id o) id) (organizations db)).

(** The [category] relation of a ticket. *)
Definition category_ofTicket (db : DB) (categoryId : option Id) : option Category :=
  match categoryId with
  | Some id => find (fun c => String.eqb (cat_id c) id) (categories db)
  | None => None
  end.

(** [prisma.category.findFirst({ where: { id, organizationId } })] *)
Definition category_findFirst (db : DB) (id : Id) (organizationId : option Id)
  : option Category :=
  find (fun c => String.eqb (cat_id c) id
                 && whereField organizationId (cat_organizationId c))
       (categories db).


(** [prisma.userCategoryAssignment.findMany({ where: { categoryId,
    organizationId }, include: { user } })]. The query has no
    [orderBy]: which matching row comes first is left to the database.
    The rows are given here in the order of the table. *)
Definition userCategoryAssignment_findMany (db : DB) (categoryId : Id)
    (organizationId : option Id) : list UserCategoryAssignment :=
  filter (fun a => String.eqb (uca_categoryId a) categoryId
                   && whereField organizationId (uca_organizationId a))
         (userCategoryAssignments db).

(** [prisma.ticket.findUnique({ where: { publicToken } })] *)
Definition ticket_findUnique_publicToken (db : DB) (publicToken : string)
  : option Ticket :=
  find (fun t => optEqb (t_publicToken t) publicToken) (tickets db).

(** [prisma.ticket.findFirst({ where: { publicToken, organizationId } })] *)
Definition ticket_findFirst_publicToken (db : DB) (publicToken : string)
    (organizationId : option Id) : option Ticket :=
  find (fun t => optEqb (t_publicToken t) publicToken
                 && whereField organizationId (t_organizationId t))
       (tickets db).

(** The [comments] relation of a ticket. *)
Definition commentsOf (db : DB) (ticketId : Id) : list Comment :=
  filter (fun c => String.eqb (c_ticketId c) ticketId) (comments db).

(** Insertion sort on the [order] column for [orderBy: { order: 'asc' }].
    The source fixes no order among rows with the same [order]; this
    sort leaves them as the table has them, and nothing below relies
    on that choice. *)
Fixpoint insertByOrder (s : TicketStatus) (l : list TicketStatus)
  : list TicketStatus :=
  match l with
  | [] => [s]
  | x :: l' => if (ts_order s <=? ts_order x)%Z then s :: l
               else x :: insertByOrder s l'
  end.

Definition sortByOrder (l : list TicketStatus) : list TicketStatus :=
  fold_right insertByOrder [] l.

(** [prisma.ticketStatus.findMany({ where: { organizationId },
    orderBy: { order: 'asc' } })] *)
Definition ticketStatus_findMany (db : DB) (organizationId : option Id)
  : list TicketStatus :=
  sortByOrder
    (filter (fun s => whereField organizationId (ts_organizationId s))
            (ticketStatuses db)).

(** [prisma.ticketStatus.findFirst({ where: { id, organizationId } })] *)
Definition ticketStatus_findFirst (db : DB) (id : Id) (organizationId : option Id)
  : option TicketStatus :=
  find (fun s => String.eqb (ts_id s) id
                 && whereField organizationId (ts_organizationId s))
       (ticketStatuses db).

(** [_count: { select: { tickets: true } }] on a status: the tickets
    whose [statusId] is the status. *)
Definition ticketStatus_countTickets (db : DB) (statusId : Id) : nat :=
  length (filter (fun t => optEqb (t_statusId t) statusId) (tickets db)).

Definition set_tickets (db : DB) (l : list Ticket) : DB :=
  {| organizations := organizations db;
     users := users db;
     userOrganizations := userOrganizations db;
     categories := categories db;
     userCategoryAssignments := userCategoryAssignments db;
     tickets := l;
     comments := comments db;
     ticketStatuses := ticketStatuses db;
     notifications := notifications db;
     activityLogs := activityLogs db |}.

Definition set_ticketStatuses (db : DB) (l : list TicketStatus) : DB :=
  {| organizations := organizations db;
     users := users db;
     userOrganizations := userOrganizations db;
     categories := categories db;
     userCategoryAssignments := userCategoryAssignments db;
     tickets := tickets db;
     comments := comments db;
     ticketStatuses := l;
     notifications := notifications db;
     activityLogs := activityLogs db |}.

Definition set_notifications (db : DB) (l : list Notification) : DB :=
  {| organizations := organizations db;
     users := users db;
     userOrganizations := userOrganizations db;
     categories := categories db;
     userCategoryAssignments := userCategoryAssignments db;
     tickets := tickets db;
     comments := comments db;
     ticketStatuses := ticketStatuses db;
     notifications := l;
     activityLogs := activityLogs db |}.

Definition set_activityLogs (db : DB) (l : list ActivityLog) : DB :=
  {| organizations := organizations db;
     users := users db;
     userOrganizations := userOrganizations db;
     categories := categories db;
     userCategoryAssignments := userCategoryAssignments db;
     tickets := tickets db;
     comments := comments db;
     ticketStatuses := ticketStatuses db;
     notifications := notifications db;
     activityLogs := l |}.

(** [prisma.ticketStatus.delete({ where: { id } })] *)
Definition ticketStatus_delete (db : DB) (id : Id) : DB :=
  set_ticketStatuses db
    (filter (fun s => negb (String.eqb (ts_id s) id)) (ticketStatuses db)).

End Store.

(* ===================================================================== *)
(** ** Requests, responses, middleware outcomes *)
(* ===================================================================== *)

Module Http.
Import Store.

(** [req.organization] *)
Record OrgInfo := {
  oi_id : Id;
  oi_name : string;
  oi_slug : string;
  oi_subdomain : option string
}.

(** The parts of an Express request the middleware and handlers read,
    with the context fields the middleware chain fills in. *)
Record Request := {
  host : option string;                    (* req.get('host') *)
  params_orgSlug : option string;          (* req.params.orgSlug *)
  query_org : option string;               (* req.query.org *)
  header_x_organization_slug : option string;
  params_id : option string;               (* req.params.id *)
  query_token : option string;             (* req.query.token *)
  organizationId : option Id;              (* req.organizationId *)
  organization : option OrgInfo;           (* req.organization *)
  userId : option Id;                      (* req.userId *)
  userRole : option Role.t                 (* req.userRole *)
}.

Definition setOrganization (req : Request) (o : Organization) : Request :=
  {| host := host req;
     params_orgSlug := params_orgSlug req;
     query_org := query_org req;
     header_x_organization_slug := header_x_organization_slug req;
     params_id := params_id req;
     query_token := query_token req;
     organizationId := Some (org_id o);
     organization := Some {| oi_id := org_id o; oi_name := org_name o;
                             oi_slug := org_slug o;
                             oi_subdomain := org_subdomain o |};
     userId := userId req;
     userRole := userRole req |}.

(** What the handler registered for [GET /public] discloses of a
    ticket. *)
Record PublicTicket := {
  pt_id : Id;
  pt_title : string;
  pt_description : string;
  pt_priority : Priority;
  pt_category : option Category;
  pt_comments : list Comment
}.

Inductive Payload :=
| Message (m : string)
| ValidationErrors
| ServerError
| TicketJson (t : Ticket)
| SubmittedJson (t : Ticket) (publicToken : string) (m : string)
| PublicTicketJson (v : PublicTicket)
| StatusesJson (l : list TicketStatus)
| CategoriesJson (l : list Category).

Record Response := { status : nat; payload : Payload }.

Definition json (code : nat) (p : Payload) : Response :=
  {| status := code; payload := p |}.

(** A middleware either hands the (possibly updated) request to the
    next stage or answers the request itself. *)
Inductive Outcome :=
| Next (req : Request)
| Respond (r : Response).

(** Process configuration read from the environment. *)
Record Env := { MAIN_APP_HOST : option string }.

End Http.

(* ===================================================================== *)
(** ** middleware/organization.ts *)
(* ===================================================================== *)

Module Organization.
Import JS Store Http.

(** [host], [mainAppHost], [isMainAppHost] and [subdomain] of
    Method 1. *)
Definition hostOf (req : Request) : string :=
  splitHead ":" (toLowerCase (orElse (host req) "")).

Definition mainAppHostOf (env : Env) : string :=
  splitHead ":" (toLowerCase (orElse (MAIN_APP_HOST env) "")).

Definition isMainAppHost (env : Env) (req : Request) : bool :=
  truthyS (mainAppHostOf env) && String.eqb (hostOf req) (mainAppHostOf env).

Definition subdomainOf (req : Request) : string :=
  splitHead "." (hostOf req).

(** Method 1 alone: the slug the [Host] header contributes. *)
Definition subdomainSignal (env : Env) (req : Request) : option string :=
  let subdomain := subdomainOf req in
  if negb (isMainAppHost env req)
     && truthyS subdomain
     && negb (String.eqb subdomain "www")
     && negb (String.eqb subdomain "localhost")
     && negb (includesChar ":" subdomain)
  then Some subdomain
  else None.

(** [if (!organizationSlug && candidate) organizationSlug = candidate] *)
Definition orTry (organizationSlug candidate : option string) : option string :=
  if negb (truthy organizationSlug) && truthy candidate then candidate
  else organizationSlug.

(** The value of [organizationSlug] after Methods 1 to 4. *)
Definition organizationSlugOf (env : Env) (req : Request) : option string :=
  let organizationSlug := subdomainSignal env req in
  let organizationSlug := orTry organizationSlug (params_orgSlug req) in
  let organizationSlug := orTry organizationSlug (query_org req) in
  let organizationSlug := orTry organizationSlug (header_x_organization_slug req) in
  organizationSlug.

(** The fallback scan: [allOrgs.find(org => norm(org.slug) ===
    normalizedSlug || (org.subdomain && norm(org.subdomain) ===
    normalizedSlug))]. *)
Definition fallbackMatch (normalizedSlug : string) (org : Organization) : bool :=
  String.eqb (normalizeSlug (org_slug org)) normalizedSlug
  || match org_subdomain org with
     | Some sd => truthyS sd && String.eqb (normalizeSlug sd) normalizedSlug
     | None => false
     end.

(** Lookup of a normalised candidate: exact match, then the scan. *)
Definition lookupOrganization (db : DB) (normalizedSlug : string)
  : option Organization :=
  match organization_findFirst_slugOrSubdomain db normalizedSlug with
  | Some o => Some o
  | None => find (fallbackMatch normalizedSlug) (organization_findMany db)
  end.

(** Everything after the candidate has been chosen. *)
Definition resolveSlug (db : DB) (req : Request) (organizationSlug : option string)
  : Outcome :=
  match organizationSlug with
  | None => Next req
  | Some slug =>
    if negb (truthyS slug) then Next req
    else
      let normalizedSlug := normalizeSlug slug in
      if negb (truthyS normalizedSlug) then Next req
      else
        match lookupOrganization db normalizedSlug with
        | None => Respond (json 404 (Message "Organization not found"))
        | Some o => Next (setOrganization req o)
        end
  end.

Definition identifyOrganization (db : DB) (env : Env) (req : Request) : Outcome :=
  resolveSlug db req (organizationSlugOf env req).

Definition verifyOrganizationAccess (db : DB) (req : Request) : Outcome :=
  match organizationId req, userId req with
  | Some oid, Some uid =>
    if negb (truthyS oid) || negb (truthyS uid)
    then Respond (json 401 (Message "Authentication required"))
    else
      match userOrganization_findUnique db uid oid with
      | None =>
        Respond (json 403
          (Message "Access denied: User does not belong to this organization"))
      | Some _ => Next req
      end
  | _, _ => Respond (json 401 (Message "Authentication required"))
  end.

(** [req.userRole !== 'ADMIN'] *)
Definition userRoleIsNotAdmin (req : Request) : bool :=
  match userRole req with
  | Some r => negb (Role.eqb r Role.ADMIN)
  | None => true
  end.

Definition requireOrgAdmin (db : DB) (req : Request) : Outcome :=
  match organizationId req, userId req with
  | Some oid, Some uid =>
    if negb (truthyS oid) || negb (truthyS uid)
    then Respond (json 401 (Message "Authentication required"))
    else
      match userOrganization_findUnique db uid oid with
      | None =>
        Respond (json 403 (Message "Organization admin access required"))
      | Some userOrg =>
        if negb (OrgRole.eqb (uo_role userOrg) OrgRole.ADMIN)
           && userRoleIsNotAdmin req
        then Respond (json 403 (Message "Organization admin access required"))
        else Next req
      end
  | _, _ => Respond (json 401 (Message "Authentication required"))
  end.

End Organization.

(* ===================================================================== *)
(** ** Effects: store writes that can be rejected, console, mail, randomness *)
(* ===================================================================== *)

Module Effects.
Import Store.

(** Values a handler can find in a [catch]. *)
Inductive Error :=
| ZodError                 (* schema.parse rejected the body *)
| P2002                    (* unique constraint violation *)
| PrismaValidationError    (* a required field is missing from [data] *)
| StoreError (m : string). (* any other rejection by the store *)

Inductive Completion (A : Type) :=
| Returned (a : A)
| Thrown (e : Error).
Arguments Returned {A} a.
Arguments Thrown {A} e.

(** The writes of the three best-effort helpers. *)
Inductive Write :=
| WNotification (n : Notification)
| WNotifications (l : list Notification)
| WActivityLog (a : ActivityLog).

Inductive Email :=
| SubmissionEmail (to title ticketId : string) (publicToken : option string)
                  (organizationSlug : option string)
| AssignmentEmail (to title ticketId categoryName : string)
                  (organizationSlug : option string)
| CommentEmail (to title content authorName ticketId : string)
               (publicToken : option string) (organizationSlug : option string).

(** What the handlers call and do not define: [Math.random], zod's
    e-mail check, the keys the store gives new tickets, and whether the
    store rejects a best-effort write (connection lost, foreign key
    missing, ...). *)
Record Runtime := {
  random : nat -> Q;                          (* the n-th [Math.random()] *)
  zodEmail : string -> bool;                  (* [z.string().email()] *)
  cuid : nat -> Id;                           (* key of the n-th new ticket *)
  writeFault : DB -> Write -> option Error    (* [Some e]: the write throws [e] *)
}.

Record World := {
  db : DB;
  console : list string;    (* console.error lines *)
  outbox : list Email;      (* e-mails handed to the mailer *)
  draws : nat               (* calls of [Math.random] so far *)
}.

Definition withDb (w : World) (d : DB) : World :=
  {| db := d; console := console w; outbox := outbox w; draws := draws w |}.

(** Computations of a handler: they read and write the world and
    either return or throw. *)
Definition M (A : Type) : Type := World -> Completion A * World.

Definition ret {A} (a : A) : M A := fun w => (Returned a, w).

Definition throw {A} (e : Error) : M A := fun w => (Thrown e, w).

Definition bind {A B} (m : M A) (k : A -> M B) : M B :=
  fun w =>
    match m w with
    | (Returned a, w') => k a w'
    | (Thrown e, w') => (Thrown e, w')
    end.

(** [try { body } catch (error) { handler }] *)
Definition tryCatch {A} (body : M A) (handler : Error -> M A) : M A :=
  fun w =>
    match body w with
    | (Returned a, w') => (Returned a, w')
    | (Thrown e, w') => handler e w'
    end.

Definition console_error (line : string) : M unit :=
  fun w => (Returned tt,
            {| db := db w; console := console w ++ [line];
               outbox := outbox w; draws := draws w |}).

(** Handing a message to the mailer; the send functions catch their
    own transport errors, so nothing is thrown here. *)
Definition sendMail (e : Email) : M unit :=
  fun w => (Returned tt,
            {| db := db w; console := console w;
               outbox := outbox w ++ [e]; draws := draws w |}).

Definition Math_random (rt : Runtime) : M Q :=
  fun w => (Returned (random rt (draws w)),
            {| db := db w; console := console w;
               outbox := outbox w; draws := S (draws w) |}).

(** A read of the store. *)
Definition query {A} (q : DB -> A) : M A := fun w => (Returned (q (db w)), w).

(** [list.forEach(f)] *)
Fixpoint forEach {A} (l : list A) (f : A -> M unit) : M unit :=
  match l with
  | [] => ret tt
  | x :: l' => bind (f x) (fun _ => forEach l' f)
  end.

End Effects.

Declare Scope handler_scope.
Delimit Scope handler_scope with handler.
Notation "x <- m ;; k" := (Effects.bind m (fun x => k))
  (at level 61, m at next level, right associativity) : handler_scope.
Notation "m ;;; k" := (Effects.bind m (fun _ => k))
  (at level 61, right associativity) : handler_scope.

(* ===================================================================== *)
(** ** utils/notifications.ts and utils/activityLog.ts *)
(* ===================================================================== *)

Module Notifications.
Import Store Effects.
Local Open Scope handler_scope.

Record CreateNotificationData := {
  cn_userId : Id;
  cn_type : NotificationType;
  cn_title : string;
  cn_message : string;
  cn_ticketId : option Id
}.

Definition rowOf (data : CreateNotificationData) : Notification :=
  {| n_userId := cn_userId data; n_type := cn_type data;
     n_title := cn_title data; n_message := cn_message data;
     n_ticketId := cn_ticketId data |}.

(** [prisma.notification.create({ data })] *)
Definition prisma_notification_create (rt : Runtime) (n : Notification) : M unit :=
  fun w =>
    match writeFault rt (db w) (WNotification n) with
    | Some e => (Thrown e, w)
    | None => (Returned tt,
               withDb w (set_notifications (db w) (notifications (db w) ++ [n])))
    end.

(** [prisma.notification.createMany({ data })] *)
Definition prisma_notification_createMany (rt : Runtime) (l : list Notification)
  : M unit :=
  fun w =>
    match writeFault rt (db w) (WNotifications l) with
    | Some e => (Thrown e, w)
    | None => (Returned tt,
               withDb w (set_notifications (db w) (notifications (db w) ++ l)))
    end.

(** [prisma.activityLog.create({ data })] *)
Definition prisma_activityLog_create (rt : Runtime) (a : ActivityLog) : M unit :=
  fun w =>
    match writeFault rt (db w) (WActivityLog a) with
    | Some e => (Thrown e, w)
    | None => (Returned tt,
               withDb w (set_activityLogs (db w) (activityLogs (db w) ++ [a])))
    end.

Definition createNotification (rt : Runtime) (data : CreateNotificationData)
  : M unit :=
  tryCatch
    (prisma_notification_create rt (rowOf data))
    (fun error => console_error "Failed to create notification:").

(** The fields of [data] without [userId]. *)
Record NotificationContent := {
  nc_type : NotificationType;
  nc_title : string;
  nc_message : string;
  nc_ticketId : option Id
}.

Definition createNotificationsForUsers (rt : Runtime) (userIds : list Id)
    (data : NotificationContent) : M unit :=
  tryCatch
    (prisma_notification_createMany rt
       (map (fun userId =>
               {| n_userId := userId; n_type := nc_type data;
                  n_title := nc_title data; n_message := nc_message data;
                  n_ticketId := nc_ticketId data |})
            userIds))
    (fun error => console_error "Failed to create notifications:").

Record ActivityLogData := {
  ald_ticketId : Id;
  ald_userId : option Id;
  ald_action : string;
  ald_field : option string;
  ald_oldValue : option string;
  ald_newValue : option string;
  ald_metadata : option Metadata
}.

Definition createActivityLog (rt : Runtime) (data : ActivityLogData) : M unit :=
  tryCatch
    (prisma_activityLog_create rt
       {| al_ticketId := ald_ticketId data;
          al_userId := ald_userId data;
          al_action := ald_action data;
          al_field := ald_field data;
          al_oldValue := ald_oldValue data;
          al_newValue := ald_newValue data;
          al_metadata := match ald_metadata data with
                         | Some m => m
                         | None => []
                         end |})
    (fun error => console_error "Failed to create activity log:").

Definition logTicketAction (rt : Runtime) (ticketId : Id) (userId : option Id)
    (action : string) (metadata : option Metadata) : M unit :=
  createActivityLog rt
    {| ald_ticketId := ticketId; ald_userId := userId; ald_action := action;
       ald_field := None; ald_oldValue := None; ald_newValue := None;
       ald_metadata := metadata |}.

End Notifications.

(* ===================================================================== *)
(** ** routes/tickets.ts *)
(* ===================================================================== *)

Module Tickets.
Import JS Store Http Effects Notifications.
Local Open Scope handler_scope.

(** The JSON body of a creation request: each field absent or a string. *)
Record Body := {
  b_title : option string;
  b_description : option string;
  b_priority : option string;
  b_categoryId : option string;
  b_submitterName : option string;
  b_submitterEmail : option string
}.

(** [z.string().min(n)] on a required field. *)
Definition zStringMin (n : nat) (field : option string) : option string :=
  match field with
  | Some s => if (n <=? String.length s)%nat then Some s else None
  | None => None
  end.

(** [z.enum(['LOW', 'MEDIUM', 'HIGH', 'URGENT'])] *)
Definition zPriority (s : string) : option Priority :=
  if String.eqb s "LOW" then Some LOW
  else if String.eqb s "MEDIUM" then Some MEDIUM
  else if String.eqb s "HIGH" then Some HIGH
  else if String.eqb s "URGENT" then Some URGENT
  else None.

(** What [POST /] keeps of the parsed body. *)
Record CreateTicket := {
  ct_title : string;
  ct_description : string;
  ct_priority : option Priority;
  ct_categoryId : option string
}.

(** [createTicketSchema.parse(req.body)], destructured to [title],
    [description], [priority], [categoryId]. *)
Definition createTicketSchema_parse (rt : Runtime) (body : Body) : M CreateTicket :=
  match zStringMin 3 (b_title body), zStringMin 10 (b_description body) with
  | Some title, Some description =>
    let priorityOk :=
      match b_priority body with
      | Some p => match zPriority p with Some _ => true | None => false end
      | None => true
      end in
    let emailOk :=
      match b_submitterEmail body with
      | Some e => zodEmail rt e
      | None => true
      end in
    if priorityOk && emailOk then
      ret {| ct_title := title; ct_description := description;
             ct_priority := match b_priority body with
                            | Some p => zPriority p
                            | None => None
                            end;
             ct_categoryId := b_categoryId body |}
    else throw ZodError
  | _, _ => throw ZodError
  end.

Record CreatePublicTicket := {
  cpt_title : string;
  cpt_description : string;
  cpt_categoryId : option string;
  cpt_submitterName : string;
  cpt_submitterEmail : string
}.

(** [createPublicTicketSchema.parse(req.body)] *)
Definition createPublicTicketSchema_parse (rt : Runtime) (body : Body)
  : M CreatePublicTicket :=
  match zStringMin 3 (b_title body), zStringMin 10 (b_description body),
        zStringMin 2 (b_submitterName body), b_submitterEmail body with
  | Some title, Some description, Some submitterName, Some submitterEmail =>
    if zodEmail rt submitterEmail then
      ret {| cpt_title := title; cpt_description := description;
             cpt_categoryId := b_categoryId body;
             cpt_submitterName := submitterName;
             cpt_submitterEmail := submitterEmail |}
    else throw ZodError
  | _, _, _, _ => throw ZodError
  end.

(** *** Tracking token *)

Definition chars : string := "ABCDEFGHJKLMNPQRSTUVWXYZ23456789".

(** [s.charAt(i)]: the empty string outside the string. *)
Definition charAt (s : string) (i : Z) : string :=
  if (i <? 0)%Z then ""
  else match String.get (Z.to_nat i) s with
       | Some c => String c ""
       | None => ""
       end.

(** [Math.floor(r * chars.length)] *)
Definition randomIndex (r : Q) : Z :=
  Qfloor (r * inject_Z (Z.of_nat (String.length chars)))%Q.

(** The body of [for (let i = 0; i < 8; i++)], [n] rounds to go. *)
Fixpoint generateLoop (rt : Runtime) (n : nat) (token : string) : M string :=
  match n with
  | O => ret token
  | S n' =>
    r <- Math_random rt ;;
    generateLoop rt n' (token ++ charAt chars (randomIndex r))
  end.

Definition generateSimpleToken (rt : Runtime) : M string :=
  generateLoop rt 8 "".

Record TokenState := {
  publicToken : string;
  tokenExists : option Ticket;
  attempts : nat
}.

(** The guard [tokenExists && attempts < 10]. *)
Definition retryGuard (s : TokenState) : bool :=
  match tokenExists s with Some _ => true | None => false end
  && (attempts s <? 10)%nat.

(** [while (tokenExists && attempts < 10) { ... }], unrolled at most
    [budget] times. *)
Fixpoint retryLoop (rt : Runtime) (budget : nat) (s : TokenState) : M TokenState :=
  match budget with
  | O => ret s
  | S budget' =>
    if retryGuard s then
      publicToken' <- generateSimpleToken rt ;;
      tokenExists' <- query (fun d => ticket_findUnique_publicToken d publicToken') ;;
      retryLoop rt budget'
        {| publicToken := publicToken'; tokenExists := tokenExists';
           attempts := S (attempts s) |}
    else ret s
  end.

(** The block under "Ensure token is unique", the same in [POST /]
    and [POST /public]. The guard admits ten rounds at most, which is
    the budget given to the loop. *)
Definition ensureUniqueToken (rt : Runtime) : M TokenState :=
  publicToken0 <- generateSimpleToken rt ;;
  tokenExists0 <- query (fun d => ticket_findUnique_publicToken d publicToken0) ;;
  retryLoop rt 10
    {| publicToken := publicToken0; tokenExists := tokenExists0; attempts := 0 |}.

(** *** Auto-assignment *)

(** The block under "Auto-assign ticket based on category assignment",
    the same in both creation handlers: [(assignedUserId,
    allAssignedUsers)]. *)
Definition autoAssign (categoryId : option string) (organizationId : option Id)
  : M (option Id * list User) :=
  match categoryId with
  | Some cid =>
    if truthyS cid then
      assignments <- query (fun d =>
                       userCategoryAssignment_findMany d cid organizationId) ;;
      match assignments with
      | first :: _ => ret (Some (uca_userId first), map uca_user assignments)
      | [] => ret (None, [])
      end
    else ret (None, [])
  | None => ret (None, [])
  end.

(** "Verify category belongs to organization if provided": [inl] is
    the early 400 response, [inr] the value of [category]. *)
Definition verifyCategory (categoryId : option string) (organizationId : option Id)
  : M (Response + option Category) :=
  match categoryId with
  | Some cid =>
    if truthyS cid then
      category <- query (fun d => category_findFirst d cid organizationId) ;;
      match category with
      | None => ret (inl (json 400 (Message "Category not found in this organization")))
      | Some c => ret (inr (Some c))
      end
    else ret (inr None)
  | None => ret (inr None)
  end.

(** *** Creating the row *)

Record TicketCreateData := {
  d_title : string;
  d_description : string;
  d_priority : Priority;
  d_categoryId : option Id;
  d_userId : option Id;
  d_organizationId : option Id;   (* [req.organizationId!] *)
  d_publicToken : option string;
  d_submitterName : option string;
  d_submitterEmail : option string;
  d_assignedTo : option Id
}.

Definition tokenTaken (d : DB) (token : option string) : bool :=
  match token with
  | Some p => existsb (fun t => optEqb (t_publicToken t) p) (tickets d)
  | None => false
  end.

(** [prisma.ticket.create({ data })]: the store refuses a row without
    its organization and a second row with the same [publicToken]
    (the column is unique); columns absent from [data] are null. *)
Definition prisma_ticket_create (rt : Runtime) (data : TicketCreateData) : M Ticket :=
  fun w =>
    match d_organizationId data with
    | None => (Thrown PrismaValidationError, w)
    | Some organizationId =>
      if tokenTaken (db w) (d_publicToken data) then (Thrown P2002, w)
      else
        let ticket :=
          {| t_id := cuid rt (length (tickets (db w)));
             t_title := d_title data;
             t_description := d_description data;
             t_priority := d_priority data;
             t_categoryId := d_categoryId data;
             t_userId := d_userId data;
             t_organizationId := organizationId;
             t_publicToken := d_publicToken data;
             t_submitterName := d_submitterName data;
             t_submitterEmail := d_submitterEmail data;
             t_assignedTo := d_assignedTo data;
             t_statusId := None |} in
        (Returned ticket, withDb w (set_tickets (db w) (tickets (db w) ++ [ticket])))
    end.

Definition quote : string := String (ascii_of_nat 34) "".

Definition priorityName (p : Priority) : string :=
  match p with
  | LOW => "LOW" | MEDIUM => "MEDIUM" | HIGH => "HIGH" | URGENT => "URGENT"
  end.

(** The error handler shared by the creation routes. *)
Definition onError (error : Error) : M Response :=
  match error with
  | ZodError => ret (json 400 ValidationErrors)
  | _ => ret (json 500 ServerError)
  end.

(** The data [POST /] passes to [prisma.ticket.create]. *)
Definition createData (d : CreateTicket) (userId organizationId : Id)
    (publicToken : string) (assignedUserId : option Id) : TicketCreateData :=
  {| d_title := ct_title d;
     d_description := ct_description d;
     d_priority := match ct_priority d with Some p => p | None => MEDIUM end;
     d_categoryId := orNull (ct_categoryId d);
     d_userId := Some userId;
     d_organizationId := Some organizationId;
     d_publicToken := Some publicToken;
     d_submitterName := None;
     d_submitterEmail := None;
     d_assignedTo := orNull assignedUserId |}.

(** The data [POST /public] passes to [prisma.ticket.create]. *)
Definition createPublicData (d : CreatePublicTicket) (organizationId : option Id)
    (publicToken : string) (assignedUserId : option Id) : TicketCreateData :=
  {| d_title := cpt_title d;
     d_description := cpt_description d;
     d_priority := MEDIUM;
     d_categoryId := orNull (cpt_categoryId d);
     d_userId := None;
     d_organizationId := organizationId;
     d_publicToken := Some publicToken;
     d_submitterName := orNull (Some (cpt_submitterName d));
     d_submitterEmail := orNull (Some (cpt_submitterEmail d));
     d_assignedTo := orNull assignedUserId |}.

(** The in-app notification of one assigned user. *)
Definition assignedNotification (ticket : Ticket) (assignedUser : User)
  : CreateNotificationData :=
  {| cn_userId := user_id assignedUser;
     cn_type := TICKET_ASSIGNED;
     cn_title := "Ticket Assigned";
     cn_message := "You have been assigned to ticket " ++ quote
                   ++ t_title ticket ++ quote ++ ".";
     cn_ticketId := Some (t_id ticket) |}.

Definition assignmentEmail (d : DB) (ticket : Ticket) (category : Category)
    (assignedUser : User) : Email :=
  AssignmentEmail (user_email assignedUser) (t_title ticket) (t_id ticket)
                  (cat_name category)
                  (organization_slugOf d (t_organizationId ticket)).

(** The function [POST /] passes to [allAssignedUsers.forEach]: the
    assignment e-mail, then the in-app notification, of one user. *)
Definition notifyAssignedUser (rt : Runtime) (ticket : Ticket) (category : Category)
    (assignedUser : User) : M unit :=
  mail <- query (fun db => assignmentEmail db ticket category assignedUser) ;;
  sendMail mail ;;;
  tryCatch
    (createNotification rt (assignedNotification ticket assignedUser))
    (fun err => console_error "Failed to create notification for user").

(** The function [POST /public] passes to [allAssignedUsers.forEach]:
    the assignment e-mail of one user. *)
Definition mailAssignedUser (ticket : Ticket) (category : Category)
    (assignedUser : User) : M unit :=
  mail <- query (fun db => assignmentEmail db ticket category assignedUser) ;;
  sendMail mail.

(** [POST /] after [authenticate], [identifyOrganization],
    [getOrganizationFromUser], [verifyOrganizationAccess]: [userId]
    and [organizationId] are [req.userId!] and [req.organizationId!],
    both present once the guards have passed. *)
Definition POST_root (rt : Runtime) (userId organizationId : Id) (body : Body)
  : M Response :=
  tryCatch
    (d <- createTicketSchema_parse rt body ;;
     checked <- verifyCategory (ct_categoryId d) (Some organizationId) ;;
     match checked with
     | inl response => ret response
     | inr category =>
       token <- ensureUniqueToken rt ;;
       assigned <- autoAssign (ct_categoryId d) (Some organizationId) ;;
       let '(assignedUserId, allAssignedUsers) := assigned in
       ticket <- prisma_ticket_create rt
                   (createData d userId organizationId (publicToken token)
                               assignedUserId) ;;
       logTicketAction rt (t_id ticket) (Some userId) "TICKET_CREATED"
         (Some [("title", Some (t_title ticket));
                ("priority", Some (priorityName (t_priority ticket)));
                ("categoryId", t_categoryId ticket)]) ;;;
       createNotification rt
         {| cn_userId := userId;
            cn_type := TICKET_CREATED;
            cn_title := "Ticket Created";
            cn_message := "Your ticket " ++ quote ++ t_title ticket ++ quote
                          ++ " has been created successfully.";
            cn_ticketId := Some (t_id ticket) |} ;;;
       user <- query (fun db => user_findUnique db userId) ;;
       slug <- query (fun db => organization_slugOf db (t_organizationId ticket)) ;;
       match user with
       | Some u =>
         if truthyS (user_email u)
         then sendMail (SubmissionEmail (user_email u) (t_title ticket)
                          (t_id ticket) (t_publicToken ticket) slug)
         else ret tt
       | None => ret tt
       end ;;;
       match allAssignedUsers, category with
       | _ :: _, Some cat =>
         forEach allAssignedUsers (notifyAssignedUser rt ticket cat)
       | _, _ => ret tt
       end ;;;
       ret (json 201 (TicketJson ticket))
     end)
    onError.

(** The handler of [POST /public]; [organizationId] is
    [req.organizationId!] as [identifyOrganization] left it. *)
Definition POST_public_handler (rt : Runtime) (organizationId : option Id)
    (body : Body) : M Response :=
  tryCatch
    (d <- createPublicTicketSchema_parse rt body ;;
     checked <- verifyCategory (cpt_categoryId d) organizationId ;;
     match checked with
     | inl response => ret response
     | inr category =>
       token <- ensureUniqueToken rt ;;
       assigned <- autoAssign (cpt_categoryId d) organizationId ;;
       let '(assignedUserId, allAssignedUsers) := assigned in
       ticket <- prisma_ticket_create rt
                   (createPublicData d organizationId (publicToken token)
                                     assignedUserId) ;;
       slug <- query (fun db => organization_slugOf db (t_organizationId ticket)) ;;
       (if truthyS (cpt_submitterEmail d)
        then sendMail (SubmissionEmail (cpt_submitterEmail d) (t_title ticket)
                         (t_id ticket) (Some (publicToken token)) slug)
        else ret tt) ;;;
       match allAssignedUsers, category with
       | _ :: _, Some cat =>
         forEach allAssignedUsers (mailAssignedUser ticket cat)
       | _, _ => ret tt
       end ;;;
       ret (json 201
              (SubmittedJson ticket (publicToken token)
                 "Ticket submitted successfully. Use the publicToken to track your ticket."))
     end)
    onError.

(** A route behind [identifyOrganization] only. *)
Definition POST_public (rt : Runtime) (env : Env) (req : Request) (body : Body)
  : M Response :=
  fun w =>
    match Organization.identifyOrganization (db w) env req with
    | Respond r => (Returned r, w)
    | Next req' => POST_public_handler rt (organizationId req') body w
    end.

Definition publicView (d : DB) (ticket : Ticket) : PublicTicket :=
  {| pt_id := t_id ticket;
     pt_title := t_title ticket;
     pt_description := t_description ticket;
     pt_priority := t_priority ticket;
     pt_category := category_ofTicket d (t_categoryId ticket);
     pt_comments := commentsOf d (t_id ticket) |}.

(** The handler registered for [GET /public] (behind
    [identifyOrganization] only). The router reaches it for no
    request: see [TicketRouter.GET_segment]. *)
Definition GET_public_handler (d : DB) (req : Request) : Response :=
  let token := query_token req in
  let organizationId := organizationId req in
  match token with
  | Some tok =>
    if negb (truthyS tok) then json 400 (Message "Tracking token is required")
    else
      match ticket_findFirst_publicToken d tok organizationId with
      | None => json 404 (Message "Ticket not found")
      | Some ticket => json 200 (PublicTicketJson (publicView d ticket))
      end
  | None => json 400 (Message "Tracking token is required")
  end.

End Tickets.

(* ===================================================================== *)
(** ** The status router *)
(* ===================================================================== *)

Module Statuses.
Import JS Store Http.

(** The handler of [GET /]. *)
Definition GET_root_handler (d : DB) (req : Request) : Response :=
  json 200 (StatusesJson (ticketStatus_findMany d (organizationId req))).

Definition GET_root (d : DB) (env : Env) (req : Request) : Response :=
  match Organization.identifyOrganization d env req with
  | Respond r => r
  | Next req' => GET_root_handler d req'
  end.

(** The handler of [DELETE /:id]: the response and the store it leaves. *)
Definition DELETE_id_handler (d : DB) (req : Request) (id : Id) : Response * DB :=
  match ticketStatus_findFirst d id (organizationId req) with
  | None => (json 404 (Message "Ticket status not found"), d)
  | Some status =>
    if (0 <? ticketStatus_countTickets d (ts_id status))%nat then
      (json 400 (Message
         "Cannot delete status: some tickets use it. Reassign those tickets to another status first."),
       d)
    else
      (json 200 (Message "Ticket status deleted successfully"),
       ticketStatus_delete d id)
  end.

(** [DELETE /:id] from its last guard on: [requireOrgAdmin], then the
    handler. *)
Definition DELETE_id (d : DB) (req : Request) (id : Id) : Response * DB :=
  match Organization.requireOrgAdmin d req with
  | Respond r => (r, d)
  | Next req' => DELETE_id_handler d req' id
  end.

End Statuses.

(* ===================================================================== *)
(** ** The super-admin router *)
(* ===================================================================== *)

Module Admin.
Import Store Http.



End Admin.

(* ===================================================================== *)
(** ** A small deployment used in the examples *)
(* ===================================================================== *)

Module Examples.
Import JS Store Http Effects Tickets.

Definition orgA : Organization :=
  {| org_id := "org-a"; org_name := "Acme"; org_slug := "acme-corp";
     org_subdomain := None |}.

Definition orgB : Organization :=
  {| org_id := "org-b"; org_name := "Ticketing"; org_slug := "ticketing";
     org_subdomain := None |}.

Definition u1 : User :=
  {| user_id := "u1"; user_email := "u1@acme.test"; user_name := "Una" |}.

Definition u2 : User :=
  {| user_id := "u2"; user_email := "u2@acme.test"; user_name := "Ugo" |}.

Definition member1 : UserOrganization :=
  {| uo_userId := "u1"; uo_organizationId := "org-a"; uo_role := OrgRole.MEMBER |}.

Definition catA : Category :=
  {| cat_id := "cat-a"; cat_organizationId := "org-a"; cat_name := "Printers" |}.

Definition catB : Category :=
  {| cat_id := "cat-b"; cat_organizationId := "org-b"; cat_name := "Billing" |}.

Definition assign1 : UserCategoryAssignment :=
  {| uca_userId := "u1"; uca_categoryId := "cat-a";
     uca_organizationId := "org-a"; uca_user := u1 |}.

Definition assign2 : UserCategoryAssignment :=
  {| uca_userId := "u2"; uca_categoryId := "cat-a";
     uca_organizationId := "org-a"; uca_user := u2 |}.

Definition statusA : TicketStatus :=
  {| ts_id := "st-a"; ts_name := "Open"; ts_order := 0%Z;
     ts_organizationId := "org-a" |}.

Definition statusB : TicketStatus :=
  {| ts_id := "st-b"; ts_name := "Open"; ts_order := 0%Z;
     ts_organizationId := "org-b" |}.

(** A ticket of the second organization, with the token that a
    random source stuck at 0 generates. *)
Definition ticketB : Ticket :=
  {| t_id := "t-b"; t_title := "Invoice"; t_description := "Wrong amount billed";
     t_priority := MEDIUM; t_categoryId := Some "cat-b"; t_userId := None;
     t_organizationId := "org-b"; t_publicToken := Some "AAAAAAAA";
     t_submitterName := Some "Bo"; t_submitterEmail := Some "bo@x.test";
     t_assignedTo := None; t_statusId := Some "st-b" |}.

Definition db0 : DB :=
  {| organizations := [orgA; orgB];
     users := [u1; u2];
     userOrganizations := [member1];
     categories := [catA; catB];
     userCategoryAssignments := [assign1; assign2];
     tickets := [ticketB];
     comments := [];
     ticketStatuses := [statusA; statusB];
     notifications := [];
     activityLogs := [] |}.

Definition w0 : World :=
  {| db := db0; console := []; outbox := []; draws := 0 |}.

(** A request as the middleware chain may see it. *)
Definition request (hostHeader orgSlug org header token : option string)
    (organizationId userId : option Id) (role : option Role.t) : Request :=
  {| host := hostHeader; params_orgSlug := orgSlug; query_org := org;
     header_x_organization_slug := header; params_id := None;
     query_token := token; organizationId := organizationId;
     organization := None; userId := userId; userRole := role |}.

Definition envMain : Env :=
  {| MAIN_APP_HOST := Some "ticketing.beyondcompany.sa" |}.

Definition envNone : Env := {| MAIN_APP_HOST := None |}.

(** On the main host, naming the first tenant in the query string. *)
Definition reqMainHost : Request :=
  request (Some "ticketing.beyondcompany.sa") None (Some "ACME-Corp") None None
          None None None.

(** A platform ADMIN on the first tenant, of which they are no member. *)
Definition reqPlatformAdmin : Request :=
  request None None None None None (Some "org-a") (Some "admin-x")
          (Some Role.ADMIN).

(** A platform ADMIN who is a plain member of the first tenant. *)
Definition reqAdminMember : Request :=
  request None None None None None (Some "org-a") (Some "u1") (Some Role.ADMIN).


(** Tracking by token on the main host, with no tenant signal at all. *)
Definition reqNoTenant : Request :=
  request (Some "ticketing.beyondcompany.sa") None None None (Some "AAAAAAAA")
          None None None.

(** A public submission naming the first tenant in the header. *)
Definition reqHeaderA : Request :=
  request (Some "localhost:4000") None None (Some "acme-corp") None
          None None None.

(** Tracking the ticket of the second tenant from its own site. *)
Definition reqTrackB : Request :=
  request (Some "ticketing.example.com") None None None (Some "AAAAAAAA")
          None None None.

(** An admin request of the second tenant. *)
Definition reqOrgB : Request :=
  request None None None None None (Some "org-b") (Some "u9") (Some Role.ADMIN).

Definition body0 : Body :=
  {| b_title := Some "Printer broken";
     b_description := Some "It will not turn on at all today";
     b_priority := None;
     b_categoryId := Some "cat-a";
     b_submitterName := Some "Sam";
     b_submitterEmail := Some "sam@x.com" |}.

(** A runtime whose random source is stuck at 1/2 and whose store
    accepts every write. *)
Definition rtHalf : Runtime :=
  {| random := fun _ => (1 # 2)%Q;
     zodEmail := includesChar "@";
     cuid := fun _ => "t-new";
     writeFault := fun _ _ => None |}.

(** A runtime whose random source is stuck at 0. *)
Definition rtZero : Runtime :=
  {| random := fun _ => 0%Q;
     zodEmail := includesChar "@";
     cuid := fun _ => "t-new";
     writeFault := fun _ _ => None |}.

(** The same as [rtHalf] with a store that rejects every best-effort
    write. *)
Definition rtDown : Runtime :=
  {| random := fun _ => (1 # 2)%Q;
     zodEmail := includesChar "@";
     cuid := fun _ => "t-new";
     writeFault := fun _ _ => Some (StoreError "connection lost") |}.

(** The ticket both creation paths produce for [body0] on [w0]. *)
Definition createdAuth : Ticket :=
  {| t_id := "t-new"; t_title := "Printer broken";
     t_description := "It will not turn on at all today";
     t_priority := MEDIUM; t_categoryId := Some "cat-a"; t_userId := Some "u1";
     t_organizationId := "org-a"; t_publicToken := Some "SSSSSSSS";
     t_submitterName := None; t_submitterEmail := None;
     t_assignedTo := Some "u1"; t_statusId := None |}.

Definition createdPublic : Ticket :=
  {| t_id := "t-new"; t_title := "Printer broken";
     t_description := "It will not turn on at all today";
     t_priority := MEDIUM; t_categoryId := Some "cat-a"; t_userId := None;
     t_organizationId := "org-a"; t_publicToken := Some "SSSSSSSS";
     t_submitterName := Some "Sam"; t_submitterEmail := Some "sam@x.com";
     t_assignedTo := Some "u1"; t_statusId := None |}.

(** The worlds the two creations leave. *)
Definition wAuth : World :=
  Eval vm_compute in snd (POST_root rtHalf "u1" "org-a" body0 w0).

Definition wPublic : World :=
  Eval vm_compute in snd (POST_public_handler rtHalf (Some "org-a") body0 w0).

End Examples.

(* ===================================================================== *)
(** ** middleware/auth.ts *)
(* ===================================================================== *)

Module Auth.
Import JS Store Http.

(** What a verified bearer token carries. *)
Record TokenPayload := {
  tp_userId : Id;
  tp_role : Role.t;
  tp_organizationId : option Id
}.

(** [s.split(sep)], on characters. *)
Fixpoint splitL (sep : ascii) (cur : list ascii) (l : list ascii)
  : list (list ascii) :=
  match l with
  | [] => [rev cur]
  | c :: l' =>
    if Ascii.eqb c sep then rev cur :: splitL sep [] l'
    else splitL sep (c :: cur) l'
  end.

Definition split (sep : ascii) (s : string) : list string :=
  map string_of_list_ascii (splitL sep [] (list_ascii_of_string s)).

(** [req.headers.authorization?.split(' ')[1]] *)
Definition bearerToken (authorization : option string) : option string :=
  match authorization with
  | Some h => nth_error (split " " h) 1
  | None => None
  end.

(** The assignments to [req.userId], [req.userRole] and, when the token
    names one, [req.organizationId]. *)
Definition setUser (req : Request) (decoded : TokenPayload) : Request :=
  {| host := host req;
     params_orgSlug := params_orgSlug req;
     query_org := query_org req;
     header_x_organization_slug := header_x_organization_slug req;
     params_id := params_id req;
     query_token := query_token req;
     organizationId := if truthy (tp_organizationId decoded)
                       then tp_organizationId decoded
                       else organizationId req;
     organization := organization req;
     userId := Some (tp_userId decoded);
     userRole := Some (tp_role decoded) |}.

Section Verify.
(** [jwt.verify(token, secret)]: the payload, or [None] when it throws. *)
Variable verify : string -> option TokenPayload.

Definition authenticate (authorization : option string) (req : Request) : Outcome :=
  match bearerToken authorization with
  | Some token =>
    if negb (truthyS token)
    then Respond (json 401 (Message "Authentication required"))
    else
      match verify token with
      | Some decoded => Next (setUser req decoded)
      | None => Respond (json 401 (Message "Invalid or expired token"))
      end
  | None => Respond (json 401 (Message "Authentication required"))
  end.

Definition optionalAuthenticate (authorization : option string) (req : Request)
  : Outcome :=
  match bearerToken authorization with
  | Some token =>
    if negb (truthyS token) then Next req
    else
      match verify token with
      | Some decoded => Next (setUser req decoded)
      | None => Next req
      end
  | None => Next req
  end.
End Verify.

Definition requireAdmin (req : Request) : Outcome :=
  match userRole req with
  | Some Role.ADMIN => Next req
  | _ => Respond (json 403 (Message "Admin access required"))
  end.

End Auth.

(* ===================================================================== *)
(** ** middleware/organization.ts: the membership fallback *)
(* ===================================================================== *)

Module OrganizationFallback.
Import JS Store Http.

(** [prisma.userOrganization.findFirst({ where: { userId }, orderBy:
    { createdAt: 'asc' } })]: rows get their [createdAt] on insertion,
    so the earliest one is the first of the table. *)
Definition userOrganization_findFirst_byUser (db : DB) (userId : Id)
  : option UserOrganization :=
  find (fun m => String.eqb (uo_userId m) userId) (userOrganizations db).

(** The [organization] relation of a membership row. *)
Definition organization_findUnique (db : DB) (id : Id) : option Organization :=
  find (fun o => String.eqb (org_id o) id) (organizations db).

(** The assignments of [getOrganizationFromUser], whose [subdomain] is
    [organization.subdomain || undefined]. *)
Definition adoptOrganization (req : Request) (o : Organization) : Request :=
  {| host := host req;
     params_orgSlug := params_orgSlug req;
     query_org := query_org req;
     header_x_organization_slug := header_x_organization_slug req;
     params_id := params_id req;
     query_token := query_token req;
     organizationId := Some (org_id o);
     organization := Some {| oi_id := org_id o; oi_name := org_name o;
                             oi_slug := org_slug o;
                             oi_subdomain := orNull (org_subdomain o) |};
     userId := userId req;
     userRole := userRole req |}.

(** A membership row whose organization is missing makes the handler
    read a property of null: the [catch] answers 500. *)
Definition getOrganizationFromUser (db : DB) (req : Request) : Outcome :=
  if truthy (organizationId req) then Next req
  else
    match userId req with
    | Some uid =>
      if negb (truthyS uid)
      then Respond (json 401 (Message "Authentication required"))
      else
        match userOrganization_findFirst_byUser db uid with
        | None =>
          Respond (json 400 (Message "User is not a member of any organization"))
        | Some userOrg =>
          match organization_findUnique db (uo_organizationId userOrg) with
          | Some o => Next (adoptOrganization req o)
          | None => Respond (json 500 (Message "Error getting user organization"))
          end
        end
    | None => Respond (json 401 (Message "Authentication required"))
    end.

(** The optional variant sets [subdomain] with [?? undefined], as
    [identifyOrganization] does. *)
Definition getOrganizationFromUserOptionalAuth (db : DB) (req : Request) : Outcome :=
  if truthy (organizationId req) then Next req
  else
    match userId req with
    | Some uid =>
      if negb (truthyS uid) then Next req
      else
        match userOrganization_findFirst_byUser db uid with
        | None => Next req
        | Some userOrg =>
          match organization_findUnique db (uo_organizationId userOrg) with
          | Some o => Next (setOrganization req o)
          | None => Respond (json 500 (Message "Error getting user organization"))
          end
        end
    | None => Next req
    end.

(** Running the next middleware of a chain. *)
Definition andThen (o : Outcome) (next : Request -> Outcome) : Outcome :=
  match o with
  | Next req => next req
  | Respond r => Respond r
  end.

Section Chains.
Variable verify : string -> option Auth.TokenPayload.

(** [authenticate, identifyOrganization, getOrganizationFromUser,
    verifyOrganizationAccess]: the guards of the member routes. *)
Definition memberChain (db : DB) (env : Env) (authorization : option string)
    (req : Request) : Outcome :=
  andThen (andThen (andThen (Auth.authenticate verify authorization req)
                            (Organization.identifyOrganization db env))
                   (getOrganizationFromUser db))
          (Organization.verifyOrganizationAccess db).

(** [authenticate, identifyOrganization, getOrganizationFromUser,
    requireOrgAdmin]: the guards of the org-admin routes. *)
Definition adminChain (db : DB) (env : Env) (authorization : option string)
    (req : Request) : Outcome :=
  andThen (andThen (andThen (Auth.authenticate verify authorization req)
                            (Organization.identifyOrganization db env))
                   (getOrganizationFromUser db))
          (Organization.requireOrgAdmin db).
End Chains.

End OrganizationFallback.

(* ===================================================================== *)
(** ** Answers of the handlers that send a row *)
(* ===================================================================== *)

Module Rest.

(** What a handler sends: [res.status(code).json(row)],
    [res.status(code).json({ message })], the 400 of a zod error, or
    the 500 of the last branch of its [catch]. *)
Inductive Reply (A : Type) :=
| Row (code : nat) (a : A)
| Notice (code : nat) (message : string)
| Invalid
| Failure.
Arguments Row {A} code a.
Arguments Notice {A} code message.
Arguments Invalid {A}.
Arguments Failure {A}.

Definition statusOf {A} (r : Reply A) : nat :=
  match r with
  | Row c _ => c
  | Notice c _ => c
  | Invalid => 400
  | Failure => 500
  end.

End Rest.

(* ===================================================================== *)
(** ** Writes to the tables of organizations, memberships, assignments *)
(* ===================================================================== *)

Module StoreWrites.
Import Store.

Definition set_organizations (db : DB) (l : list Organization) : DB :=
  {| organizations := l;
     users := users db;
     userOrganizations := userOrganizations db;
     categories := categories db;
     userCategoryAssignments := userCategoryAssignments db;
     tickets := tickets db;
     comments := comments db;
     ticketStatuses := ticketStatuses db;
     notifications := notifications db;
     activityLogs := activityLogs db |}.

Definition set_userOrganizations (db : DB) (l : list UserOrganization) : DB :=
  {| organizations := organizations db;
     users := users db;
     userOrganizations := l;
     categories := categories db;
     userCategoryAssignments := userCategoryAssignments db;
     tickets := tickets db;
     comments := comments db;
     ticketStatuses := ticketStatuses db;
     notifications := notifications db;
     activityLogs := activityLogs db |}.

Definition set_comments (db : DB) (l : list Comment) : DB :=
  {| organizations := organizations db;
     users := users db;
     userOrganizations := userOrganizations db;
     categories := categories db;
     userCategoryAssignments := userCategoryAssignments db;
     tickets := tickets db;
     comments := l;
     ticketStatuses := ticketStatuses db;
     notifications := notifications db;
     activityLogs := activityLogs db |}.

Definition set_userCategoryAssignments (db : DB) (l : list UserCategoryAssignment)
  : DB :=
  {| organizations := organizations db;
     users := users db;
     userOrganizations := userOrganizations db;
     categories := categories db;
     userCategoryAssignments := l;
     tickets := tickets db;
     comments := comments db;
     ticketStatuses := ticketStatuses db;
     notifications := notifications db;
     activityLogs := activityLogs db |}.

End StoreWrites.

(* ===================================================================== *)
(** ** routes/tickets.ts: reading one ticket, notifying about a comment *)
(* ===================================================================== *)

Module TicketAccess.
Import JS Store Rest.

(** [prisma.ticket.findFirst({ where: { id, organizationId } })] *)
Definition ticket_findFirst (db : DB) (id organizationId : Id) : option Ticket :=
  find (fun t => String.eqb (t_id t) id
                 && String.eqb (t_organizationId t) organizationId)
       (tickets db).

(** [userOrg?.role === 'ADMIN' || userRole === 'ADMIN'] *)
Definition isOrgAdmin (db : DB) (userId organizationId : Id) (userRole : Role.t)
  : bool :=
  match userOrganization_findUnique db userId organizationId with
  | Some userOrg => OrgRole.eqb (uo_role userOrg) OrgRole.ADMIN
  | None => false
  end
  || Role.eqb userRole Role.ADMIN.

(** The handler of [GET /:id], behind [authenticate],
    [identifyOrganization], [getOrganizationFromUser] and
    [verifyOrganizationAccess]: [userId], [userRole] and
    [organizationId] are [req.userId!], [req.userRole!] and
    [req.organizationId!]. *)
Definition GET_id_handler (db : DB) (userId : Id) (userRole : Role.t)
    (organizationId id : Id) : Reply Ticket :=
  match ticket_findFirst db id organizationId with
  | None => Notice 404 "Ticket not found"
  | Some ticket =>
    if negb (isOrgAdmin db userId organizationId userRole)
       && negb (optEqb (t_userId ticket) userId)
       && negb (optEqb (t_assignedTo ticket) userId)
    then Notice 403 "Access denied"
    else Row 200 ticket
  end.

(** The block "Create notifications for ticket owner and assigned
    user" of [POST /:id/comments]: the final value of [notifyUserIds],
    [userId] being the author of the comment. *)
Definition notifyUserIds (ticket : Ticket) (userId : Id) : list Id :=
  let notifyUserIds :=
    match t_userId ticket with
    | Some owner =>
      if truthyS owner && negb (String.eqb owner userId) then [owner] else []
    | None => []
    end in
  match t_assignedTo ticket with
  | Some assignee =>
    if truthyS assignee && negb (String.eqb assignee userId)
       && negb (existsb (String.eqb assignee) notifyUserIds)
    then notifyUserIds ++ [assignee]
    else notifyUserIds
  | None => notifyUserIds
  end.

End TicketAccess.

(* ===================================================================== *)
(** ** routes/tickets.ts: which route serves a [GET] on one segment *)
(* ===================================================================== *)

Module TicketRouter.
Import JS Store Http Rest.

(** The path of a route of one segment: a literal (['/public']) or a
    parameter (['/:id']). *)
Inductive Pattern := Literal (s : string) | Param.

(** A parameter matches every segment that is not empty. *)
Definition matchesSegment (p : Pattern) (segment : string) : bool :=
  match p with
  | Literal s => String.eqb s segment
  | Param => truthyS segment
  end.

Inductive Handler := Handler_id | Handler_public.

(** The [GET] routes of the router on a path of one segment, in the
    order of their registration: [router.get('/:id', ...)] comes
    first, [router.get('/public', ...)] a hundred lines later. *)
Definition getRoutes : list (Pattern * Handler) :=
  [(Param, Handler_id); (Literal "public", Handler_public)].

(** Express runs the first registered route whose path matches. No
    middleware of these routes calls [next] after an answer and both
    handlers always answer, so no later route is tried. *)
Definition route (segment : string) : option Handler :=
  option_map snd (find (fun r => matchesSegment (fst r) segment) getRoutes).

(** What the router does with such a request: a guard answers, the
    handler of [GET /:id] answers, the handler of [GET /public]
    answers, or the path is not of this table. *)
Inductive Answer :=
| Refused (r : Response)
| Single (r : Reply Ticket)
| Tracked (r : Response)
| Unrouted.

Section Router.
Variable verify : string -> option Auth.TokenPayload.

(** [GET /<segment>] on the ticket router. [req.userId!],
    [req.userRole!] and [req.organizationId!] are set once the guards
    of [GET /:id] have passed; the last branch of that match is never
    taken. *)
Definition GET_segment (db : DB) (env : Env) (authorization : option string)
    (req : Request) (segment : string) : Answer :=
  match route segment with
  | Some Handler_id =>
    match OrganizationFallback.memberChain verify db env authorization req with
    | Respond r => Refused r
    | Next req' =>
      match userId req', userRole req', organizationId req' with
      | Some userId, Some userRole, Some organizationId =>
        Single (TicketAccess.GET_id_handler db userId userRole organizationId
                                            segment)
      | _, _, _ => Single Failure
      end
    end
  | Some Handler_public =>
    match Organization.identifyOrganization db env req with
    | Respond r => Refused r
    | Next req' => Tracked (Tickets.GET_public_handler db req')
    end
  | None => Unrouted
  end.
End Router.

End TicketRouter.

(* ===================================================================== *)
(** ** routes/tickets.ts: adding a comment *)
(* ===================================================================== *)

Module Comments.
Import JS Store Rest Effects Notifications StoreWrites.
Local Open Scope handler_scope.

(** [prisma.comment.create({ data: { content, ticketId, userId } })];
    [newId] is the key the store gives the row. The author is a
    foreign key: the store refuses the row when no user has it. *)
Definition prisma_comment_create (newId : Id) (content : string)
    (ticketId userId : Id) : M Comment :=
  fun w =>
    match user_findUnique (db w) userId with
    | None => (Thrown (StoreError "Foreign key constraint failed"), w)
    | Some _ =>
      let comment :=
        {| c_id := newId; c_ticketId := ticketId; c_userId := Some userId;
           c_content := content |} in
      (Returned comment,
       withDb w (set_comments (db w) (comments (db w) ++ [comment])))
    end.

(** The [catch] of the handler. *)
Definition onError (error : Error) : M (Reply Comment) :=
  match error with
  | ZodError => ret Invalid
  | _ => ret Failure
  end.

(** [prisma.ticket.findFirst({ where: { id, organizationId }, include:
    { user, organization: { select: { slug } } } })]: the ticket with
    its [user] and the slug of its organization. *)
Definition ticket_findFirst_withUser (d : DB) (id organizationId : Id)
  : option (Ticket * option User * option string) :=
  match TicketAccess.ticket_findFirst d id organizationId with
  | Some ticket =>
    Some (ticket,
          match t_userId ticket with
          | Some owner => user_findUnique d owner
          | None => None
          end,
          organization_slugOf d (t_organizationId ticket))
  | None => None
  end.

(** [a || b] on two [string | null | undefined] operands. *)
Definition orOption (a b : option string) : option string :=
  if truthy a then a else b.

Definition commentNotification (ticket : Ticket) (commentAuthor : option User)
  : NotificationContent :=
  {| nc_type := COMMENT_ADDED;
     nc_title := "New Comment";
     nc_message := orElse (option_map user_name commentAuthor) "Someone"
                   ++ " added a comment to ticket " ++ Tickets.quote
                   ++ t_title ticket ++ Tickets.quote ++ ".";
     nc_ticketId := Some (t_id ticket) |}.

(** The handler of [POST /:id/comments], behind the guards of the
    member routes; [content] is the field of the body, [newId] the key
    of the new comment. *)
Definition POST_comments_handler (rt : Runtime) (newId : Id)
    (userId organizationId id : Id) (content : option string)
  : M (Reply Comment) :=
  tryCatch
    (match Tickets.zStringMin 1 content with
     | None => throw ZodError
     | Some content =>
       found <- query (fun d => ticket_findFirst_withUser d id organizationId) ;;
       match found with
       | None => ret (Notice 404 "Ticket not found")
       | Some (ticket, ticketUser, slug) =>
         commentAuthor <- query (fun d => user_findUnique d userId) ;;
         comment <- prisma_comment_create newId content id userId ;;
         logTicketAction rt id (Some userId) "COMMENT_ADDED"
           (Some [("commentId", Some (c_id comment));
                  ("commentAuthor", option_map user_name commentAuthor)]) ;;;
         let notifyUserIds := TicketAccess.notifyUserIds ticket userId in
         (if (0 <? length notifyUserIds)%nat
          then createNotificationsForUsers rt notifyUserIds
                 (commentNotification ticket commentAuthor)
          else ret tt) ;;;
         let submitterEmail :=
           orOption (option_map user_email ticketUser) (t_submitterEmail ticket) in
         match submitterEmail with
         | Some to =>
           if truthyS to && negb (optEqb (t_userId ticket) userId)
           then sendMail (CommentEmail to (t_title ticket) content
                            (orElse (option_map user_name commentAuthor)
                                    "Support Team")
                            (t_id ticket) (t_publicToken ticket) slug)
           else ret tt
         | None => ret tt
         end ;;;
         ret (Row 201 comment)
       end
     end)
    onError.

End Comments.

(* ===================================================================== *)
(** ** The status router: single status, creation, update *)
(* ===================================================================== *)

Module StatusesCrud.
Import JS Store Rest.

(** A JSON number: an integer, or a number with a fractional part. *)
Inductive JsonNumber := Integer (z : Z) | Fractional.

(** The fields of a request body the store keeps in this model
    ([nameAr] and [color] are optional strings passed on as they
    are). *)
Record Body := {
  b_name : option string;
  b_order : option JsonNumber
}.

(** [z.string().min(n).optional()] *)
Definition zStringMinOptional (n : nat) (field : option string)
  : option (option string) :=
  match field with
  | Some s => if (n <=? String.length s)%nat then Some (Some s) else None
  | None => Some None
  end.

(** [z.number().int().optional()] *)
Definition zIntOptional (field : option JsonNumber) : option (option Z) :=
  match field with
  | Some (Integer z) => Some (Some z)
  | Some Fractional => None
  | None => Some None
  end.

Record CreateStatus := { cs_name : string; cs_order : option Z }.

(** [createStatusSchema.parse(req.body)]; [None] is the ZodError. *)
Definition createStatusSchema_parse (body : Body) : option CreateStatus :=
  match Tickets.zStringMin 2 (b_name body), zIntOptional (b_order body) with
  | Some name, Some order => Some {| cs_name := name; cs_order := order |}
  | _, _ => None
  end.

Record UpdateStatus := { us_name : option string; us_order : option Z }.

(** [updateStatusSchema.parse(req.body)] *)
Definition updateStatusSchema_parse (body : Body) : option UpdateStatus :=
  match zStringMinOptional 2 (b_name body), zIntOptional (b_order body) with
  | Some name, Some order => Some {| us_name := name; us_order := order |}
  | _, _ => None
  end.

(** The unique index on [(name, organizationId)]: a row other than
    the one with key [except] holds the pair. *)
Definition nameTaken (db : DB) (except : option Id) (name organizationId : string)
  : bool :=
  existsb (fun s => negb (optEqb except (ts_id s))
                    && String.eqb (ts_name s) name
                    && String.eqb (ts_organizationId s) organizationId)
          (ticketStatuses db).

(** [prisma.ticketStatus.create({ data: { ...data, organizationId } })]:
    [None] is the P2002 of the unique index; [order] defaults to 0;
    [newId] is the key the store gives the row. *)
Definition ticketStatus_create (newId : Id) (db : DB) (data : CreateStatus)
    (organizationId : Id) : option (TicketStatus * DB) :=
  if nameTaken db None (cs_name data) organizationId then None
  else
    let status :=
      {| ts_id := newId;
         ts_name := cs_name data;
         ts_order := match cs_order data with Some z => z | None => 0%Z end;
         ts_organizationId := organizationId |} in
    Some (status, set_ticketStatuses db (ticketStatuses db ++ [status])).

(** The handler of [POST /]: the answer and the store it leaves. *)
Definition POST_root_handler (newId : Id) (db : DB) (organizationId : Id)
    (body : Body) : Reply TicketStatus * DB :=
  match createStatusSchema_parse body with
  | None => (Invalid, db)
  | Some data =>
    match ticketStatus_create newId db data organizationId with
    | None =>
      (Notice 400 "Status name already exists in this organization", db)
    | Some (status, db') => (Row 201 status, db')
    end
  end.

(** A row with the fields of [data] written over it. *)
Definition applyUpdate (data : UpdateStatus) (s : TicketStatus) : TicketStatus :=
  {| ts_id := ts_id s;
     ts_name := match us_name data with Some n => n | None => ts_name s end;
     ts_order := match us_order data with Some z => z | None => ts_order s end;
     ts_organizationId := ts_organizationId s |}.

Inductive UpdateResult :=
| Updated (s : TicketStatus) (db : DB)
| Conflict     (* P2002 *)
| Missing.     (* P2025: no row has the key *)

(** [prisma.ticketStatus.update({ where: { id }, data })] *)
Definition ticketStatus_update (db : DB) (id : Id) (data : UpdateStatus)
  : UpdateResult :=
  match find (fun s => String.eqb (ts_id s) id) (ticketStatuses db) with
  | None => Missing
  | Some row =>
    let row' := applyUpdate data row in
    if nameTaken db (Some id) (ts_name row') (ts_organizationId row') then Conflict
    else
      Updated row'
        (set_ticketStatuses db
           (map (fun s => if String.eqb (ts_id s) id then applyUpdate data s else s)
                (ticketStatuses db)))
  end.

(** The handler of [PUT /:id]. *)
Definition PUT_id_handler (db : DB) (organizationId id : Id) (body : Body)
  : Reply TicketStatus * DB :=
  match updateStatusSchema_parse body with
  | None => (Invalid, db)
  | Some data =>
    match ticketStatus_findFirst db id (Some organizationId) with
    | None => (Notice 404 "Ticket status not found", db)
    | Some _ =>
      match ticketStatus_update db id data with
      | Updated updatedStatus db' => (Row 200 updatedStatus, db')
      | Conflict =>
        (Notice 400 "Status name already exists in this organization", db)
      | Missing => (Failure, db)
      end
    end
  end.

(** The handler of [GET /:id], behind [identifyOrganization] only: the
    status with its [_count.tickets]. *)
Definition GET_id_handler (db : DB) (organizationId : option Id) (id : Id)
  : Reply (TicketStatus * nat) :=
  match ticketStatus_findFirst db id organizationId with
  | None => Notice 404 "Ticket status not found"
  | Some status => Row 200 (status, ticketStatus_countTickets db (ts_id status))
  end.

End StatusesCrud.

(* ===================================================================== *)
(** ** The organization router: creation and members *)
(* ===================================================================== *)

Module Organizations.
Import JS Store Http Rest StoreWrites.

Record Body := {
  b_name : option string;
  b_slug : option string;
  b_subdomain : option string
}.

Record CreateOrganization := {
  co_name : string;
  co_slug : string;
  co_subdomain : option string
}.

(** [createOrganizationSchema.parse(req.body)] *)
Definition createOrganizationSchema_parse (body : Body) : option CreateOrganization :=
  match Tickets.zStringMin 2 (b_name body), Tickets.zStringMin 2 (b_slug body) with
  | Some name, Some slug =>
    Some {| co_name := name; co_slug := slug; co_subdomain := b_subdomain body |}
  | _, _ => None
  end.

(** [slug.toLowerCase().replace(/[^a-z0-9-]/g, '-')] *)
Definition storedSlug (slug : string) : string :=
  replaceNonSlug (toLowerCase slug).

(** [subdomain?.toLowerCase() || null] *)
Definition storedSubdomain (subdomain : option string) : option string :=
  orNull (option_map toLowerCase subdomain).

(** [prisma.userOrganization.findFirst({ where: { userId, role: 'ADMIN' } })] *)
Definition userOrganization_findFirst_admin (db : DB) (userId : Id)
  : option UserOrganization :=
  find (fun m => String.eqb (uo_userId m) userId
                 && OrgRole.eqb (uo_role m) OrgRole.ADMIN)
       (userOrganizations db).

(** [prisma.organization.findFirst({ where: { OR: [{ slug },
    ...(subdomain ? [{ subdomain: subdomain.toLowerCase() }] : [])] } })] *)
Definition organization_findFirst_taken (db : DB) (slug : string)
    (subdomain : option string) : option Organization :=
  find (fun o => String.eqb (org_slug o) slug
                 || match subdomain with
                    | Some sd => truthyS sd && optEqb (org_subdomain o) (toLowerCase sd)
                    | None => false
                    end)
       (organizations db).

(** [prisma.organization.create({ data })]: [None] is the P2002 of the
    unique columns [slug] and [subdomain]. *)
Definition organization_create (db : DB) (o : Organization) : option DB :=
  if existsb (fun x => String.eqb (org_slug x) (org_slug o)
                       || match org_subdomain o with
                          | Some sd => optEqb (org_subdomain x) sd
                          | None => false
                          end)
             (organizations db)
  then None
  else Some (set_organizations db (organizations db ++ [o])).

Inductive Creation :=
| Stored (db : DB)
| UniqueViolation        (* P2002 *)
| ForeignKeyViolation.   (* P2003 *)

(** [prisma.userOrganization.create({ data })]: the store refuses a
    second row with the pair [(userId, organizationId)] (P2002) and a
    row whose [userId] is the key of no user (P2003). *)
Definition userOrganization_create (db : DB) (m : UserOrganization) : Creation :=
  match userOrganization_findUnique db (uo_userId m) (uo_organizationId m) with
  | Some _ => UniqueViolation
  | None =>
    match user_findUnique db (uo_userId m) with
    | None => ForeignKeyViolation
    | Some _ => Stored (set_userOrganizations db (userOrganizations db ++ [m]))
    end
  end.

(** The handler of [POST /], behind [authenticate]; [newId] is the key
    the store gives the organization. The two writes are not in a
    transaction: a membership the store refuses leaves the
    organization behind. [authenticate] does not look the user up, so
    the second write can meet a [userId] without a user row. *)
Definition POST_root_handler (newId : Id) (db : DB) (userId : Id) (body : Body)
  : Reply Organization * DB :=
  match createOrganizationSchema_parse body with
  | None => (Invalid, db)
  | Some data =>
    match userOrganization_findFirst_admin db userId with
    | Some _ =>
      (Notice 400
         "You already have an organization. Each admin can only have one organization.",
       db)
    | None =>
      match organization_findFirst_taken db (storedSlug (co_slug data))
                                         (co_subdomain data) with
      | Some _ => (Notice 400 "Organization slug or subdomain already exists", db)
      | None =>
        let organization :=
          {| org_id := newId;
             org_name := co_name data;
             org_slug := storedSlug (co_slug data);
             org_subdomain := storedSubdomain (co_subdomain data) |} in
        match organization_create db organization with
        | None => (Notice 400 "Organization slug or subdomain already exists", db)
        | Some db1 =>
          match userOrganization_create db1
                  {| uo_userId := userId; uo_organizationId := newId;
                     uo_role := OrgRole.ADMIN |} with
          | UniqueViolation =>
            (Notice 400 "Organization slug or subdomain already exists", db1)
          | ForeignKeyViolation => (Failure, db1)
          | Stored db2 => (Row 201 organization, db2)
          end
        end
      end
    end
  end.

(** *** Members *)

Record MemberBody := {
  mb_email : option string;
  mb_role : option string
}.

(** [z.enum(['MEMBER', 'ADMIN'])] *)
Definition zOrgRole (s : string) : option OrgRole.t :=
  if String.eqb s "MEMBER" then Some OrgRole.MEMBER
  else if String.eqb s "ADMIN" then Some OrgRole.ADMIN
  else None.

(** [z.object({ email: z.string().email(), role: z.enum(['MEMBER',
    'ADMIN']).optional().default('MEMBER') }).parse(req.body)];
    [zodEmail] is zod's e-mail check. *)
Definition addMemberSchema_parse (zodEmail : string -> bool) (body : MemberBody)
  : option (string * OrgRole.t) :=
  match mb_email body with
  | Some email =>
    if zodEmail email then
      match mb_role body with
      | Some r => option_map (fun role => (email, role)) (zOrgRole r)
      | None => Some (email, OrgRole.MEMBER)
      end
    else None
  | None => None
  end.

(** [prisma.user.findUnique({ where: { email } })] *)
Definition user_findUnique_email (db : DB) (email : string) : option User :=
  find (fun u => String.eqb (user_email u) email) (users db).

(** The handler of [POST /:orgSlug/members]: the user and the role of
    the new membership. *)
Definition POST_members_handler (zodEmail : string -> bool) (db : DB)
    (organizationId : Id) (body : MemberBody) : Reply (User * OrgRole.t) * DB :=
  match addMemberSchema_parse zodEmail body with
  | None => (Invalid, db)
  | Some (email, role) =>
    match user_findUnique_email db email with
    | None => (Notice 404 "User not found", db)
    | Some user =>
      match userOrganization_findUnique db (user_id user) organizationId with
      | Some _ =>
        (Notice 400 "User is already a member of this organization", db)
      | None =>
        match userOrganization_create db
                {| uo_userId := user_id user; uo_organizationId := organizationId;
                   uo_role := role |} with
        | UniqueViolation => (Notice 400 "User is already a member", db)
        | ForeignKeyViolation => (Failure, db)
        | Stored db' => (Row 201 (user, role), db')
        end
      end
    end
  end.

(** [prisma.userOrganization.update({ where: { userId_organizationId },
    data: { role } })] *)
Definition userOrganization_updateRole (db : DB) (userId organizationId : Id)
    (role : OrgRole.t) : DB :=
  set_userOrganizations db
    (map (fun m => if String.eqb (uo_userId m) userId
                      && String.eqb (uo_organizationId m) organizationId
                   then {| uo_userId := uo_userId m;
                           uo_organizationId := uo_organizationId m;
                           uo_role := role |}
                   else m)
         (userOrganizations db)).

(** The handler of [PUT /:orgSlug/members/:userId]. *)
Definition PUT_members_handler (db : DB) (organizationId targetUserId : Id)
    (bodyRole : option string) : Reply OrgRole.t * DB :=
  match match bodyRole with Some r => zOrgRole r | None => None end with
  | None => (Invalid, db)
  | Some role =>
    match userOrganization_findUnique db targetUserId organizationId with
    | None => (Notice 404 "Member not found", db)
    | Some _ =>
      (Row 200 role, userOrganization_updateRole db targetUserId organizationId role)
    end
  end.

(** [prisma.userOrganization.delete({ where: { userId_organizationId } })] *)
Definition userOrganization_delete (db : DB) (userId organizationId : Id) : DB :=
  set_userOrganizations db
    (filter (fun m => negb (String.eqb (uo_userId m) userId
                            && String.eqb (uo_organizationId m) organizationId))
            (userOrganizations db)).

(** The handler of [DELETE /:orgSlug/members/:userId]. *)
Definition DELETE_members_handler (db : DB) (organizationId targetUserId : Id)
  : Reply unit * DB :=
  match userOrganization_findUnique db targetUserId organizationId with
  | None => (Notice 404 "Member not found", db)
  | Some _ =>
    (Notice 200 "Member removed successfully",
     userOrganization_delete db targetUserId organizationId)
  end.

Section Chains.
Variable verify : string -> option Auth.TokenPayload.

(** [identifyOrganization, authenticate, requireOrgAdmin]: the guards
    of [PUT /:orgSlug] and of the routes that change members. *)
Definition slugAdminChain (db : DB) (env : Env) (authorization : option string)
    (req : Request) : Outcome :=
  OrganizationFallback.andThen
    (OrganizationFallback.andThen (Organization.identifyOrganization db env req)
                                  (Auth.authenticate verify authorization))
    (Organization.requireOrgAdmin db).

(** [identifyOrganization, authenticate, verifyOrganizationAccess]:
    the guards of [GET /:orgSlug/members]. *)
Definition slugMemberChain (db : DB) (env : Env) (authorization : option string)
    (req : Request) : Outcome :=
  OrganizationFallback.andThen
    (OrganizationFallback.andThen (Organization.identifyOrganization db env req)
                                  (Auth.authenticate verify authorization))
    (Organization.verifyOrganizationAccess db).
End Chains.

End Organizations.

(* ===================================================================== *)
(** ** The category router: assigning users to a category *)
(* ===================================================================== *)

Module Categories.
Import JS Store Rest StoreWrites.

(** [prisma.userCategoryAssignment.findUnique({ where:
    { userId_categoryId } })] *)
Definition userCategoryAssignment_findUnique (db : DB) (userId categoryId : Id)
  : option UserCategoryAssignment :=
  find (fun a => String.eqb (uca_userId a) userId
                 && String.eqb (uca_categoryId a) categoryId)
       (userCategoryAssignments db).

(** The handler of [POST /:id/assign-user]; [bodyUserId] is the field
    [userId] of the body, validated by [z.string()]. A user key with
    no user row is refused by the store (foreign key): the 500. *)
Definition POST_assign_user_handler (db : DB) (organizationId categoryId : Id)
    (bodyUserId : option string) : Reply UserCategoryAssignment * DB :=
  match bodyUserId with
  | None => (Invalid, db)
  | Some userId =>
    match category_findFirst db categoryId (Some organizationId) with
    | None => (Notice 404 "Category not found", db)
    | Some _ =>
      match userOrganization_findUnique db userId organizationId with
      | None => (Notice 404 "User is not a member of this organization", db)
      | Some _ =>
        match userCategoryAssignment_findUnique db userId categoryId with
        | Some _ => (Notice 400 "User is already assigned to this category", db)
        | None =>
          match user_findUnique db userId with
          | None => (Failure, db)
          | Some user =>
            let assignment :=
              {| uca_userId := userId; uca_categoryId := categoryId;
                 uca_organizationId := organizationId; uca_user := user |} in
            (Row 201 assignment,
             set_userCategoryAssignments db
               (userCategoryAssignments db ++ [assignment]))
          end
        end
      end
    end
  end.

(** [prisma.userCategoryAssignment.delete({ where: { userId_categoryId } })] *)
Definition userCategoryAssignment_delete (db : DB) (userId categoryId : Id) : DB :=
  set_userCategoryAssignments db
    (filter (fun a => negb (String.eqb (uca_userId a) userId
                            && String.eqb (uca_categoryId a) categoryId))
            (userCategoryAssignments db)).

(** The handler of [DELETE /:id/assign-user/:userId]. *)
Definition DELETE_assign_user_handler (db : DB) (organizationId categoryId userId : Id)
  : Reply unit * DB :=
  match category_findFirst db categoryId (Some organizationId) with
  | None => (Notice 404 "Category not found", db)
  | Some _ =>
    match userCategoryAssignment_findUnique db userId categoryId with
    | None => (Notice 404 "Assignment not found", db)
    | Some _ =>
      (Notice 200 "Category assignment removed successfully",
       userCategoryAssignment_delete db userId categoryId)
    end
  end.

End Categories.

(* ===================================================================== *)
(** ** Requests, tokens and bodies used in the further examples *)
(* ===================================================================== *)

Module Scenarios.
Import JS Store Http Examples.

(** The tokens the example verifier accepts: the user [u1] with no
    organization, with the first and with the second organization. *)
Definition verifyToken (token : string) : option Auth.TokenPayload :=
  if String.eqb token "jwt-u1" then
    Some {| Auth.tp_userId := "u1"; Auth.tp_role := Role.USER;
            Auth.tp_organizationId := None |}
  else if String.eqb token "jwt-u1-a" then
    Some {| Auth.tp_userId := "u1"; Auth.tp_role := Role.USER;
            Auth.tp_organizationId := Some "org-a" |}
  else if String.eqb token "jwt-u1-b" then
    Some {| Auth.tp_userId := "u1"; Auth.tp_role := Role.USER;
            Auth.tp_organizationId := Some "org-b" |}
  else None.

Definition tokenU1 : Auth.TokenPayload :=
  {| Auth.tp_userId := "u1"; Auth.tp_role := Role.USER;
     Auth.tp_organizationId := None |}.

Definition tokenU1A : Auth.TokenPayload :=
  {| Auth.tp_userId := "u1"; Auth.tp_role := Role.USER;
     Auth.tp_organizationId := Some "org-a" |}.

Definition tokenU1B : Auth.TokenPayload :=
  {| Auth.tp_userId := "u1"; Auth.tp_role := Role.USER;
     Auth.tp_organizationId := Some "org-b" |}.

(** A request whose header names the second organization. *)
Definition reqHeaderB : Request :=
  request (Some "localhost:4000") None None (Some "ticketing") None
          None None None.

(** A request that names no organization at all. *)
Definition reqPlain : Request :=
  request (Some "localhost:4000") None None None None None None None.

(** [reqHeaderA] behind the guards of a member route, with a token
    that names the second organization. *)
Definition reqHeaderA_passed : Request :=
  Eval vm_compute in
    setOrganization (Auth.setUser reqHeaderA tokenU1B) orgA.

(** [reqPlain] behind the same guards, with a token that names no
    organization. *)
Definition reqPlain_passed : Request :=
  Eval vm_compute in
    OrganizationFallback.adoptOrganization (Auth.setUser reqPlain tokenU1) orgA.

(** [reqHeaderB] behind [identifyOrganization, authenticate,
    verifyOrganizationAccess], with a token that names the first
    organization. *)
Definition reqHeaderB_passed : Request :=
  Eval vm_compute in Auth.setUser (setOrganization reqHeaderB orgB) tokenU1A.

(** Asking for the ticket of the public example run by its token, the
    header naming its organization, as the submitter would. *)
Definition reqTrackPublic : Request :=
  request (Some "localhost:4000") None None (Some "acme-corp") (Some "SSSSSSSS")
          None None None.

(** A user without a user row, and a body for a second organization. *)
Definition ghostBody : Organizations.Body :=
  {| Organizations.b_name := Some "Ghost";
     Organizations.b_slug := Some "ghost";
     Organizations.b_subdomain := None |}.

Definition orgGhost : Organization :=
  {| org_id := "org-c"; org_name := "Ghost"; org_slug := "ghost";
     org_subdomain := None |}.

(** A status body: a name, no order. *)
Definition statusBody : StatusesCrud.Body :=
  {| StatusesCrud.b_name := Some "Closed"; StatusesCrud.b_order := None |}.

Definition statusClosed : TicketStatus :=
  {| ts_id := "st-new"; ts_name := "Closed"; ts_order := 0%Z;
     ts_organizationId := "org-a" |}.

Definition dbClosed : DB :=
  Eval vm_compute in
    snd (StatusesCrud.POST_root_handler "st-new" db0 "org-a" statusBody).

(** The second user founds an organization. *)
Definition organizationBody : Organizations.Body :=
  {| Organizations.b_name := Some "Globex";
     Organizations.b_slug := Some "Globex Inc";
     Organizations.b_subdomain := None |}.

Definition orgC : Organization :=
  {| org_id := "org-c"; org_name := "Globex"; org_slug := "globex-inc";
     org_subdomain := None |}.

Definition dbGlobex : DB :=
  Eval vm_compute in
    snd (Organizations.POST_root_handler "org-c" db0 "u2" organizationBody).

Definition reqFounder : Request :=
  request None None None None None (Some "org-c") (Some "u2") (Some Role.USER).

(** The first user joins the second organization. *)
Definition memberBody : Organizations.MemberBody :=
  {| Organizations.mb_email := Some "u1@acme.test";
     Organizations.mb_role := None |}.

Definition dbJoined : DB :=
  Eval vm_compute in
    snd (Organizations.POST_members_handler (includesChar "@") db0 "org-b" memberBody).

Definition reqU1AtB : Request :=
  request None None None None None (Some "org-b") (Some "u1") (Some Role.USER).

(** A deployment in which both users are members of the first
    organization and only the first is assigned to its category. *)
Definition member2 : UserOrganization :=
  {| uo_userId := "u2"; uo_organizationId := "org-a"; uo_role := OrgRole.ADMIN |}.

Definition db1 : DB :=
  {| organizations := [orgA; orgB];
     users := [u1; u2];
     userOrganizations := [member1; member2];
     categories := [catA; catB];
     userCategoryAssignments := [assign1];
     tickets := [ticketB];
     comments := [];
     ticketStatuses := [statusA; statusB];
     notifications := [];
     activityLogs := [] |}.

Definition dbAssigned : DB :=
  Eval vm_compute in
    snd (Categories.POST_assign_user_handler db1 "org-a" "cat-a" (Some "u2")).

End Scenarios.

(* ===================================================================== *)
(** * Properties *)
(* ===================================================================== *)

Local Open Scope list_scope.

(** ** Slug normalisation *)

Section DropWhile.
Context {A : Type} (p : A -> bool).

(** The list is empty or starts with an element [p] rejects. *)
Definition headKept (l : list A) : Prop :=
  match l with
  | [] => True
  | x :: _ => p x = false
  end.

Lemma dropWhile_headKept (l : list A) : headKept (JS.dropWhile p l).
Proof.
  induction l as [|x l IH]; simpl; [exact I|].
  destruct (p x) eqn:E; [exact IH | simpl; exact E].
Qed.

Lemma dropWhile_fix (l : list A) : headKept l -> JS.dropWhile p l = l.
Proof.
  destruct l as [|x l]; simpl; [reflexivity|].
  intros ->. reflexivity.
Qed.

Lemma dropWhile_snoc (l : list A) (x : A) :
  p x = false -> JS.dropWhile p (l ++ [x]) = JS.dropWhile p l ++ [x].
Proof.
  intros Hx. induction l as [|y l IH]; simpl.
  - rewrite Hx. reflexivity.
  - destruct (p y); [exact IH | reflexivity].
Qed.

Lemma dropWhileEnd_cons (x : A) (l : list A) :
  p x = false -> JS.dropWhileEnd p (x :: l) = x :: JS.dropWhileEnd p l.
Proof.
  intros Hx. unfold JS.dropWhileEnd. simpl rev.
  rewrite dropWhile_snoc by exact Hx.
  rewrite rev_app_distr. reflexivity.
Qed.

Lemma dropWhile_Forall (P : A -> Prop) (l : list A) :
  Forall P l -> Forall P (JS.dropWhile p l).
Proof.
  induction 1 as [|x l Hx Hl IH]; simpl; [constructor|].
  destruct (p x); [exact IH | constructor; assumption].
Qed.

Lemma dropWhileEnd_Forall (P : A -> Prop) (l : list A) :
  Forall P l -> Forall P (JS.dropWhileEnd p l).
Proof.
  intros H. unfold JS.dropWhileEnd.
  apply Forall_rev, dropWhile_Forall, Forall_rev, H.
Qed.

(** Neither end of the list is accepted by [p]. *)
Definition bothEndsKept (l : list A) : Prop := headKept l /\ headKept (rev l).

Lemma strip_bothEndsKept (l : list A) :
  bothEndsKept (JS.dropWhileEnd p (JS.dropWhile p l)).
Proof.
  split.
  - pose proof (dropWhile_headKept l) as H.
    destruct (JS.dropWhile p l) as [|x m]; [exact I|].
    simpl in H. rewrite dropWhileEnd_cons by exact H. exact H.
  - unfold JS.dropWhileEnd. rewrite rev_involutive.
    apply dropWhile_headKept.
Qed.

Lemma strip_fix (l : list A) :
  bothEndsKept l -> JS.dropWhileEnd p (JS.dropWhile p l) = l.
Proof.
  intros [Hh Hl]. rewrite (dropWhile_fix l Hh).
  unfold JS.dropWhileEnd. rewrite (dropWhile_fix _ Hl).
  apply rev_involutive.
Qed.

Lemma Forall_rejected_bothEndsKept (l : list A) :
  Forall (fun x => p x = false) l -> bothEndsKept l.
Proof.
  intros H. split.
  - destruct H; simpl; auto.
  - apply Forall_rev in H. destruct H; simpl; auto.
Qed.
End DropWhile.

Ltac each_char c :=
  destruct c as [[] [] [] [] [] [] [] []]; vm_compute; try reflexivity; try discriminate.

Lemma slugChar_not_whitespace (c : ascii) :
  JS.slugChar c = true -> JS.isWhiteSpace c = false.
Proof. each_char c. Qed.

Lemma slugChar_lower (c : ascii) : JS.slugChar c = true -> JS.lowerChar c = c.
Proof. each_char c. Qed.

Lemma slugChar_hyphen : JS.slugChar JS.hyphen = true.
Proof. reflexivity. Qed.

(** The normalisation on lists of characters. *)
Definition normalizeL (l : list ascii) : list ascii :=
  JS.stripHyphensL (JS.replaceNonSlugL (JS.toLowerCaseL (JS.trimL l))).

Lemma normalizeSlug_normalizeL (s : string) :
  JS.normalizeSlug s = string_of_list_ascii (normalizeL (list_ascii_of_string s)).
Proof.
  unfold JS.normalizeSlug, JS.stripHyphens, JS.replaceNonSlug, JS.toLowerCase,
    JS.trim, JS.lift, normalizeL.
  rewrite !list_ascii_of_string_of_list_ascii. reflexivity.
Qed.

Lemma replaceNonSlugL_slug (l : list ascii) :
  Forall (fun c => JS.slugChar c = true) (JS.replaceNonSlugL l).
Proof.
  induction l as [|c l IH]; simpl; constructor; auto.
  destruct (JS.slugChar c) eqn:E; [exact E | exact slugChar_hyphen].
Qed.

Lemma normalizeL_slug (l : list ascii) :
  Forall (fun c => JS.slugChar c = true) (normalizeL l).
Proof.
  unfold normalizeL, JS.stripHyphensL.
  apply dropWhileEnd_Forall, dropWhile_Forall, replaceNonSlugL_slug.
Qed.

Lemma normalizeL_ends (l : list ascii) : bothEndsKept JS.isHyphen (normalizeL l).
Proof. unfold normalizeL, JS.stripHyphensL. apply strip_bothEndsKept. Qed.

(** A list that is already a slug is left as it is. *)
Lemma normalizeL_fix (l : list ascii) :
  Forall (fun c => JS.slugChar c = true) l ->
  bothEndsKept JS.isHyphen l ->
  normalizeL l = l.
Proof.
  intros Hs He. unfold normalizeL.
  assert (Ht : JS.trimL l = l).
  { unfold JS.trimL. apply strip_fix, Forall_rejected_bothEndsKept.
    eapply Forall_impl; [|exact Hs]. apply slugChar_not_whitespace. }
  assert (Hl : JS.toLowerCaseL l = l).
  { unfold JS.toLowerCaseL. clear He Ht.
    induction Hs as [|c l Hc _ IH]; simpl; [reflexivity|].
    rewrite IH, (slugChar_lower c Hc). reflexivity. }
  assert (Hr : JS.replaceNonSlugL l = l).
  { unfold JS.replaceNonSlugL. clear He Ht Hl.
    induction Hs as [|c l Hc _ IH]; simpl; [reflexivity|].
    rewrite IH, Hc. reflexivity. }
  rewrite Ht, Hl, Hr. unfold JS.stripHyphensL. apply strip_fix, He.
Qed.

(** C7. For every raw slug [s], normalising twice gives what
    normalising once gives, and the normalised slug consists of
    characters of [[a-z0-9-]] only, with no hyphen at its start and no
    hyphen at its end. *)
Theorem normalizeSlug_idempotent_slug (s : string) :
  JS.normalizeSlug (JS.normalizeSlug s) = JS.normalizeSlug s
  /\ JS.allSlugChars (JS.normalizeSlug s) = true
  /\ JS.startsWithHyphen (JS.normalizeSlug s) = false
  /\ JS.endsWithHyphen (JS.normalizeSlug s) = false.
Proof.
  pose proof (normalizeL_slug (list_ascii_of_string s)) as Hs.
  pose proof (normalizeL_ends (list_ascii_of_string s)) as [Hh Hl].
  rewrite (normalizeSlug_normalizeL (JS.normalizeSlug s)).
  rewrite (normalizeSlug_normalizeL s).
  unfold JS.allSlugChars, JS.startsWithHyphen, JS.endsWithHyphen.
  rewrite !list_ascii_of_string_of_list_ascii.
  set (n := normalizeL (list_ascii_of_string s)) in *.
  repeat split.
  - rewrite normalizeL_fix; [reflexivity | exact Hs | split; assumption].
  - apply forallb_forall. apply Forall_forall. exact Hs.
  - destruct n; [reflexivity | exact Hh].
  - destruct (rev n); [reflexivity | exact Hl].
Qed.

Example normalizeSlug_acme : JS.normalizeSlug "  ACME Corp! " = "acme-corp".
Proof. reflexivity. Qed.

Example normalizeSlug_stored : JS.normalizeSlug "-elorbany-" = "elorbany".
Proof. reflexivity. Qed.

Example normalizeSlug_only_hyphens : JS.normalizeSlug " _-_ " = "".
Proof. reflexivity. Qed.

(** ** Tenant resolution *)

(** The first non-empty candidate of a list of signals. *)
Fixpoint firstTruthy (l : list (option string)) : option string :=
  match l with
  | [] => None
  | c :: l' => if JS.truthy c then c else firstTruthy l'
  end.

Lemma splitHead_empty (sep : ascii) : JS.splitHead sep "" = "".
Proof. reflexivity. Qed.

Lemma truthyS_false (s : string) : JS.truthyS s = false -> s = "".
Proof. destruct s; [reflexivity | discriminate]. Qed.

(** With the same header and configuration string, Method 1 selects
    nothing. *)
Lemma subdomainSignal_main_host (env : Http.Env) (req : Http.Request) :
  Http.host req = Http.MAIN_APP_HOST env ->
  Organization.subdomainSignal env req = None.
Proof.
  intros Hh. unfold Organization.subdomainSignal, Organization.isMainAppHost,
    Organization.subdomainOf.
  assert (E : Organization.hostOf req = Organization.mainAppHostOf env).
  { unfold Organization.hostOf, Organization.mainAppHostOf. rewrite Hh. reflexivity. }
  rewrite E, String.eqb_refl, andb_true_r.
  destruct (JS.truthyS (Organization.mainAppHostOf env)) eqn:T; [reflexivity|].
  apply truthyS_false in T. rewrite T, splitHead_empty. reflexivity.
Qed.

Lemma organizationSlugOf_without_subdomain (env : Http.Env) (req : Http.Request) :
  Organization.subdomainSignal env req = None ->
  Organization.organizationSlugOf env req =
  firstTruthy [Http.params_orgSlug req; Http.query_org req;
               Http.header_x_organization_slug req].
Proof.
  intros Hs. unfold Organization.organizationSlugOf. rewrite Hs.
  unfold Organization.orTry. simpl.
  destruct (JS.truthy (Http.params_orgSlug req)) eqn:Tp; simpl.
  - rewrite Tp. simpl. rewrite Tp. reflexivity.
  - destruct (JS.truthy (Http.query_org req)) eqn:Tq; simpl.
    + rewrite Tq. reflexivity.
    + destruct (JS.truthy (Http.header_x_organization_slug req)); reflexivity.
Qed.

(** C6. When the Host header of a request equals the configured
    main-application host, the subdomain signal selects nothing,
    whatever the first label of the host and whatever tenants the store
    holds: the candidate is the first non-empty one of path parameter,
    query parameter [org] and header X-Organization-Slug, in that order,
    and the middleware resolves that candidate. *)
Theorem main_app_host_skips_subdomain
    (d : Store.DB) (env : Http.Env) (req : Http.Request) (h : string) :
  Http.host req = Some h ->
  Http.MAIN_APP_HOST env = Some h ->
  Organization.subdomainSignal env req = None
  /\ Organization.organizationSlugOf env req =
     firstTruthy [Http.params_orgSlug req; Http.query_org req;
                  Http.header_x_organization_slug req]
  /\ Organization.identifyOrganization d env req =
     Organization.resolveSlug d req
       (firstTruthy [Http.params_orgSlug req; Http.query_org req;
                     Http.header_x_organization_slug req]).
Proof.
  intros Hh Hm.
  assert (Hs : Organization.subdomainSignal env req = None).
  { apply subdomainSignal_main_host. congruence. }
  pose proof (organizationSlugOf_without_subdomain env req Hs) as Ho.
  repeat split; [exact Hs | exact Ho |].
  unfold Organization.identifyOrganization. rewrite Ho. reflexivity.
Qed.

(** ** Access control *)

(** A Membership row exists for (actor, tenant). *)
Definition hasMembership (d : Store.DB) (uid oid : Store.Id) : Prop :=
  exists m, In m (Store.userOrganizations d)
            /\ Store.uo_userId m = uid /\ Store.uo_organizationId m = oid.

Lemma findUnique_none (d : Store.DB) (uid oid : Store.Id) :
  ~ hasMembership d uid oid -> Store.userOrganization_findUnique d uid oid = None.
Proof.
  intros Hn. unfold Store.userOrganization_findUnique.
  destruct (find _ _) as [m|] eqn:F; [|reflexivity].
  apply find_some in F. destruct F as [Hin Hm].
  apply andb_true_iff in Hm. destruct Hm as [Hu Ho].
  apply String.eqb_eq in Hu. apply String.eqb_eq in Ho.
  exfalso. apply Hn. exists m. auto.
Qed.

Lemma findUnique_some (d : Store.DB) (uid oid : Store.Id) :
  hasMembership d uid oid ->
  exists m, Store.userOrganization_findUnique d uid oid = Some m.
Proof.
  intros [m [Hin [Hu Ho]]]. unfold Store.userOrganization_findUnique.
  destruct (find _ _) as [m'|] eqn:F; [eauto|].
  exfalso. pose proof (find_none _ _ F m Hin) as Hf. simpl in Hf.
  rewrite Hu, Ho, !String.eqb_refl in Hf. discriminate.
Qed.

(** C3. With an actor and a resolved tenant on the request and no
    Membership row for the pair, [verifyOrganizationAccess] answers 403
    access denied, whatever the actor's global role; with a row, of
    whatever role, it lets the request through: only presence is
    checked. *)
Theorem verifyOrganizationAccess_checks_presence_only
    (d : Store.DB) (req : Http.Request) (uid oid : Store.Id) :
  Http.userId req = Some uid -> JS.truthyS uid = true ->
  Http.organizationId req = Some oid -> JS.truthyS oid = true ->
  (~ hasMembership d uid oid ->
   Organization.verifyOrganizationAccess d req =
   Http.Respond (Http.json 403
     (Http.Message "Access denied: User does not belong to this organization")))
  /\ (hasMembership d uid oid ->
      Organization.verifyOrganizationAccess d req = Http.Next req).
Proof.
  intros Hu Tu Ho To. unfold Organization.verifyOrganizationAccess.
  rewrite Hu, Ho, Tu, To. simpl. split; intros Hm.
  - rewrite (findUnique_none d uid oid Hm). reflexivity.
  - destruct (findUnique_some d uid oid Hm) as [m ->]. reflexivity.
Qed.

(** C2, as the code has it. For an actor whose global role is ADMIN,
    [requireOrgAdmin] lets the request through when a Membership row
    exists for (actor, tenant), whatever the role of that row, and
    answers 403 when none exists: the global role overrides the role of
    the membership, not the need for one. *)
Theorem requireOrgAdmin_platform_admin
    (d : Store.DB) (req : Http.Request) (uid oid : Store.Id) :
  Http.userRole req = Some Role.ADMIN ->
  Http.userId req = Some uid -> JS.truthyS uid = true ->
  Http.organizationId req = Some oid -> JS.truthyS oid = true ->
  (hasMembership d uid oid -> Organization.requireOrgAdmin d req = Http.Next req)
  /\ (~ hasMembership d uid oid ->
      Organization.requireOrgAdmin d req =
      Http.Respond (Http.json 403 (Http.Message "Organization admin access required"))).
Proof.
  intros Hr Hu Tu Ho To. unfold Organization.requireOrgAdmin.
  rewrite Hu, Ho, Tu, To. simpl. split; intros Hm.
  - destruct (findUnique_some d uid oid Hm) as [m ->].
    unfold Organization.userRoleIsNotAdmin. rewrite Hr. simpl.
    rewrite andb_false_r. reflexivity.
  - rewrite (findUnique_none d uid oid Hm). reflexivity.
Qed.

(** ** Facts about the queries that filter by organization *)


Lemma optEqb_true (o : option string) (s : string) :
  Store.optEqb o s = true <-> o = Some s.
Proof.
  destruct o as [x|]; simpl; split; intros H; try discriminate.
  - apply String.eqb_eq in H. congruence.
  - inversion H. apply String.eqb_refl.
Qed.

Lemma In_insertByOrder (x s : Store.TicketStatus) (l : list Store.TicketStatus) :
  In x (Store.insertByOrder s l) <-> x = s \/ In x l.
Proof.
  induction l as [|y l IH]; simpl.
  - intuition.
  - destruct (Store.ts_order s <=? Store.ts_order y)%Z; simpl; rewrite ?IH; intuition.
Qed.

Lemma In_sortByOrder (x : Store.TicketStatus) (l : list Store.TicketStatus) :
  In x (Store.sortByOrder l) <-> In x l.
Proof.
  induction l as [|y l IH]; simpl; [reflexivity|].
  rewrite In_insertByOrder, IH. intuition.
Qed.

(** ** Deleting a status *)

(** Some ticket carries the status. *)
Definition referenced (d : Store.DB) (id : Store.Id) : Prop :=
  exists t, In t (Store.tickets d) /\ Store.t_statusId t = Some id.

Lemma countTickets_positive (d : Store.DB) (id : Store.Id) :
  referenced d id <-> (0 <? Store.ticketStatus_countTickets d id)%nat = true.
Proof.
  unfold referenced, Store.ticketStatus_countTickets. split.
  - intros [t [Hin Ht]].
    assert (Hf : In t (filter (fun t => Store.optEqb (Store.t_statusId t) id)
                              (Store.tickets d))).
    { apply filter_In. split; [exact Hin|]. apply optEqb_true. exact Ht. }
    destruct (filter _ _); [contradiction | reflexivity].
  - intros H. destruct (filter _ _) as [|t l] eqn:F; [discriminate|].
    assert (Hf : In t (filter (fun t => Store.optEqb (Store.t_statusId t) id)
                              (Store.tickets d))) by (rewrite F; left; reflexivity).
    apply filter_In in Hf. destruct Hf as [Hin Ht].
    exists t. split; [exact Hin|]. apply optEqb_true. exact Ht.
Qed.

Lemma findFirst_status (d : Store.DB) (id oid : Store.Id) (status : Store.TicketStatus) :
  In status (Store.ticketStatuses d) ->
  Store.ts_id status = id -> Store.ts_organizationId status = oid ->
  exists s, Store.ticketStatus_findFirst d id (Some oid) = Some s
            /\ Store.ts_id s = id.
Proof.
  intros Hin Hi Ho. unfold Store.ticketStatus_findFirst.
  destruct (find _ _) as [s|] eqn:F.
  - exists s. split; [reflexivity|]. apply find_some in F.
    destruct F as [_ Hm]. apply andb_true_iff in Hm.
    destruct Hm as [Hm _]. apply String.eqb_eq in Hm. exact Hm.
  - exfalso. pose proof (find_none _ _ F status Hin) as Hf. simpl in Hf.
    rewrite Hi, Ho, !String.eqb_refl in Hf. discriminate.
Qed.

(** C9. For a status of the organization: when a ticket of the
    organization references it, [DELETE /:id] answers the 400 conflict
    and leaves the store as it was; the deletion succeeds exactly when
    no ticket references the status, and then the row is removed. *)
Theorem delete_status_conflict_when_referenced
    (d : Store.DB) (req : Http.Request) (id oid : Store.Id)
    (status : Store.TicketStatus) :
  Http.organizationId req = Some oid ->
  In status (Store.ticketStatuses d) ->
  Store.ts_id status = id ->
  Store.ts_organizationId status = oid ->
  ((exists t, In t (Store.tickets d) /\ Store.t_organizationId t = oid
              /\ Store.t_statusId t = Some id) ->
   Statuses.DELETE_id_handler d req id =
   (Http.json 400 (Http.Message
      "Cannot delete status: some tickets use it. Reassign those tickets to another status first."),
    d))
  /\ (forall d',
        Statuses.DELETE_id_handler d req id =
        (Http.json 200 (Http.Message "Ticket status deleted successfully"), d') <->
        ~ referenced d id /\ d' = Store.ticketStatus_delete d id).
Proof.
  intros Ho Hin Hi Hs.
  destruct (findFirst_status d id oid status Hin Hi Hs) as [s [F Hsid]].
  unfold Statuses.DELETE_id_handler. rewrite Ho, F, Hsid.
  destruct (0 <? Store.ticketStatus_countTickets d id)%nat eqn:C.
  - split; [reflexivity|]. intros d'. split.
    + discriminate.
    + intros [Hn _]. exfalso. apply Hn. apply countTickets_positive. exact C.
  - assert (Hn : ~ referenced d id).
    { intros R. apply countTickets_positive in R. congruence. }
    split.
    + intros [t [Ht [_ Hst]]]. exfalso. apply Hn. exists t. auto.
    + intros d'. split.
      * intros H. inversion H. auto.
      * intros [_ ->]. reflexivity.
Qed.

(** ** Tracking tokens *)

(** Every character of the string belongs to the token alphabet. *)
Definition overAlphabet (s : string) : Prop :=
  forall c, In c (list_ascii_of_string s) ->
            In c (list_ascii_of_string Tickets.chars).

(** The world moved on by [k] random draws and nothing else. *)
Definition drew (k : nat) (w w' : Effects.World) : Prop :=
  Effects.db w' = Effects.db w
  /\ Effects.console w' = Effects.console w
  /\ Effects.outbox w' = Effects.outbox w
  /\ Effects.draws w' = Effects.draws w + k.

Lemma drew_zero (w : Effects.World) : drew 0 w w.
Proof. unfold drew. repeat split; lia. Qed.

Lemma drew_trans (j k : nat) (w1 w2 w3 : Effects.World) :
  drew j w1 w2 -> drew k w2 w3 -> drew (j + k) w1 w3.
Proof.
  unfold drew. intros [A1 [B1 [C1 D1]]] [A2 [B2 [C2 D2]]].
  repeat split; try congruence. lia.
Qed.

Lemma drew_eq (j k : nat) (w w' : Effects.World) :
  drew j w w' -> j = k -> drew k w w'.
Proof. intros H <-. exact H. Qed.

Lemma list_of_append (a b : string) :
  list_ascii_of_string (a ++ b)%string =
  list_ascii_of_string a ++ list_ascii_of_string b.
Proof. induction a; simpl; congruence. Qed.

Lemma string_append_assoc (a b c : string) :
  ((a ++ b) ++ c)%string = (a ++ (b ++ c))%string.
Proof. induction a; simpl; congruence. Qed.

Lemma overAlphabet_append (a b : string) :
  overAlphabet a -> overAlphabet b -> overAlphabet (a ++ b).
Proof.
  unfold overAlphabet. intros Ha Hb c. rewrite list_of_append, in_app_iff.
  intros [H|H]; auto.
Qed.

Lemma randomIndex_range (r : Q) :
  (0 <= r)%Q -> (r < 1)%Q -> (0 <= Tickets.randomIndex r < 32)%Z.
Proof.
  intros H0 H1. unfold Tickets.randomIndex.
  change (inject_Z (Z.of_nat (String.length Tickets.chars))) with (inject_Z 32).
  split.
  - rewrite <- (Qfloor_Z 0). apply Qfloor_resp_le.
    apply Qmult_le_0_compat; [exact H0 | discriminate].
  - rewrite Zlt_Qlt. eapply Qle_lt_trans; [apply Qfloor_le|].
    setoid_replace (inject_Z 32) with (1 * inject_Z 32)%Q by ring.
    apply Qmult_lt_compat_r; [reflexivity | exact H1].
Qed.

Lemma charAt_chars (i : Z) :
  (0 <= i < 32)%Z ->
  exists c, Tickets.charAt Tickets.chars i = String c ""
            /\ In c (list_ascii_of_string Tickets.chars).
Proof.
  intros [H0 H1]. unfold Tickets.charAt.
  destruct (i <? 0)%Z eqn:E; [apply Z.ltb_lt in E; lia|].
  assert (Hn : Z.to_nat i < 32) by lia.
  remember (Z.to_nat i) as n eqn:En. clear En E H0 H1 i.
  do 32 (destruct n as [|n];
         [eexists; split; [reflexivity | simpl; tauto]|]).
  lia.
Qed.

Section TokenGeneration.
Variable rt : Effects.Runtime.
(** [Math.random()] returns a number of [[0, 1)]. *)
Hypothesis random_unit : forall n, (0 <= Effects.random rt n)%Q
                                   /\ (Effects.random rt n < 1)%Q.

Lemma generateLoop_spec (n : nat) (token : string) (w : Effects.World) :
  exists suffix w',
    Tickets.generateLoop rt n token w = (Effects.Returned (token ++ suffix)%string, w')
    /\ String.length suffix = n
    /\ overAlphabet suffix
    /\ drew n w w'.
Proof.
  revert token w. induction n as [|n IH]; intros token w.
  - exists ""%string, w. simpl. unfold Effects.ret.
    replace (token ++ "")%string with token
      by (clear; induction token; simpl; congruence).
    split; [reflexivity|]. split; [reflexivity|].
    split; [intros c [] | apply drew_zero].
  - simpl. unfold Effects.bind at 1. unfold Effects.Math_random at 1.
    destruct (random_unit (Effects.draws w)) as [H0 H1].
    destruct (charAt_chars _ (randomIndex_range _ H0 H1)) as [c [Hc Hin]].
    rewrite Hc.
    match goal with
    | |- context [Tickets.generateLoop rt n ?t ?w1] =>
      destruct (IH t w1) as [suffix [w' [Hrun [Hlen [Hal Hd]]]]]
    end.
    exists (String c suffix), w'. rewrite Hrun.
    rewrite string_append_assoc. simpl.
    split; [reflexivity|]. split; [congruence|]. split.
    + intros x [Hx|Hx]; [subst x; exact Hin | apply Hal, Hx].
    + destruct Hd as [A [B [C D]]]. unfold drew. simpl in *.
      repeat split; try assumption. lia.
Qed.

Lemma generateSimpleToken_spec (w : Effects.World) :
  exists token w',
    Tickets.generateSimpleToken rt w = (Effects.Returned token, w')
    /\ String.length token = 8
    /\ overAlphabet token
    /\ drew 8 w w'.
Proof.
  destruct (generateLoop_spec 8 "" w) as [suffix [w' [Hrun H]]].
  exists suffix, w'. split; [exact Hrun | exact H].
Qed.

(** The token of a loop state is a fresh draw and [tokenExists] is
    the answer of the uniqueness query for it. *)
Definition tokenStateOk (d : Store.DB) (s : Tickets.TokenState) : Prop :=
  String.length (Tickets.publicToken s) = 8
  /\ overAlphabet (Tickets.publicToken s)
  /\ Tickets.tokenExists s =
     Store.ticket_findUnique_publicToken d (Tickets.publicToken s).

Lemma retryLoop_spec (budget : nat) (s : Tickets.TokenState) (w : Effects.World) :
  Tickets.attempts s + budget = 10 ->
  tokenStateOk (Effects.db w) s ->
  exists s' w',
    Tickets.retryLoop rt budget s w = (Effects.Returned s', w')
    /\ tokenStateOk (Effects.db w) s'
    /\ Tickets.attempts s <= Tickets.attempts s' <= 10
    /\ Tickets.retryGuard s' = false
    /\ drew (8 * (Tickets.attempts s' - Tickets.attempts s)) w w'.
Proof.
  assert (Hstay : forall s0 w0, drew (8 * (Tickets.attempts s0 - Tickets.attempts s0)) w0 w0).
  { intros s0 w0. rewrite Nat.sub_diag, Nat.mul_0_r. apply drew_zero. }
  revert s w. induction budget as [|budget IH]; intros s w Hb Hok.
  - exists s, w. simpl. unfold Effects.ret.
    split; [reflexivity|]. split; [exact Hok|]. split; [lia|].
    split; [|apply Hstay].
    unfold Tickets.retryGuard.
    replace (Tickets.attempts s) with 10 by lia.
    apply andb_false_r.
  - simpl. destruct (Tickets.retryGuard s) eqn:G.
    + unfold Effects.bind at 1.
      destruct (generateSimpleToken_spec w) as [tok [w1 [Hgen [Hlen [Hal Hd1]]]]].
      rewrite Hgen. unfold Effects.bind at 1. unfold Effects.query at 1.
      set (s1 := {| Tickets.publicToken := tok;
                    Tickets.tokenExists :=
                      Store.ticket_findUnique_publicToken (Effects.db w1) tok;
                    Tickets.attempts := S (Tickets.attempts s) |}).
      assert (Hdb : Effects.db w1 = Effects.db w) by apply Hd1.
      destruct (IH s1 w1) as [s' [w' [Hrun [Hok' [Hatt [Hg Hd2]]]]]].
      { simpl. lia. }
      { unfold tokenStateOk. simpl. auto. }
      exists s', w'. rewrite Hrun. subst s1. cbn [Tickets.attempts] in Hatt, Hd2.
      split; [reflexivity|]. split; [rewrite <- Hdb; exact Hok'|].
      split; [lia|]. split; [exact Hg|].
      apply (drew_eq _ _ _ _ (drew_trans _ _ _ _ _ Hd1 Hd2)). lia.
    + exists s, w. unfold Effects.ret.
      split; [reflexivity|]. split; [exact Hok|]. split; [lia|].
      split; [exact G | apply Hstay].
Qed.

Lemma ensureUniqueToken_spec (w : Effects.World) :
  exists s w',
    Tickets.ensureUniqueToken rt w = (Effects.Returned s, w')
    /\ tokenStateOk (Effects.db w) s
    /\ Tickets.attempts s <= 10
    /\ Tickets.retryGuard s = false
    /\ drew (8 * (1 + Tickets.attempts s)) w w'.
Proof.
  unfold Tickets.ensureUniqueToken. unfold Effects.bind at 1.
  destruct (generateSimpleToken_spec w) as [tok [w1 [Hgen [Hlen [Hal Hd1]]]]].
  rewrite Hgen. unfold Effects.bind at 1. unfold Effects.query at 1.
  assert (Hdb : Effects.db w1 = Effects.db w) by apply Hd1.
  match goal with
  | |- context [Tickets.retryLoop rt 10 ?s0 w1] =>
    destruct (retryLoop_spec 10 s0 w1) as [s' [w' [Hrun [Hok [Hatt [Hg Hd2]]]]]]
  end.
  { reflexivity. }
  { unfold tokenStateOk. simpl. auto. }
  exists s', w'. rewrite Hrun. cbn [Tickets.attempts] in Hatt, Hd2.
  split; [reflexivity|]. split; [rewrite <- Hdb; exact Hok|].
  split; [lia|]. split; [exact Hg|].
  apply (drew_eq _ _ _ _ (drew_trans _ _ _ _ _ Hd1 Hd2)). lia.
Qed.
End TokenGeneration.

Lemma chars_distinct : NoDup (list_ascii_of_string Tickets.chars).
Proof.
  assert (E : nodup ascii_dec (list_ascii_of_string Tickets.chars)
              = list_ascii_of_string Tickets.chars) by (vm_compute; reflexivity).
  rewrite <- E. apply NoDup_nodup.
Qed.

(** C8. The alphabet has 32 distinct symbols. Whatever numbers of [[0, 1)]
    [Math.random] returns and whatever the store holds, token generation
    returns (it never throws) a token of 8 characters of the alphabet
    after at most 10 regenerations, each of 8 draws; the store is left
    as it was; and the loop stops either on a token no ticket carries or
    after the tenth regeneration, in which case the token goes on
    although a ticket still carries it. *)
Theorem public_token_generation (rt : Effects.Runtime) (w : Effects.World) :
  (forall n, (0 <= Effects.random rt n)%Q /\ (Effects.random rt n < 1)%Q) ->
  String.length Tickets.chars = 32
  /\ NoDup (list_ascii_of_string Tickets.chars)
  /\ exists s w',
       Tickets.ensureUniqueToken rt w = (Effects.Returned s, w')
       /\ String.length (Tickets.publicToken s) = 8
       /\ overAlphabet (Tickets.publicToken s)
       /\ Tickets.attempts s <= 10
       /\ Effects.draws w' = Effects.draws w + 8 * (1 + Tickets.attempts s)
       /\ Effects.db w' = Effects.db w
       /\ Tickets.tokenExists s =
          Store.ticket_findUnique_publicToken (Effects.db w) (Tickets.publicToken s)
       /\ (Tickets.tokenExists s <> None -> Tickets.attempts s = 10).
Proof.
  intros Hr. split; [reflexivity|]. split; [exact chars_distinct|].
  destruct (ensureUniqueToken_spec rt Hr w) as [s [w' [Hrun [Hok [Hatt [Hg Hd]]]]]].
  exists s, w'. destruct Hok as [Hlen [Hal Hex]]. destruct Hd as [Hdb [_ [_ Hdr]]].
  split; [exact Hrun|]. split; [exact Hlen|]. split; [exact Hal|].
  split; [exact Hatt|]. split; [exact Hdr|]. split; [exact Hdb|].
  split; [exact Hex|].
  intros Hne. unfold Tickets.retryGuard in Hg.
  destruct (Tickets.tokenExists s); [|congruence].
  simpl in Hg. apply Nat.ltb_ge in Hg. lia.
Qed.

(** ** Best-effort helpers *)

(** The computation returns [a] from every world. *)
Definition returns {A} (m : Effects.M A) (a : A) : Prop :=
  forall w, exists w', m w = (Effects.Returned a, w').

(** The computation returns, with some value, from every world. *)
Definition neverThrows {A} (m : Effects.M A) : Prop :=
  forall w, exists a w', m w = (Effects.Returned a, w').

Lemma bind_run {A B} (m : Effects.M A) (k : A -> Effects.M B) (w : Effects.World) :
  Effects.bind m k w =
  match m w with
  | (Effects.Returned a, w') => k a w'
  | (Effects.Thrown e, w') => (Effects.Thrown e, w')
  end.
Proof. reflexivity. Qed.

Lemma returns_ret {A} (a : A) : returns (Effects.ret a) a.
Proof. intros w. exists w. reflexivity. Qed.

Lemma returns_bind {A B} (m : Effects.M A) (k : A -> Effects.M B) (b : B) :
  neverThrows m -> (forall a, returns (k a) b) -> returns (Effects.bind m k) b.
Proof.
  intros Hm Hk w. destruct (Hm w) as [a [w1 E]].
  destruct (Hk a w1) as [w2 E2]. exists w2.
  rewrite bind_run, E. exact E2.
Qed.

Lemma returns_neverThrows {A} (m : Effects.M A) (a : A) : returns m a -> neverThrows m.
Proof. intros H w. destruct (H w) as [w' E]. eauto. Qed.

Lemma neverThrows_query {A} (q : Store.DB -> A) : neverThrows (Effects.query q).
Proof. intros w. unfold Effects.query. eauto. Qed.

Lemma returns_sendMail (e : Effects.Email) : returns (Effects.sendMail e) tt.
Proof. intros w. unfold Effects.sendMail. eauto. Qed.

Lemma returns_console_error (line : string) : returns (Effects.console_error line) tt.
Proof. intros w. unfold Effects.console_error. eauto. Qed.

(** A [try] whose handler returns [a] returns [a] when its body can
    only return [a] or throw. *)
Lemma returns_tryCatch {A} (body : Effects.M A) (handler : Effects.Error -> Effects.M A)
    (a : A) :
  (forall w a' w', body w = (Effects.Returned a', w') -> a' = a) ->
  (forall e, returns (handler e) a) ->
  returns (Effects.tryCatch body handler) a.
Proof.
  intros Hb Hh w. unfold Effects.tryCatch.
  destruct (body w) as [[a'|e] w1] eqn:E.
  - exists w1. rewrite (Hb w a' w1 E). reflexivity.
  - apply Hh.
Qed.

Lemma returns_forEach {A} (l : list A) (f : A -> Effects.M unit) :
  (forall x, returns (f x) tt) -> returns (Effects.forEach l f) tt.
Proof.
  intros Hf. induction l as [|x l IH]; simpl.
  - apply returns_ret.
  - apply returns_bind; [eapply returns_neverThrows, Hf | intros []; exact IH].
Qed.

Lemma unit_only (body : Effects.M unit) :
  forall (w : Effects.World) (a' : unit) (w' : Effects.World),
    body w = (Effects.Returned a', w') -> a' = tt.
Proof. intros w [] w' _. reflexivity. Qed.

Lemma createNotification_returns (rt : Effects.Runtime)
    (data : Notifications.CreateNotificationData) :
  returns (Notifications.createNotification rt data) tt.
Proof.
  apply returns_tryCatch; [apply unit_only | intros e; apply returns_console_error].
Qed.


Lemma createActivityLog_returns (rt : Effects.Runtime)
    (data : Notifications.ActivityLogData) :
  returns (Notifications.createActivityLog rt data) tt.
Proof.
  apply returns_tryCatch; [apply unit_only | intros e; apply returns_console_error].
Qed.





(** What [POST /] does once the ticket row exists ends in the 201
    response: every statement after the creation returns. *)
Ltac announce_returns :=
  apply returns_bind;
    [eapply returns_neverThrows, createActivityLog_returns | intros _];
  apply returns_bind;
    [eapply returns_neverThrows, createNotification_returns | intros _];
  apply returns_bind; [apply neverThrows_query | intros ?user];
  apply returns_bind; [apply neverThrows_query | intros ?slug];
  apply returns_bind;
    [ match goal with
      | |- neverThrows (match ?u with _ => _ end) =>
        destruct u as [?u|]; [destruct (JS.truthyS (Store.user_email _))|];
        eapply returns_neverThrows;
        first [apply returns_sendMail | apply returns_ret]
      end
    | intros _ ];
  apply returns_bind; [|intros _; apply returns_ret];
  eapply (returns_neverThrows _ tt);
  match goal with
  | |- returns (match ?l with _ => _ end) tt =>
    destruct l as [|?u0 ?us]; [apply returns_ret|]
  end;
  match goal with
  | |- returns (match ?c with _ => _ end) tt =>
    destruct c as [?cat|]; [|apply returns_ret]
  end;
  apply returns_forEach; intros ?x; unfold Tickets.notifyAssignedUser;
  apply returns_bind; [apply neverThrows_query | intros ?mail];
  apply returns_bind; [eapply returns_neverThrows, returns_sendMail | intros _];
  apply returns_tryCatch; [apply unit_only | intros ?e; apply returns_console_error].







(** Two worlds that differ at most in what the three helpers write:
    the notification table, the activity-log table and the console. *)
Definition sameButLogs (w1 w2 : Effects.World) : Prop :=
  Store.organizations (Effects.db w1) = Store.organizations (Effects.db w2)
  /\ Store.users (Effects.db w1) = Store.users (Effects.db w2)
  /\ Store.userOrganizations (Effects.db w1) = Store.userOrganizations (Effects.db w2)
  /\ Store.categories (Effects.db w1) = Store.categories (Effects.db w2)
  /\ Store.userCategoryAssignments (Effects.db w1)
     = Store.userCategoryAssignments (Effects.db w2)
  /\ Store.tickets (Effects.db w1) = Store.tickets (Effects.db w2)
  /\ Store.comments (Effects.db w1) = Store.comments (Effects.db w2)
  /\ Store.ticketStatuses (Effects.db w1) = Store.ticketStatuses (Effects.db w2)
  /\ Effects.outbox w1 = Effects.outbox w2
  /\ Effects.draws w1 = Effects.draws w2.


Lemma sameButLogs_refl (w : Effects.World) : sameButLogs w w.
Proof. unfold sameButLogs. intuition. Qed.





















(** ** Ticket creation *)

(** Recipients of the assignment e-mails in an outbox, in order. *)
Definition assignmentRecipients (l : list Effects.Email) : list string :=
  flat_map (fun e => match e with
                     | Effects.AssignmentEmail to _ _ _ _ => [to]
                     | _ => []
                     end) l.

(** Users of the in-app assignment notifications of a table, in order. *)
Definition assignedNotified (l : list Store.Notification) : list Store.Id :=
  flat_map (fun n => match Store.n_type n with
                     | Store.TICKET_ASSIGNED => [Store.n_userId n]
                     | _ => []
                     end) l.

(** From [w] to [w']: the tickets [ts] were added, assignment e-mails
    went to [mails], assignment notifications were stored for [notes]. *)
Definition announced (ts : list Store.Ticket) (mails : list string)
    (notes : list Store.Id) (w w' : Effects.World) : Prop :=
  Store.tickets (Effects.db w') = Store.tickets (Effects.db w) ++ ts
  /\ assignmentRecipients (Effects.outbox w') =
     assignmentRecipients (Effects.outbox w) ++ mails
  /\ assignedNotified (Store.notifications (Effects.db w')) =
     assignedNotified (Store.notifications (Effects.db w)) ++ notes.

(** The store accepts every best-effort write. *)
Definition storeAccepts (rt : Effects.Runtime) : Prop :=
  forall d wr, Effects.writeFault rt d wr = None.

(** The outcome of the auto-assignment block on a store. *)
Definition autoAssignResult (d : Store.DB) (categoryId : option string)
    (organizationId : option Store.Id) : option Store.Id * list Store.User :=
  match categoryId with
  | Some cid =>
    if JS.truthyS cid then
      match Store.userCategoryAssignment_findMany d cid organizationId with
      | first :: rest =>
        (Some (Store.uca_userId first), map Store.uca_user (first :: rest))
      | [] => (None, [])
      end
    else (None, [])
  | None => (None, [])
  end.

Lemma announced_refl (w : Effects.World) : announced [] [] [] w w.
Proof. unfold announced. rewrite !app_nil_r. auto. Qed.

Lemma announced_trans ts1 ts2 m1 m2 n1 n2 (w1 w2 w3 : Effects.World) :
  announced ts1 m1 n1 w1 w2 -> announced ts2 m2 n2 w2 w3 ->
  announced (ts1 ++ ts2) (m1 ++ m2) (n1 ++ n2) w1 w3.
Proof.
  unfold announced. intros [A1 [B1 C1]] [A2 [B2 C2]].
  rewrite A2, A1, B2, B1, C2, C1, !app_assoc. auto.
Qed.

Lemma drew_announced k (w w' : Effects.World) : drew k w w' -> announced [] [] [] w w'.
Proof.
  intros [A [_ [C _]]]. unfold announced. rewrite A, C, !app_nil_r. auto.
Qed.

Lemma assignmentRecipients_app (a b : list Effects.Email) :
  assignmentRecipients (a ++ b) = assignmentRecipients a ++ assignmentRecipients b.
Proof. apply flat_map_app. Qed.

Lemma assignedNotified_app (a b : list Store.Notification) :
  assignedNotified (a ++ b) = assignedNotified a ++ assignedNotified b.
Proof. apply flat_map_app. Qed.

Lemma run_console_error line w r w' :
  Effects.console_error line w = (r, w') ->
  r = Effects.Returned tt /\ announced [] [] [] w w'.
Proof.
  unfold Effects.console_error. intros H. inversion H; subst. split; [reflexivity|].
  unfold announced. simpl. rewrite !app_nil_r. auto.
Qed.

Lemma run_sendMail e w r w' :
  Effects.sendMail e w = (r, w') ->
  r = Effects.Returned tt /\ announced [] (assignmentRecipients [e]) [] w w'.
Proof.
  unfold Effects.sendMail. intros H. inversion H; subst. split; [reflexivity|].
  unfold announced. cbn [Effects.db Effects.outbox].
  rewrite assignmentRecipients_app, !app_nil_r. auto.
Qed.

Lemma run_createActivityLog rt data w r w' :
  Notifications.createActivityLog rt data w = (r, w') ->
  r = Effects.Returned tt /\ announced [] [] [] w w'.
Proof.
  unfold Notifications.createActivityLog, Effects.tryCatch,
    Notifications.prisma_activityLog_create.
  destruct (Effects.writeFault rt _ _); intros H.
  - apply run_console_error in H. exact H.
  - inversion H; subst. split; [reflexivity|].
    unfold announced. simpl. rewrite !app_nil_r. auto.
Qed.

Lemma run_createNotification rt data w r w' :
  Notifications.createNotification rt data w = (r, w') ->
  r = Effects.Returned tt
  /\ exists notes,
       announced [] [] notes w w'
       /\ (Notifications.cn_type data <> Store.TICKET_ASSIGNED -> notes = [])
       /\ (Notifications.cn_type data = Store.TICKET_ASSIGNED -> storeAccepts rt ->
           notes = [Notifications.cn_userId data]).
Proof.
  unfold Notifications.createNotification, Effects.tryCatch,
    Notifications.prisma_notification_create.
  destruct (Effects.writeFault rt _ _) eqn:F; intros H.
  - apply run_console_error in H. destruct H as [-> Ha].
    split; [reflexivity|]. exists []. split; [exact Ha|]. split; [reflexivity|].
    intros _ Acc. rewrite Acc in F. discriminate.
  - inversion H; subst. split; [reflexivity|].
    exists (assignedNotified [Notifications.rowOf data]).
    split; [|split].
    + unfold announced. simpl Effects.db. simpl Store.tickets.
      simpl Store.notifications. rewrite assignedNotified_app, !app_nil_r. auto.
    + intros Hn. unfold assignedNotified. simpl.
      destruct (Notifications.cn_type data); try reflexivity. congruence.
    + intros Ht _. unfold assignedNotified. simpl. rewrite Ht. reflexivity.
Qed.

Lemma run_notifyAssignedUser rt ticket cat u w r w' :
  Tickets.notifyAssignedUser rt ticket cat u w = (r, w') ->
  r = Effects.Returned tt
  /\ exists notes,
       announced [] [Store.user_email u] notes w w'
       /\ (storeAccepts rt -> notes = [Store.user_id u]).
Proof.
  unfold Tickets.notifyAssignedUser. rewrite bind_run. unfold Effects.query at 1.
  rewrite bind_run.
  destruct (Effects.sendMail _ w) as [r1 w1] eqn:E1.
  apply run_sendMail in E1. destruct E1 as [-> A1].
  unfold Effects.tryCatch.
  destruct (Notifications.createNotification _ _ w1) as [r2 w2] eqn:E2.
  apply run_createNotification in E2. destruct E2 as [-> [notes [A2 [_ Hn]]]].
  intros H. inversion H; subst. split; [reflexivity|].
  exists notes. split.
  - exact (announced_trans _ _ _ _ _ _ _ _ _ A1 A2).
  - intros Acc. apply Hn; [reflexivity | exact Acc].
Qed.

Lemma run_mailAssignedUser ticket cat u w r w' :
  Tickets.mailAssignedUser ticket cat u w = (r, w') ->
  r = Effects.Returned tt /\ announced [] [Store.user_email u] [] w w'.
Proof.
  unfold Tickets.mailAssignedUser. rewrite bind_run. unfold Effects.query at 1.
  intros H. apply run_sendMail in H. exact H.
Qed.

Lemma run_forEach_notify rt ticket cat us w r w' :
  Effects.forEach us (Tickets.notifyAssignedUser rt ticket cat) w = (r, w') ->
  r = Effects.Returned tt
  /\ exists notes,
       announced [] (map Store.user_email us) notes w w'
       /\ (storeAccepts rt -> notes = map Store.user_id us).
Proof.
  revert w. induction us as [|u us IH]; intros w; simpl.
  - unfold Effects.ret. intros H. inversion H; subst. split; [reflexivity|].
    exists []. split; [apply announced_refl | reflexivity].
  - rewrite bind_run.
    destruct (Tickets.notifyAssignedUser rt ticket cat u w) as [r1 w1] eqn:E1.
    apply run_notifyAssignedUser in E1. destruct E1 as [-> [n1 [A1 H1]]].
    intros H. apply IH in H. destruct H as [-> [n2 [A2 H2]]].
    split; [reflexivity|]. exists (n1 ++ n2). split.
    + exact (announced_trans _ _ _ _ _ _ _ _ _ A1 A2).
    + intros Acc. rewrite (H1 Acc), (H2 Acc). reflexivity.
Qed.

Lemma run_forEach_mail ticket cat us w r w' :
  Effects.forEach us (Tickets.mailAssignedUser ticket cat) w = (r, w') ->
  r = Effects.Returned tt /\ announced [] (map Store.user_email us) [] w w'.
Proof.
  revert w. induction us as [|u us IH]; intros w; simpl.
  - unfold Effects.ret. intros H. inversion H; subst. split; [reflexivity|].
    apply announced_refl.
  - rewrite bind_run.
    destruct (Tickets.mailAssignedUser ticket cat u w) as [r1 w1] eqn:E1.
    apply run_mailAssignedUser in E1. destruct E1 as [-> A1].
    intros H. apply IH in H. destruct H as [-> A2].
    split; [reflexivity|].
    exact (announced_trans _ _ _ _ _ _ _ _ _ A1 A2).
Qed.

Lemma onError_not_created e w p w' :
  Tickets.onError e w = (Effects.Returned (Http.json 201 p), w') -> False.
Proof. destruct e; unfold Tickets.onError, Effects.ret; intros H; inversion H. Qed.

Lemma zStringMin_some n field s :
  Tickets.zStringMin n field = Some s -> field = Some s /\ n <= String.length s.
Proof.
  unfold Tickets.zStringMin. destruct field as [x|]; [|discriminate].
  destruct (n <=? String.length x)%nat eqn:E; [|discriminate].
  intros H. inversion H; subst. split; [reflexivity|]. apply Nat.leb_le, E.
Qed.

Lemma length_truthyS s : 1 <= String.length s -> JS.truthyS s = true.
Proof. destruct s; simpl; [lia | reflexivity]. Qed.

Lemma parse_inv rt body w d w1 :
  Tickets.createTicketSchema_parse rt body w = (Effects.Returned d, w1) ->
  w1 = w /\ Tickets.ct_categoryId d = Tickets.b_categoryId body.
Proof.
  unfold Tickets.createTicketSchema_parse.
  destruct (Tickets.zStringMin 3 _); [|discriminate].
  destruct (Tickets.zStringMin 10 _); [|discriminate].
  match goal with |- context [if ?c then _ else _] => destruct c end;
    [|discriminate].
  unfold Effects.ret. intros H. inversion H; subst. auto.
Qed.

Lemma parse_public_inv rt body w d w1 :
  Tickets.createPublicTicketSchema_parse rt body w = (Effects.Returned d, w1) ->
  w1 = w
  /\ Tickets.cpt_categoryId d = Tickets.b_categoryId body
  /\ Tickets.b_submitterName body = Some (Tickets.cpt_submitterName d)
  /\ JS.truthyS (Tickets.cpt_submitterName d) = true
  /\ Tickets.b_submitterEmail body = Some (Tickets.cpt_submitterEmail d)
  /\ Effects.zodEmail rt (Tickets.cpt_submitterEmail d) = true.
Proof.
  unfold Tickets.createPublicTicketSchema_parse.
  destruct (Tickets.zStringMin 3 _); [|discriminate].
  destruct (Tickets.zStringMin 10 _); [|discriminate].
  destruct (Tickets.zStringMin 2 _) as [name|] eqn:En; [|discriminate].
  destruct (Tickets.b_submitterEmail body) as [email|]; [|discriminate].
  destruct (Effects.zodEmail rt email) eqn:Ez; [|discriminate].
  unfold Effects.ret. intros H. inversion H; subst. simpl.
  apply zStringMin_some in En. destruct En as [En Hl].
  repeat split; auto. apply length_truthyS. lia.
Qed.

Lemma verifyCategory_inv c o w r w2 :
  Tickets.verifyCategory c o w = (r, w2) ->
  w2 = w
  /\ ((exists m, r = Effects.Returned (inl (Http.json 400 (Http.Message m))))
      \/ (exists category, r = Effects.Returned (inr category)
                           /\ (JS.truthy c = true -> category <> None))).
Proof.
  unfold Tickets.verifyCategory.
  destruct c as [cid|]; simpl.
  - destruct (JS.truthyS cid).
    + rewrite bind_run. unfold Effects.query.
      destruct (Store.category_findFirst _ _ _) as [cat|];
        unfold Effects.ret; intros H; inversion H; subst; split; auto.
      * right. exists (Some cat). split; [reflexivity | discriminate].
      * left. eauto.
    + unfold Effects.ret. intros H. inversion H; subst. split; auto.
      right. exists None. split; [reflexivity | discriminate].
  - unfold Effects.ret. intros H. inversion H; subst. split; auto.
    right. exists None. split; [reflexivity | discriminate].
Qed.

Lemma generateLoop_frame rt n token w :
  exists tok w', Tickets.generateLoop rt n token w = (Effects.Returned tok, w')
                 /\ drew n w w'.
Proof.
  revert token w. induction n as [|n IH]; intros token w; simpl.
  - exists token, w. split; [reflexivity | apply drew_zero].
  - rewrite bind_run. unfold Effects.Math_random at 1.
    match goal with
    | |- context [Tickets.generateLoop rt n ?t ?w1] =>
      destruct (IH t w1) as [tok [w' [E D]]]
    end.
    exists tok, w'. split; [exact E|].
    destruct D as [A [B [C D]]]. unfold drew. simpl in *.
    repeat split; try assumption. lia.
Qed.

Lemma retryLoop_frame rt budget s w :
  exists s' w' k, Tickets.retryLoop rt budget s w = (Effects.Returned s', w')
                  /\ drew k w w'.
Proof.
  revert s w. induction budget as [|budget IH]; intros s w; simpl.
  - exists s, w, 0. split; [reflexivity | apply drew_zero].
  - destruct (Tickets.retryGuard s).
    + rewrite bind_run.
      destruct (generateLoop_frame rt 8 "" w) as [tok [w1 [E D1]]].
      unfold Tickets.generateSimpleToken. rewrite E.
      rewrite bind_run. unfold Effects.query at 1.
      match goal with
      | |- context [Tickets.retryLoop rt budget ?s1 w1] =>
        destruct (IH s1 w1) as [s' [w' [k [E2 D2]]]]
      end.
      exists s', w', (8 + k). split; [exact E2|].
      exact (drew_trans _ _ _ _ _ D1 D2).
    + exists s, w, 0. split; [reflexivity | apply drew_zero].
Qed.

Lemma ensureUniqueToken_frame rt w r w' :
  Tickets.ensureUniqueToken rt w = (r, w') ->
  (exists s, r = Effects.Returned s) /\ announced [] [] [] w w'
  /\ Effects.db w' = Effects.db w.
Proof.
  unfold Tickets.ensureUniqueToken. rewrite bind_run.
  destruct (generateLoop_frame rt 8 "" w) as [tok [w1 [E D1]]].
  unfold Tickets.generateSimpleToken. rewrite E.
  rewrite bind_run. unfold Effects.query at 1.
  match goal with
  | |- context [Tickets.retryLoop rt 10 ?s1 w1] =>
    destruct (retryLoop_frame rt 10 s1 w1) as [s' [w2 [k [E2 D2]]]]
  end.
  rewrite E2. intros H. inversion H; subst.
  pose proof (drew_trans _ _ _ _ _ D1 D2) as D.
  split; [eauto|]. split; [exact (drew_announced _ _ _ D) | apply D].
Qed.

Lemma autoAssign_run c o w :
  Tickets.autoAssign c o w =
  (Effects.Returned (autoAssignResult (Effects.db w) c o), w).
Proof.
  unfold Tickets.autoAssign, autoAssignResult.
  destruct c as [cid|]; [|reflexivity].
  destruct (JS.truthyS cid); [|reflexivity].
  rewrite bind_run. unfold Effects.query.
  destruct (Store.userCategoryAssignment_findMany _ _ _); reflexivity.
Qed.

Lemma autoAssignResult_users d c o :
  snd (autoAssignResult d c o) <> [] -> JS.truthy c = true.
Proof.
  unfold autoAssignResult. destruct c as [cid|]; simpl; [|congruence].
  destruct (JS.truthyS cid); simpl; congruence.
Qed.

Lemma create_inv rt data w t w' :
  Tickets.prisma_ticket_create rt data w = (Effects.Returned t, w') ->
  announced [t] [] [] w w'
  /\ Tickets.d_organizationId data = Some (Store.t_organizationId t)
  /\ Store.t_userId t = Tickets.d_userId data
  /\ Store.t_categoryId t = Tickets.d_categoryId data
  /\ Store.t_publicToken t = Tickets.d_publicToken data
  /\ Store.t_submitterName t = Tickets.d_submitterName data
  /\ Store.t_submitterEmail t = Tickets.d_submitterEmail data
  /\ Store.t_assignedTo t = Tickets.d_assignedTo data.
Proof.
  unfold Tickets.prisma_ticket_create.
  destruct (Tickets.d_organizationId data) as [oid|]; [|discriminate].
  destruct (Tickets.tokenTaken _ _); [discriminate|].
  intros H. inversion H; subst. simpl.
  split; [|repeat split; reflexivity].
  unfold announced. simpl. rewrite !app_nil_r. auto.
Qed.

(** One statement of a handler: the computation bound first is run and
    named. *)
Ltac step H r w E :=
  match type of H with
  | context [Effects.bind ?m ?k ?w0] =>
    rewrite (bind_run m k w0) in H; destruct (m w0) as [r w] eqn:E
  end.

Lemma POST_root_created rt userId oid body w t w' :
  Tickets.POST_root rt userId oid body w
  = (Effects.Returned (Http.json 201 (Http.TicketJson t)), w') ->
  exists token notes,
    Store.t_userId t = Some userId
    /\ Store.t_organizationId t = oid
    /\ Store.t_publicToken t = Some token
    /\ Store.t_submitterName t = None
    /\ Store.t_submitterEmail t = None
    /\ Store.t_categoryId t = JS.orNull (Tickets.b_categoryId body)
    /\ Store.t_assignedTo t =
       JS.orNull (fst (autoAssignResult (Effects.db w) (Tickets.b_categoryId body)
                                        (Some oid)))
    /\ announced [t]
         (map Store.user_email
              (snd (autoAssignResult (Effects.db w) (Tickets.b_categoryId body)
                                     (Some oid))))
         notes w w'
    /\ (storeAccepts rt ->
        notes = map Store.user_id
                    (snd (autoAssignResult (Effects.db w) (Tickets.b_categoryId body)
                                           (Some oid)))).
Proof.
  unfold Tickets.POST_root, Effects.tryCatch. intros H.
  step H r1 w1 E1. destruct r1 as [d|e];
    [|apply onError_not_created in H; contradiction].
  apply parse_inv in E1. destruct E1 as [-> Hcat].
  step H r2 w2 E2. apply verifyCategory_inv in E2. destruct E2 as [-> E2].
  destruct E2 as [[m ->]|[category [-> Hcategory]]].
  { unfold Effects.ret in H. inversion H. }
  step H r3 w3 E3. apply ensureUniqueToken_frame in E3.
  destruct E3 as [[token ->] [A3 Hdb3]].
  step H r4 w4 E4. rewrite autoAssign_run in E4. inversion E4; subst r4 w4; clear E4.
  rewrite Hdb3, Hcat in H.
  destruct (autoAssignResult (Effects.db w) (Tickets.b_categoryId body) (Some oid))
    as [assignedUserId allAssignedUsers] eqn:Eassign.
  step H r5 w5 E5. destruct r5 as [ticket|e];
    [|apply onError_not_created in H; contradiction].
  apply create_inv in E5.
  destruct E5 as [A5 [Horg [Huser [Hcid [Htok [Hname [Hmail Hass]]]]]]].
  simpl in Horg, Huser, Hcid, Htok, Hname, Hmail, Hass.
  step H r6 w6 E6. unfold Notifications.logTicketAction in E6.
  apply run_createActivityLog in E6. destruct E6 as [-> A6].
  step H r7 w7 E7. apply run_createNotification in E7.
  destruct E7 as [-> [n7 [A7 [Hn7 _]]]].
  rewrite (Hn7 ltac:(simpl; discriminate)) in A7. clear Hn7.
  step H r8 w8 E8. unfold Effects.query in E8. inversion E8; subst r8 w8; clear E8.
  step H r9 w9 E9. unfold Effects.query in E9. inversion E9; subst r9 w9; clear E9.
  step H r10 w10 E10.
  assert (H10 : r10 = Effects.Returned tt /\ announced [] [] [] w7 w10).
  { destruct (Store.user_findUnique (Effects.db w7) userId) as [u|].
    - destruct (JS.truthyS (Store.user_email u)).
      + apply run_sendMail in E10. exact E10.
      + inversion E10. split; [reflexivity | apply announced_refl].
    - inversion E10. split; [reflexivity | apply announced_refl]. }
  clear E10. destruct H10 as [-> A10].
  step H r11 w11 E11.
  assert (H11 : r11 = Effects.Returned tt
                /\ exists notes,
                     announced [] (map Store.user_email allAssignedUsers) notes w10 w11
                     /\ (storeAccepts rt -> notes = map Store.user_id allAssignedUsers)).
  { destruct allAssignedUsers as [|u0 us].
    - inversion E11. split; [reflexivity|]. exists [].
      split; [apply announced_refl | reflexivity].
    - destruct category as [cat|].
      + apply run_forEach_notify in E11. exact E11.
      + exfalso. apply Hcategory; [|reflexivity].
        rewrite Hcat.
        apply (autoAssignResult_users (Effects.db w) _ (Some oid)).
        rewrite Eassign. simpl. discriminate. }
  clear E11. destruct H11 as [-> [notes [A11 Hnotes]]].
  unfold Effects.ret in H. inversion H; subst ticket w11.
  exists (Tickets.publicToken token), notes.
  inversion Horg.
  split; [exact Huser|]. split; [reflexivity|]. split; [exact Htok|].
  split; [exact Hname|]. split; [exact Hmail|].
  split; [rewrite Hcid, Hcat; reflexivity|]. split; [exact Hass|].
  split; [|exact Hnotes].
  pose proof (announced_trans _ _ _ _ _ _ _ _ _ A3
               (announced_trans _ _ _ _ _ _ _ _ _ A5
                 (announced_trans _ _ _ _ _ _ _ _ _ A6
                   (announced_trans _ _ _ _ _ _ _ _ _ A7
                     (announced_trans _ _ _ _ _ _ _ _ _ A10 A11))))) as A.
  simpl in A. exact A.
Qed.

Lemma POST_public_created rt organizationId body w t tok msg w' :
  Tickets.POST_public_handler rt organizationId body w
  = (Effects.Returned (Http.json 201 (Http.SubmittedJson t tok msg)), w') ->
  exists name email,
    Store.t_userId t = None
    /\ organizationId = Some (Store.t_organizationId t)
    /\ Store.t_publicToken t = Some tok
    /\ Tickets.b_submitterName body = Some name
    /\ JS.truthyS name = true
    /\ Store.t_submitterName t = Some name
    /\ Tickets.b_submitterEmail body = Some email
    /\ Effects.zodEmail rt email = true
    /\ Store.t_submitterEmail t = JS.orNull (Some email)
    /\ Store.t_assignedTo t =
       JS.orNull (fst (autoAssignResult (Effects.db w) (Tickets.b_categoryId body)
                                        organizationId))
    /\ announced [t]
         (map Store.user_email
              (snd (autoAssignResult (Effects.db w) (Tickets.b_categoryId body)
                                     organizationId)))
         [] w w'.
Proof.
  unfold Tickets.POST_public_handler, Effects.tryCatch. intros H.
  step H r1 w1 E1. destruct r1 as [d|e];
    [|apply onError_not_created in H; contradiction].
  apply parse_public_inv in E1.
  destruct E1 as [-> [Hcat [Hname [Tname [Hemail Zemail]]]]].
  step H r2 w2 E2. apply verifyCategory_inv in E2. destruct E2 as [-> E2].
  destruct E2 as [[m ->]|[category [-> Hcategory]]].
  { unfold Effects.ret in H. inversion H. }
  step H r3 w3 E3. apply ensureUniqueToken_frame in E3.
  destruct E3 as [[token ->] [A3 Hdb3]].
  step H r4 w4 E4. rewrite autoAssign_run in E4. inversion E4; subst r4 w4; clear E4.
  rewrite Hdb3, Hcat in H.
  destruct (autoAssignResult (Effects.db w) (Tickets.b_categoryId body) organizationId)
    as [assignedUserId allAssignedUsers] eqn:Eassign.
  step H r5 w5 E5. destruct r5 as [ticket|e];
    [|apply onError_not_created in H; contradiction].
  apply create_inv in E5.
  destruct E5 as [A5 [Horg [Huser [Hcid [Htok [Hn [Hm Hass]]]]]]].
  simpl in Horg, Huser, Hcid, Htok, Hn, Hm, Hass.
  step H r6 w6 E6. unfold Effects.query in E6. inversion E6; subst r6 w6; clear E6.
  step H r7 w7 E7.
  assert (H7 : r7 = Effects.Returned tt /\ announced [] [] [] w5 w7).
  { destruct (JS.truthyS (Tickets.cpt_submitterEmail d)).
    - apply run_sendMail in E7. exact E7.
    - inversion E7. split; [reflexivity | apply announced_refl]. }
  clear E7. destruct H7 as [-> A7].
  step H r8 w8 E8.
  assert (H8 : r8 = Effects.Returned tt
               /\ announced [] (map Store.user_email allAssignedUsers) [] w7 w8).
  { destruct allAssignedUsers as [|u0 us].
    - inversion E8. split; [reflexivity | apply announced_refl].
    - destruct category as [cat|].
      + apply run_forEach_mail in E8. exact E8.
      + exfalso. apply Hcategory; [|reflexivity].
        rewrite Hcat.
        apply (autoAssignResult_users (Effects.db w) _ organizationId).
        rewrite Eassign. simpl. discriminate. }
  clear E8. destruct H8 as [-> A8].
  unfold Effects.ret in H. inversion H; subst ticket tok msg w8.
  exists (Tickets.cpt_submitterName d), (Tickets.cpt_submitterEmail d).
  split; [exact Huser|]. split; [exact Horg|]. split; [exact Htok|].
  split; [exact Hname|]. split; [exact Tname|].
  split; [rewrite Hn; unfold JS.orNull; simpl; rewrite Tname; reflexivity|].
  split; [exact Hemail|]. split; [exact Zemail|]. split; [exact Hm|].
  split; [exact Hass|].
  pose proof (announced_trans _ _ _ _ _ _ _ _ _ A3
               (announced_trans _ _ _ _ _ _ _ _ _ A5
                 (announced_trans _ _ _ _ _ _ _ _ _ A7 A8))) as A.
  simpl in A. exact A.
Qed.

Lemma autoAssignResult_first d cid o first rest :
  JS.truthyS cid = true ->
  Store.userCategoryAssignment_findMany d cid o = first :: rest ->
  autoAssignResult d (Some cid) o =
  (Some (Store.uca_userId first), map Store.uca_user (first :: rest)).
Proof. intros T F. unfold autoAssignResult. rewrite T, F. reflexivity. Qed.

Lemma orNull_truthy s : JS.truthyS s = true -> JS.orNull (Some s) = Some s.
Proof. intros T. unfold JS.orNull. simpl. rewrite T. reflexivity. Qed.

(** C4. A ticket is created in a category with the assignment rows
    [first :: rest] (so N = 1 + length rest) in the tenant. On both
    creation paths the ticket's [assignedTo] is the user of the first
    row and of no other, and one assignment e-mail notification goes to
    the user of every row, N in all, in the order of the rows. The
    authenticated path also stores one in-app assignment notification
    per row when the store accepts the writes; the public path notifies
    by e-mail only. *)
Theorem auto_assignment_first_user_and_broadcast
    (rt : Effects.Runtime) (body : Tickets.Body) (cid : Store.Id)
    (first : Store.UserCategoryAssignment) (rest : list Store.UserCategoryAssignment)
    (oid : Store.Id) (w w' : Effects.World) (t : Store.Ticket) :
  Tickets.b_categoryId body = Some cid ->
  JS.truthyS cid = true ->
  Store.userCategoryAssignment_findMany (Effects.db w) cid (Some oid) = first :: rest ->
  JS.truthyS (Store.uca_userId first) = true ->
  (forall userId,
     Tickets.POST_root rt userId oid body w
     = (Effects.Returned (Http.json 201 (Http.TicketJson t)), w') ->
     Store.t_assignedTo t = Some (Store.uca_userId first)
     /\ Store.t_categoryId t = Some cid
     /\ Store.tickets (Effects.db w') = Store.tickets (Effects.db w) ++ [t]
     /\ assignmentRecipients (Effects.outbox w') =
        assignmentRecipients (Effects.outbox w)
        ++ map (fun a => Store.user_email (Store.uca_user a)) (first :: rest)
     /\ (storeAccepts rt ->
         assignedNotified (Store.notifications (Effects.db w')) =
         assignedNotified (Store.notifications (Effects.db w))
         ++ map (fun a => Store.user_id (Store.uca_user a)) (first :: rest)))
  /\ (forall tok msg,
        Tickets.POST_public_handler rt (Some oid) body w
        = (Effects.Returned (Http.json 201 (Http.SubmittedJson t tok msg)), w') ->
        Store.t_assignedTo t = Some (Store.uca_userId first)
        /\ Store.tickets (Effects.db w') = Store.tickets (Effects.db w) ++ [t]
        /\ assignmentRecipients (Effects.outbox w') =
           assignmentRecipients (Effects.outbox w)
           ++ map (fun a => Store.user_email (Store.uca_user a)) (first :: rest)
        /\ assignedNotified (Store.notifications (Effects.db w')) =
           assignedNotified (Store.notifications (Effects.db w))).
Proof.
  intros Hc Tc Hf Tu.
  pose proof (autoAssignResult_first _ _ _ _ _ Tc Hf) as Ha.
  split.
  - intros userId H. apply POST_root_created in H.
    destruct H as [token [notes [_ [_ [_ [_ [_ [Hcat [Hass [[At [Am An]] Hn]]]]]]]]]].
    rewrite Hc in Hcat, Hass, Am, Hn. rewrite Ha in Hass, Am, Hn.
    cbn [fst snd] in Hass, Am, Hn.
    rewrite map_map in Am. rewrite (orNull_truthy _ Tu) in Hass.
    rewrite (orNull_truthy _ Tc) in Hcat.
    split; [exact Hass|]. split; [exact Hcat|]. split; [exact At|].
    split; [exact Am|].
    intros Acc. rewrite An, (Hn Acc), map_map. reflexivity.
  - intros tok msg H. apply POST_public_created in H.
    destruct H as [name [email [_ [_ [_ [_ [_ [_ [_ [_ [_ [Hass [At [Am An]]]]]]]]]]]]]].
    rewrite Hc in Hass, Am. rewrite Ha in Hass, Am.
    cbn [fst snd] in Hass, Am.
    rewrite map_map in Am. rewrite (orNull_truthy _ Tu) in Hass.
    rewrite app_nil_r in An. auto.
Qed.

(** The stored tracking tokens are pairwise different (the column is
    unique). *)
Definition uniqueTokens (d : Store.DB) : Prop :=
  forall t1 t2 p,
    In t1 (Store.tickets d) -> In t2 (Store.tickets d) ->
    Store.t_publicToken t1 = Some p -> Store.t_publicToken t2 = Some p ->
    t1 = t2.

(** X26. A ticket created by the public submission endpoint carries
    the submitter's e-mail and name and a tracking token, none of them
    null, and no user; a ticket created by the authenticated endpoint
    has neither submitter e-mail nor submitter name, whatever the body
    says, the user of the request as its user, and a tracking token
    too. *)
Theorem submitter_fields_and_token_by_creation_path
    (rt : Effects.Runtime) (body : Tickets.Body) (w w' : Effects.World)
    (t : Store.Ticket) :
  Effects.zodEmail rt "" = false ->
  (forall organizationId tok msg,
     Tickets.POST_public_handler rt organizationId body w
     = (Effects.Returned (Http.json 201 (Http.SubmittedJson t tok msg)), w') ->
     Store.t_submitterEmail t = Tickets.b_submitterEmail body
     /\ Store.t_submitterEmail t <> None
     /\ Store.t_submitterName t = Tickets.b_submitterName body
     /\ Store.t_submitterName t <> None
     /\ Store.t_publicToken t = Some tok
     /\ Store.t_userId t = None
     /\ In t (Store.tickets (Effects.db w')))
  /\ (forall userId organizationId,
        Tickets.POST_root rt userId organizationId body w
        = (Effects.Returned (Http.json 201 (Http.TicketJson t)), w') ->
        Store.t_submitterEmail t = None
        /\ Store.t_submitterName t = None
        /\ Store.t_userId t = Some userId
        /\ (exists token, Store.t_publicToken t = Some token)
        /\ In t (Store.tickets (Effects.db w'))).
Proof.
  intros Hz. split.
  - intros organizationId tok msg H. apply POST_public_created in H.
    destruct H as [name [email [Hu [_ [Htok [Hn [Tn [Htn [He [Ze [Hte [_ [At _]]]]]]]]]]]]].
    assert (Te : JS.truthyS email = true).
    { destruct email; [congruence | reflexivity]. }
    rewrite (orNull_truthy _ Te) in Hte.
    rewrite Hte, Htn, Hn, He.
    repeat split; try discriminate; try assumption.
    rewrite At. apply in_or_app. right. left. reflexivity.
  - intros userId organizationId H. apply POST_root_created in H.
    destruct H as [token [notes [Hu [_ [Ht [Hn [He [_ [_ [[At _] _]]]]]]]]]].
    split; [assumption|]. split; [assumption|]. split; [assumption|].
    split; [exists token; exact Ht|].
    rewrite At. apply in_or_app. right. left. reflexivity.
Qed.

(** The authenticated endpoint, too, stores a token with every ticket
    it creates. *)
Lemma POST_root_issues_token rt userId organizationId body w t w' :
  Tickets.POST_root rt userId organizationId body w
  = (Effects.Returned (Http.json 201 (Http.TicketJson t)), w') ->
  exists token, Store.t_publicToken t = Some token.
Proof.
  intros H. apply POST_root_created in H.
  destruct H as [token [_ [_ [_ [Ht _]]]]]. eauto.
Qed.

(** ** The properties on the example deployment *)

Example identify_main_host :
  Organization.identifyOrganization Examples.db0 Examples.envMain Examples.reqMainHost
  = Http.Next (Http.setOrganization Examples.reqMainHost Examples.orgA).
Proof. reflexivity. Qed.

Example identify_subdomain_when_not_main_host :
  Organization.identifyOrganization Examples.db0 Examples.envNone Examples.reqMainHost
  = Http.Next (Http.setOrganization Examples.reqMainHost Examples.orgB).
Proof. reflexivity. Qed.

Example created_auth_run :
  Tickets.POST_root Examples.rtHalf "u1" "org-a" Examples.body0 Examples.w0
  = (Effects.Returned (Http.json 201 (Http.TicketJson Examples.createdAuth)),
     Examples.wAuth).
Proof. vm_compute. reflexivity. Qed.

Example created_public_run :
  Tickets.POST_public_handler Examples.rtHalf (Some "org-a") Examples.body0 Examples.w0
  = (Effects.Returned
       (Http.json 201
          (Http.SubmittedJson Examples.createdPublic "SSSSSSSS"
             "Ticket submitted successfully. Use the publicToken to track your ticket.")),
     Examples.wPublic).
Proof. vm_compute. reflexivity. Qed.

Example token_collision_persists :
  Tickets.ensureUniqueToken Examples.rtZero Examples.w0
  = (Effects.Returned
       {| Tickets.publicToken := "AAAAAAAA";
          Tickets.tokenExists := Some Examples.ticketB;
          Tickets.attempts := 10 |},
     {| Effects.db := Examples.db0; Effects.console := [];
        Effects.outbox := []; Effects.draws := 88 |}).
Proof. vm_compute. reflexivity. Qed.

Example create_with_store_down :
  fst (Tickets.POST_root Examples.rtDown "u1" "org-a" Examples.body0 Examples.w0)
  = Effects.Returned (Http.json 201 (Http.TicketJson Examples.createdAuth)).
Proof. vm_compute. reflexivity. Qed.

Lemma no_membership_admin_x : ~ hasMembership Examples.db0 "admin-x" "org-a".
Proof.
  intros [m [Hin [Hu _]]]. simpl in Hin.
  destruct Hin as [<-|[]]. discriminate Hu.
Qed.

Lemma membership_u1 : hasMembership Examples.db0 "u1" "org-a".
Proof.
  exists Examples.member1. split; [left; reflexivity|]. split; reflexivity.
Qed.

Lemma main_app_host_skips_subdomain_witness :
  Http.host Examples.reqMainHost = Some "ticketing.beyondcompany.sa"
  /\ Http.MAIN_APP_HOST Examples.envMain = Some "ticketing.beyondcompany.sa"
  /\ Organization.subdomainSignal Examples.envMain Examples.reqMainHost = None
  /\ Organization.organizationSlugOf Examples.envMain Examples.reqMainHost
     = Some "ACME-Corp".
Proof.
  split; [reflexivity|]. split; [reflexivity|].
  destruct (main_app_host_skips_subdomain Examples.db0 Examples.envMain
              Examples.reqMainHost "ticketing.beyondcompany.sa" eq_refl eq_refl)
    as [Hs [Ho _]].
  split; [exact Hs|]. rewrite Ho. reflexivity.
Defined.

Lemma verifyOrganizationAccess_checks_presence_only_witness :
  Http.userId Examples.reqPlatformAdmin = Some "admin-x"
  /\ JS.truthyS "admin-x" = true
  /\ Http.organizationId Examples.reqPlatformAdmin = Some "org-a"
  /\ JS.truthyS "org-a" = true
  /\ Http.userRole Examples.reqPlatformAdmin = Some Role.ADMIN
  /\ Organization.verifyOrganizationAccess Examples.db0 Examples.reqPlatformAdmin
     = Http.Respond (Http.json 403
         (Http.Message "Access denied: User does not belong to this organization")).
Proof.
  repeat (split; [reflexivity|]).
  exact (proj1 (verifyOrganizationAccess_checks_presence_only Examples.db0
                  Examples.reqPlatformAdmin "admin-x" "org-a"
                  eq_refl eq_refl eq_refl eq_refl)
               no_membership_admin_x).
Defined.

(** C2 as the specification states it fails: a platform ADMIN with no
    Membership row on the tenant is answered 403 by [requireOrgAdmin]. *)
Lemma requireOrgAdmin_denies_platform_admin_without_membership :
  Http.userRole Examples.reqPlatformAdmin = Some Role.ADMIN
  /\ Http.userId Examples.reqPlatformAdmin = Some "admin-x"
  /\ Http.organizationId Examples.reqPlatformAdmin = Some "org-a"
  /\ ~ hasMembership Examples.db0 "admin-x" "org-a"
  /\ Organization.requireOrgAdmin Examples.db0 Examples.reqPlatformAdmin
     = Http.Respond (Http.json 403 (Http.Message "Organization admin access required"))
  /\ forall req', Organization.requireOrgAdmin Examples.db0 Examples.reqPlatformAdmin
                  <> Http.Next req'.
Proof.
  repeat (split; [reflexivity|]).
  split; [exact no_membership_admin_x|].
  split; [reflexivity | discriminate].
Qed.

Lemma requireOrgAdmin_platform_admin_witness :
  Http.userRole Examples.reqAdminMember = Some Role.ADMIN
  /\ Http.userId Examples.reqAdminMember = Some "u1"
  /\ JS.truthyS "u1" = true
  /\ Http.organizationId Examples.reqAdminMember = Some "org-a"
  /\ JS.truthyS "org-a" = true
  /\ Store.uo_role Examples.member1 = OrgRole.MEMBER
  /\ Organization.requireOrgAdmin Examples.db0 Examples.reqAdminMember
     = Http.Next Examples.reqAdminMember.
Proof.
  repeat (split; [reflexivity|]).
  exact (proj1 (requireOrgAdmin_platform_admin Examples.db0 Examples.reqAdminMember
                  "u1" "org-a" eq_refl eq_refl eq_refl eq_refl eq_refl)
               membership_u1).
Defined.


Lemma delete_status_conflict_witness :
  Http.organizationId Examples.reqOrgB = Some "org-b"
  /\ In Examples.statusB (Store.ticketStatuses Examples.db0)
  /\ Store.ts_id Examples.statusB = "st-b"
  /\ Store.ts_organizationId Examples.statusB = "org-b"
  /\ Store.t_statusId Examples.ticketB = Some "st-b"
  /\ Statuses.DELETE_id_handler Examples.db0 Examples.reqOrgB "st-b"
     = (Http.json 400 (Http.Message
          "Cannot delete status: some tickets use it. Reassign those tickets to another status first."),
        Examples.db0).
Proof.
  split; [reflexivity|]. split; [right; left; reflexivity|].
  repeat (split; [reflexivity|]).
  refine (proj1 (delete_status_conflict_when_referenced Examples.db0 Examples.reqOrgB
                   "st-b" "org-b" Examples.statusB eq_refl _ eq_refl eq_refl) _).
  - right. left. reflexivity.
  - exists Examples.ticketB. split; [left; reflexivity|]. split; reflexivity.
Defined.

Lemma rtZero_unit (n : nat) :
  (0 <= Effects.random Examples.rtZero n)%Q /\ (Effects.random Examples.rtZero n < 1)%Q.
Proof. split; [apply Qle_refl | reflexivity]. Qed.

Lemma public_token_generation_witness :
  (forall n, (0 <= Effects.random Examples.rtZero n)%Q
             /\ (Effects.random Examples.rtZero n < 1)%Q)
  /\ String.length Tickets.chars = 32
  /\ NoDup (list_ascii_of_string Tickets.chars)
  /\ exists s w',
       Tickets.ensureUniqueToken Examples.rtZero Examples.w0 = (Effects.Returned s, w')
       /\ String.length (Tickets.publicToken s) = 8
       /\ overAlphabet (Tickets.publicToken s)
       /\ Tickets.attempts s <= 10
       /\ Effects.draws w' = Effects.draws Examples.w0 + 8 * (1 + Tickets.attempts s)
       /\ Effects.db w' = Effects.db Examples.w0
       /\ Tickets.tokenExists s =
          Store.ticket_findUnique_publicToken (Effects.db Examples.w0)
            (Tickets.publicToken s)
       /\ (Tickets.tokenExists s <> None -> Tickets.attempts s = 10).
Proof.
  split; [exact rtZero_unit|].
  exact (public_token_generation Examples.rtZero Examples.w0 rtZero_unit).
Defined.

Lemma rtHalf_accepts : storeAccepts Examples.rtHalf.
Proof. intros d wr. reflexivity. Qed.

Lemma auto_assignment_witness :
  Tickets.b_categoryId Examples.body0 = Some "cat-a"
  /\ JS.truthyS "cat-a" = true
  /\ Store.userCategoryAssignment_findMany (Effects.db Examples.w0) "cat-a"
       (Some "org-a") = [Examples.assign1; Examples.assign2]
  /\ JS.truthyS (Store.uca_userId Examples.assign1) = true
  /\ (Store.t_assignedTo Examples.createdAuth = Some "u1"
      /\ assignmentRecipients (Effects.outbox Examples.wAuth)
         = ["u1@acme.test"; "u2@acme.test"]
      /\ assignedNotified (Store.notifications (Effects.db Examples.wAuth))
         = ["u1"; "u2"])
  /\ (Store.t_assignedTo Examples.createdPublic = Some "u1"
      /\ assignmentRecipients (Effects.outbox Examples.wPublic)
         = ["u1@acme.test"; "u2@acme.test"]
      /\ assignedNotified (Store.notifications (Effects.db Examples.wPublic)) = []).
Proof.
  repeat (split; [reflexivity|]).
  split.
  - destruct (proj1 (auto_assignment_first_user_and_broadcast Examples.rtHalf
                       Examples.body0 "cat-a" Examples.assign1 [Examples.assign2]
                       "org-a" Examples.w0 Examples.wAuth Examples.createdAuth
                       eq_refl eq_refl eq_refl eq_refl)
                    "u1" created_auth_run) as [Ha [_ [_ [Hm Hn]]]].
    split; [exact Ha|]. split; [exact Hm | exact (Hn rtHalf_accepts)].
  - destruct (proj2 (auto_assignment_first_user_and_broadcast Examples.rtHalf
                       Examples.body0 "cat-a" Examples.assign1 [Examples.assign2]
                       "org-a" Examples.w0 Examples.wPublic Examples.createdPublic
                       eq_refl eq_refl eq_refl eq_refl)
                    _ _ created_public_run) as [Ha [_ [Hm Hn]]].
    split; [exact Ha|]. split; [exact Hm | exact Hn].
Defined.

Lemma submitter_fields_witness :
  Effects.zodEmail Examples.rtHalf "" = false
  /\ (Store.t_submitterEmail Examples.createdPublic = Some "sam@x.com"
      /\ Store.t_submitterName Examples.createdPublic = Some "Sam"
      /\ Store.t_publicToken Examples.createdPublic = Some "SSSSSSSS")
  /\ (Store.t_submitterEmail Examples.createdAuth = None
      /\ Store.t_submitterName Examples.createdAuth = None).
Proof.
  split; [reflexivity|]. split.
  - destruct (proj1 (submitter_fields_and_token_by_creation_path Examples.rtHalf
                       Examples.body0 Examples.w0 Examples.wPublic
                       Examples.createdPublic eq_refl)
                    _ _ _ created_public_run) as [He [_ [Hn [_ [Ht _]]]]].
    split; [exact He|]. split; [exact Hn | exact Ht].
  - destruct (proj2 (submitter_fields_and_token_by_creation_path
                       Examples.rtHalf Examples.body0 Examples.w0
                       Examples.wAuth Examples.createdAuth eq_refl)
                    _ _ created_auth_run) as [He [Hn _]].
    split; [exact He | exact Hn].
Defined.

(** The route as a whole: [identifyOrganization] finds the tenant named
    in the header, the handler creates the ticket in it. *)
Example public_submission_by_header :
  Tickets.POST_public Examples.rtHalf Examples.envMain Examples.reqHeaderA
    Examples.body0 Examples.w0
  = (Effects.Returned
       (Http.json 201
          (Http.SubmittedJson Examples.createdPublic "SSSSSSSS"
             "Ticket submitted successfully. Use the publicToken to track your ticket.")),
     Examples.wPublic).
Proof. vm_compute. reflexivity. Qed.

(** When no signal names a tenant, [identifyOrganization] hands the
    request on with [organizationId] undefined, and the status listing
    runs with that filter left out: it holds the statuses of both
    organizations. *)
Example public_reads_without_tenant :
  Organization.identifyOrganization Examples.db0 Examples.envMain Examples.reqNoTenant
  = Http.Next Examples.reqNoTenant
  /\ exists l,
       Statuses.GET_root Examples.db0 Examples.envMain Examples.reqNoTenant
       = Http.json 200 (Http.StatusesJson l)
       /\ In Examples.statusA l /\ In Examples.statusB l.
Proof.
  split; [reflexivity|]. eexists. split; [reflexivity|].
  split; [left; reflexivity | right; left; reflexivity].
Qed.

(** Whatever the guard decides, [DELETE /:id] leaves the store as it
    was when a ticket references the status. *)
Lemma DELETE_id_keeps_referenced (d : Store.DB) (req : Http.Request) (id : Store.Id) :
  referenced d id -> snd (Statuses.DELETE_id d req id) = d.
Proof.
  intros R. unfold Statuses.DELETE_id.
  destruct (Organization.requireOrgAdmin d req) as [req'|r]; [|reflexivity].
  unfold Statuses.DELETE_id_handler.
  destruct (Store.ticketStatus_findFirst d id (Http.organizationId req'))
    as [status|] eqn:F; [|reflexivity].
  assert (Hid : Store.ts_id status = id).
  { unfold Store.ticketStatus_findFirst in F. apply find_some in F.
    destruct F as [_ Hm]. apply andb_true_iff in Hm.
    apply String.eqb_eq, Hm. }
  rewrite Hid. apply countTickets_positive in R. rewrite R. reflexivity.
Qed.

(* ===================================================================== *)
(** * Further properties of the middleware *)
(* ===================================================================== *)

Lemma normalizeSlug_fixed (c : string) :
  JS.normalizeSlug (JS.normalizeSlug c) = JS.normalizeSlug c.
Proof.
  rewrite (normalizeSlug_normalizeL (JS.normalizeSlug c)).
  rewrite (normalizeSlug_normalizeL c).
  rewrite list_ascii_of_string_of_list_ascii.
  rewrite normalizeL_fix; [reflexivity | apply normalizeL_slug | apply normalizeL_ends].
Qed.

Lemma subdomainSignal_truthy (env : Http.Env) (req : Http.Request) (s : string) :
  Organization.subdomainSignal env req = Some s -> JS.truthyS s = true.
Proof.
  unfold Organization.subdomainSignal.
  destruct (negb (Organization.isMainAppHost env req)); simpl; [|discriminate].
  destruct (JS.truthyS (Organization.subdomainOf req)) eqn:T; simpl; [|discriminate].
  match goal with |- (if ?c then _ else _) = _ -> _ => destruct c end;
    [|discriminate].
  intros H. inversion H; subst. exact T.
Qed.

(** X1. The four tenant signals are tried in the order Host subdomain, path
    parameter, query parameter [org], header X-Organization-Slug, and
    the first non-empty one is the candidate: a later signal is never
    looked at once an earlier one is present. *)
Theorem organizationSlug_first_signal_wins (env : Http.Env) (req : Http.Request) :
  Organization.organizationSlugOf env req =
  firstTruthy [Organization.subdomainSignal env req; Http.params_orgSlug req;
               Http.query_org req; Http.header_x_organization_slug req].
Proof.
  destruct (Organization.subdomainSignal env req) as [s|] eqn:Es.
  - pose proof (subdomainSignal_truthy env req s Es) as T.
    unfold Organization.organizationSlugOf, Organization.orTry. rewrite Es.
    simpl. rewrite T. simpl. rewrite T. simpl. rewrite T. reflexivity.
  - rewrite (organizationSlugOf_without_subdomain env req Es). reflexivity.
Qed.

(** The stored organization answers to the normalised candidate: its
    slug, or its non-empty subdomain, normalises to it. *)
Definition answersTo (n : string) (o : Store.Organization) : Prop :=
  Organization.fallbackMatch n o = true.

Lemma exact_match_answers (c : string) (o : Store.Organization) :
  JS.truthyS (JS.normalizeSlug c) = true ->
  (String.eqb (Store.org_slug o) (JS.normalizeSlug c)
   || Store.optEqb (Store.org_subdomain o) (JS.normalizeSlug c)) = true ->
  answersTo (JS.normalizeSlug c) o.
Proof.
  intros T H. unfold answersTo, Organization.fallbackMatch.
  apply orb_true_iff in H. destruct H as [H|H].
  - apply String.eqb_eq in H. rewrite H, normalizeSlug_fixed, String.eqb_refl.
    reflexivity.
  - apply optEqb_true in H. rewrite H, T, normalizeSlug_fixed, String.eqb_refl.
    apply orb_true_r.
Qed.

(** X2. Resolution of a non-empty candidate [c]. When [c] normalises to the
    empty string the request goes on without a tenant (no 404).
    Otherwise the request is answered 404 exactly when no stored
    organization answers to the normalised candidate, and else it goes
    on with an organization that does. *)
Theorem resolveSlug_by_normalised_slug
    (d : Store.DB) (req : Http.Request) (c : string) :
  JS.truthyS c = true ->
  (JS.normalizeSlug c = "" ->
   Organization.resolveSlug d req (Some c) = Http.Next req)
  /\ (JS.normalizeSlug c <> "" ->
      (forall o, In o (Store.organizations d) -> ~ answersTo (JS.normalizeSlug c) o) ->
      Organization.resolveSlug d req (Some c) =
      Http.Respond (Http.json 404 (Http.Message "Organization not found")))
  /\ (JS.normalizeSlug c <> "" ->
      (exists o, In o (Store.organizations d) /\ answersTo (JS.normalizeSlug c) o) ->
      exists o, In o (Store.organizations d)
                /\ answersTo (JS.normalizeSlug c) o
                /\ Organization.resolveSlug d req (Some c) =
                   Http.Next (Http.setOrganization req o)).
Proof.
  intros Tc. unfold Organization.resolveSlug. rewrite Tc. simpl.
  split; [|split].
  - intros ->. reflexivity.
  - intros Hn Hnone.
    assert (Tn : JS.truthyS (JS.normalizeSlug c) = true).
    { destruct (JS.normalizeSlug c); [congruence | reflexivity]. }
    rewrite Tn. simpl. unfold Organization.lookupOrganization,
      Store.organization_findFirst_slugOrSubdomain, Store.organization_findMany.
    destruct (find _ (Store.organizations d)) as [o|] eqn:F.
    + apply find_some in F. destruct F as [Hin Hm].
      exfalso. apply (Hnone o Hin). apply exact_match_answers; assumption.
    + destruct (find (Organization.fallbackMatch _) _) as [o|] eqn:F2;
        [|reflexivity].
      apply find_some in F2. destruct F2 as [Hin Hm].
      exfalso. exact (Hnone o Hin Hm).
  - intros Hn [o0 [Hin0 Ha0]].
    assert (Tn : JS.truthyS (JS.normalizeSlug c) = true).
    { destruct (JS.normalizeSlug c); [congruence | reflexivity]. }
    rewrite Tn. simpl. unfold Organization.lookupOrganization,
      Store.organization_findFirst_slugOrSubdomain, Store.organization_findMany.
    destruct (find _ (Store.organizations d)) as [o|] eqn:F.
    + apply find_some in F. destruct F as [Hin Hm].
      exists o. split; [exact Hin|]. split; [|reflexivity].
      apply exact_match_answers; assumption.
    + destruct (find (Organization.fallbackMatch _) _) as [o|] eqn:F2.
      * apply find_some in F2. destruct F2 as [Hin Hm].
        exists o. auto.
      * exfalso. pose proof (find_none _ _ F2 o0 Hin0) as Hf.
        unfold answersTo in Ha0. congruence.
Qed.

Lemma findUnique_hasMembership (d : Store.DB) (uid oid : Store.Id)
    (m : Store.UserOrganization) :
  Store.userOrganization_findUnique d uid oid = Some m ->
  In m (Store.userOrganizations d)
  /\ Store.uo_userId m = uid /\ Store.uo_organizationId m = oid.
Proof.
  unfold Store.userOrganization_findUnique. intros F.
  apply find_some in F. destruct F as [Hin Hm].
  apply andb_true_iff in Hm. destruct Hm as [Hu Ho].
  apply String.eqb_eq in Hu. apply String.eqb_eq in Ho. auto.
Qed.

Lemma OrgRole_eqb_true (a b : OrgRole.t) : OrgRole.eqb a b = true <-> a = b.
Proof. destruct a, b; simpl; split; congruence. Qed.

Lemma userRoleIsNotAdmin_false (req : Http.Request) :
  Organization.userRoleIsNotAdmin req = false <-> Http.userRole req = Some Role.ADMIN.
Proof.
  unfold Organization.userRoleIsNotAdmin.
  destruct (Http.userRole req) as [[| |]|]; simpl; split; congruence.
Qed.

Lemma requireOrgAdmin_next_inv (d : Store.DB) (req req' : Http.Request) :
  Organization.requireOrgAdmin d req = Http.Next req' ->
  req' = req
  /\ exists uid oid m,
       Http.userId req = Some uid /\ JS.truthyS uid = true
       /\ Http.organizationId req = Some oid /\ JS.truthyS oid = true
       /\ Store.userOrganization_findUnique d uid oid = Some m
       /\ (Store.uo_role m = OrgRole.ADMIN \/ Http.userRole req = Some Role.ADMIN).
Proof.
  unfold Organization.requireOrgAdmin.
  destruct (Http.organizationId req) as [oid|]; [|discriminate].
  destruct (Http.userId req) as [uid|]; [|discriminate].
  destruct (JS.truthyS oid) eqn:To; [|discriminate].
  destruct (JS.truthyS uid) eqn:Tu; [|discriminate]. simpl.
  destruct (Store.userOrganization_findUnique d uid oid) as [m|] eqn:F;
    [|discriminate].
  destruct (OrgRole.eqb (Store.uo_role m) OrgRole.ADMIN) eqn:Er; simpl.
  - intros H. inversion H; subst req'. split; [reflexivity|].
    exists uid, oid, m. repeat (split; [reflexivity || assumption|]).
    left. apply OrgRole_eqb_true, Er.
  - destruct (Organization.userRoleIsNotAdmin req) eqn:Eg; [discriminate|].
    intros H. inversion H; subst req'. split; [reflexivity|].
    exists uid, oid, m. repeat (split; [reflexivity || assumption|]).
    right. apply userRoleIsNotAdmin_false, Eg.
Qed.

Lemma verifyOrganizationAccess_next_inv (d : Store.DB) (req req' : Http.Request) :
  Organization.verifyOrganizationAccess d req = Http.Next req' ->
  req' = req
  /\ exists uid oid m,
       Http.userId req = Some uid /\ JS.truthyS uid = true
       /\ Http.organizationId req = Some oid /\ JS.truthyS oid = true
       /\ Store.userOrganization_findUnique d uid oid = Some m.
Proof.
  unfold Organization.verifyOrganizationAccess.
  destruct (Http.organizationId req) as [oid|]; [|discriminate].
  destruct (Http.userId req) as [uid|]; [|discriminate].
  destruct (JS.truthyS oid) eqn:To; [|discriminate].
  destruct (JS.truthyS uid) eqn:Tu; [|discriminate]. simpl.
  destruct (Store.userOrganization_findUnique d uid oid) as [m|] eqn:F;
    [|discriminate].
  intros H. inversion H; subst req'. split; [reflexivity|].
  exists uid, oid, m. repeat (split; [reflexivity || assumption|]). assumption.
Qed.

(** X3. [requireOrgAdmin] lets a request through exactly when it carries an
    actor and a tenant, the actor has a Membership row on the tenant,
    and that row's role is ADMIN or the actor's global role is ADMIN.
    It hands on the request unchanged, and whatever it lets through
    [verifyOrganizationAccess] lets through too. Without an actor or a
    tenant on the request both guards answer 401. *)
Theorem requireOrgAdmin_exactly (d : Store.DB) (req : Http.Request) :
  (forall req',
     Organization.requireOrgAdmin d req = Http.Next req' <->
     req' = req
     /\ exists uid oid m,
          Http.userId req = Some uid /\ JS.truthyS uid = true
          /\ Http.organizationId req = Some oid /\ JS.truthyS oid = true
          /\ Store.userOrganization_findUnique d uid oid = Some m
          /\ (Store.uo_role m = OrgRole.ADMIN
              \/ Http.userRole req = Some Role.ADMIN))
  /\ (forall req',
        Organization.requireOrgAdmin d req = Http.Next req' ->
        Organization.verifyOrganizationAccess d req = Http.Next req)
  /\ (JS.truthy (Http.userId req) = false
      \/ JS.truthy (Http.organizationId req) = false ->
      Organization.requireOrgAdmin d req =
      Http.Respond (Http.json 401 (Http.Message "Authentication required"))
      /\ Organization.verifyOrganizationAccess d req =
         Http.Respond (Http.json 401 (Http.Message "Authentication required"))).
Proof.
  split; [|split].
  - intros req'. split; [apply requireOrgAdmin_next_inv|].
    intros [-> [uid [oid [m [Hu [Tu [Ho [To [F Hr]]]]]]]]].
    unfold Organization.requireOrgAdmin. rewrite Hu, Ho, Tu, To, F. simpl.
    destruct Hr as [Hr|Hr].
    + rewrite Hr. reflexivity.
    + apply userRoleIsNotAdmin_false in Hr. rewrite Hr, andb_false_r. reflexivity.
  - intros req' H. apply requireOrgAdmin_next_inv in H.
    destruct H as [_ [uid [oid [m [Hu [Tu [Ho [To [F _]]]]]]]]].
    unfold Organization.verifyOrganizationAccess. rewrite Hu, Ho, Tu, To, F.
    reflexivity.
  - unfold Organization.requireOrgAdmin, Organization.verifyOrganizationAccess.
    destruct (Http.organizationId req) as [oid|];
      destruct (Http.userId req) as [uid|]; simpl; auto.
    destruct (JS.truthyS oid); destruct (JS.truthyS uid); simpl; auto.
    intros [H|H]; discriminate.
Qed.

Lemma findFirst_byUser_some (d : Store.DB) (uid : Store.Id) (m : Store.UserOrganization) :
  OrganizationFallback.userOrganization_findFirst_byUser d uid = Some m ->
  In m (Store.userOrganizations d) /\ Store.uo_userId m = uid.
Proof.
  unfold OrganizationFallback.userOrganization_findFirst_byUser. intros F.
  apply find_some in F. destruct F as [Hin Hm].
  apply String.eqb_eq in Hm. auto.
Qed.

Lemma organization_findUnique_some (d : Store.DB) (id : Store.Id) (o : Store.Organization) :
  OrganizationFallback.organization_findUnique d id = Some o ->
  In o (Store.organizations d) /\ Store.org_id o = id.
Proof.
  unfold OrganizationFallback.organization_findUnique. intros F.
  apply find_some in F. destruct F as [Hin Hm].
  apply String.eqb_eq in Hm. auto.
Qed.

Lemma hasMembership_findUnique (d : Store.DB) (uid oid : Store.Id) :
  hasMembership d uid oid <->
  exists m, Store.userOrganization_findUnique d uid oid = Some m.
Proof.
  split; [apply findUnique_some|].
  intros [m F]. apply findUnique_hasMembership in F. exists m. exact F.
Qed.

Lemma verifyOrganizationAccess_member
    (d : Store.DB) (req : Http.Request) (uid oid : Store.Id) :
  Http.userId req = Some uid -> JS.truthyS uid = true ->
  Http.organizationId req = Some oid -> JS.truthyS oid = true ->
  hasMembership d uid oid ->
  Organization.verifyOrganizationAccess d req = Http.Next req.
Proof.
  intros Hu Tu Ho To Hm. unfold Organization.verifyOrganizationAccess.
  rewrite Hu, Ho, Tu, To. simpl.
  destruct (findUnique_some d uid oid Hm) as [m ->]. reflexivity.
Qed.

(** X4. [getOrganizationFromUser] leaves a request that already has a tenant
    as it is. On a request without one, when it hands the request on,
    the tenant it has put there is the organization of the actor's
    first Membership row, and nothing else of the request has changed;
    [verifyOrganizationAccess] then lets that request through. *)
Theorem getOrganizationFromUser_adopts_first_membership
    (d : Store.DB) (req : Http.Request) :
  (JS.truthy (Http.organizationId req) = true ->
   OrganizationFallback.getOrganizationFromUser d req = Http.Next req)
  /\ (forall req',
        JS.truthy (Http.organizationId req) = false ->
        OrganizationFallback.getOrganizationFromUser d req = Http.Next req' ->
        exists uid m o,
          Http.userId req = Some uid
          /\ OrganizationFallback.userOrganization_findFirst_byUser d uid = Some m
          /\ In o (Store.organizations d)
          /\ Store.org_id o = Store.uo_organizationId m
          /\ req' = OrganizationFallback.adoptOrganization req o
          /\ (JS.truthyS (Store.org_id o) = true ->
              Organization.verifyOrganizationAccess d req' = Http.Next req')).
Proof.
  unfold OrganizationFallback.getOrganizationFromUser. split.
  - intros ->. reflexivity.
  - intros req' ->.
    destruct (Http.userId req) as [uid|] eqn:Eu; [|discriminate].
    destruct (JS.truthyS uid) eqn:Tu; simpl; [|discriminate].
    destruct (OrganizationFallback.userOrganization_findFirst_byUser d uid)
      as [m|] eqn:F; [|discriminate].
    destruct (OrganizationFallback.organization_findUnique d
                (Store.uo_organizationId m)) as [o|] eqn:Fo; [|discriminate].
    intros H. inversion H; subst req'. clear H.
    apply findFirst_byUser_some in F as Fm. destruct Fm as [Hin Hu].
    apply organization_findUnique_some in Fo as Fo'. destruct Fo' as [Hino Hid].
    exists uid, m, o. repeat (split; [reflexivity || assumption|]).
    intros To.
    apply (verifyOrganizationAccess_member d
             (OrganizationFallback.adoptOrganization req o) uid
             (Store.org_id o) Eu Tu eq_refl To).
    exists m. rewrite Hid. auto.
Qed.

(** Every membership row names a stored organization. *)
Definition membershipsResolve (d : Store.DB) : Prop :=
  forall m, In m (Store.userOrganizations d) ->
            exists o, In o (Store.organizations d)
                      /\ Store.org_id o = Store.uo_organizationId m.

Lemma organization_findUnique_total (d : Store.DB) (m : Store.UserOrganization) :
  membershipsResolve d -> In m (Store.userOrganizations d) ->
  exists o, OrganizationFallback.organization_findUnique d (Store.uo_organizationId m)
            = Some o.
Proof.
  intros R Hin. destruct (R m Hin) as [o [Ho Hid]].
  unfold OrganizationFallback.organization_findUnique.
  destruct (find _ _) as [o'|] eqn:F; [eauto|].
  pose proof (find_none _ _ F o Ho) as Hf. simpl in Hf.
  rewrite Hid, String.eqb_refl in Hf. discriminate.
Qed.

(** X5. The optional fallback never turns a request away: with every
    membership row naming a stored organization it always hands the
    request on, and in any store its only answer is the 500 of a
    dangling row. Where the mandatory fallback hands a request on, the
    optional one hands on a request with the same tenant and actor. *)
Theorem optional_fallback_never_rejects (d : Store.DB) (req : Http.Request) :
  (membershipsResolve d ->
   exists req', OrganizationFallback.getOrganizationFromUserOptionalAuth d req
                = Http.Next req')
  /\ (forall r,
        OrganizationFallback.getOrganizationFromUserOptionalAuth d req
        = Http.Respond r -> Http.status r = 500)
  /\ (forall req',
        OrganizationFallback.getOrganizationFromUser d req = Http.Next req' ->
        exists req'',
          OrganizationFallback.getOrganizationFromUserOptionalAuth d req
          = Http.Next req''
          /\ Http.organizationId req'' = Http.organizationId req'
          /\ Http.userId req'' = Http.userId req'
          /\ Http.userRole req'' = Http.userRole req').
Proof.
  unfold OrganizationFallback.getOrganizationFromUserOptionalAuth,
    OrganizationFallback.getOrganizationFromUser.
  destruct (JS.truthy (Http.organizationId req)).
  { split; [eauto|]. split; [discriminate|].
    intros req' H. inversion H; subst. eauto. }
  destruct (Http.userId req) as [uid|].
  2:{ split; [eauto|]. split; discriminate. }
  destruct (JS.truthyS uid); simpl.
  2:{ split; [eauto|]. split; discriminate. }
  destruct (OrganizationFallback.userOrganization_findFirst_byUser d uid)
    as [m|] eqn:F.
  2:{ split; [eauto|]. split; discriminate. }
  destruct (OrganizationFallback.organization_findUnique d
              (Store.uo_organizationId m)) as [o|] eqn:Fo.
  - split; [eauto|]. split; [discriminate|].
    intros req' H. inversion H; subst. eexists. split; [reflexivity|].
    simpl. auto.
  - split; [|split].
    + intros R. apply findFirst_byUser_some in F. destruct F as [Hin _].
      destruct (organization_findUnique_total d m R Hin) as [o Ho]. congruence.
    + intros r H. inversion H. reflexivity.
    + discriminate.
Qed.

Lemma splitL_no_sep (sep : ascii) (cur l : list ascii) :
  ~ In sep l -> Auth.splitL sep cur l = [rev cur ++ l].
Proof.
  revert cur. induction l as [|c l IH]; intros cur Hn; simpl.
  - rewrite app_nil_r. reflexivity.
  - destruct (Ascii.eqb c sep) eqn:E.
    + apply Ascii.eqb_eq in E. exfalso. apply Hn. left. exact E.
    + rewrite IH by (intros H; apply Hn; right; exact H).
      simpl. rewrite <- app_assoc. reflexivity.
Qed.

Lemma splitL_first (sep : ascii) (cur a b : list ascii) :
  ~ In sep a ->
  Auth.splitL sep cur (a ++ sep :: b) = (rev cur ++ a) :: Auth.splitL sep [] b.
Proof.
  revert cur. induction a as [|c a IH]; intros cur Hn; simpl.
  - rewrite Ascii.eqb_refl, app_nil_r. reflexivity.
  - destruct (Ascii.eqb c sep) eqn:E.
    + apply Ascii.eqb_eq in E. exfalso. apply Hn. left. exact E.
    + rewrite IH by (intros H; apply Hn; right; exact H).
      simpl. rewrite <- app_assoc. reflexivity.
Qed.

Lemma bearerToken_second_piece (scheme token : string) :
  ~ In " "%char (list_ascii_of_string scheme) ->
  ~ In " "%char (list_ascii_of_string token) ->
  Auth.bearerToken (Some (scheme ++ " " ++ token)%string) = Some token.
Proof.
  intros Hs Ht. unfold Auth.bearerToken, Auth.split.
  rewrite list_of_append. simpl list_ascii_of_string.
  rewrite splitL_first by exact Hs.
  rewrite splitL_no_sep by exact Ht. simpl.
  rewrite string_of_list_ascii_of_string. reflexivity.
Qed.

Lemma authenticate_next_inv (verify : string -> option Auth.TokenPayload)
    (authorization : option string) (req req' : Http.Request) :
  Auth.authenticate verify authorization req = Http.Next req' ->
  exists token decoded,
    Auth.bearerToken authorization = Some token
    /\ verify token = Some decoded
    /\ Http.userId req' = Some (Auth.tp_userId decoded)
    /\ Http.userRole req' = Some (Auth.tp_role decoded).
Proof.
  unfold Auth.authenticate.
  destruct (Auth.bearerToken authorization) as [token|]; [|discriminate].
  destruct (JS.truthyS token); simpl; [|discriminate].
  destruct (verify token) as [decoded|] eqn:V; [|discriminate].
  intros H. inversion H; subst req'. exists token, decoded. auto.
Qed.

(** X6. [optionalAuthenticate] never answers the request itself. Where
    [authenticate] lets a request through, the token is the second
    space-separated piece of the Authorization header, it verifies, the
    request goes on with the user and role of the token, and
    [optionalAuthenticate] hands on the same request. Where
    [authenticate] answers, the answer is a 401 and
    [optionalAuthenticate] hands on the request untouched. The scheme
    word before the token is never looked at. *)
Theorem optionalAuthenticate_agrees_with_authenticate
    (verify : string -> option Auth.TokenPayload)
    (authorization : option string) (req : Http.Request) :
  (exists req', Auth.optionalAuthenticate verify authorization req = Http.Next req')
  /\ (forall req',
        Auth.authenticate verify authorization req = Http.Next req' ->
        Auth.optionalAuthenticate verify authorization req = Http.Next req'
        /\ exists token decoded,
             Auth.bearerToken authorization = Some token
             /\ verify token = Some decoded
             /\ Http.userId req' = Some (Auth.tp_userId decoded)
             /\ Http.userRole req' = Some (Auth.tp_role decoded))
  /\ (forall r,
        Auth.authenticate verify authorization req = Http.Respond r ->
        Http.status r = 401
        /\ Auth.optionalAuthenticate verify authorization req = Http.Next req)
  /\ (forall scheme token,
        ~ In " "%char (list_ascii_of_string scheme) ->
        ~ In " "%char (list_ascii_of_string token) ->
        Auth.bearerToken (Some (scheme ++ " " ++ token)%string) = Some token).
Proof.
  unfold Auth.authenticate, Auth.optionalAuthenticate.
  split; [|split; [|split]].
  - destruct (Auth.bearerToken authorization) as [token|]; [|eauto].
    destruct (JS.truthyS token); simpl; [|eauto].
    destruct (verify token); eauto.
  - intros req'.
    destruct (Auth.bearerToken authorization) as [token|]; [|discriminate].
    destruct (JS.truthyS token); simpl; [|discriminate].
    destruct (verify token) as [decoded|] eqn:V; [|discriminate].
    intros H. inversion H; subst req'. split; [reflexivity|].
    exists token, decoded. auto.
  - intros r.
    destruct (Auth.bearerToken authorization) as [token|].
    + destruct (JS.truthyS token); simpl.
      * destruct (verify token); [discriminate|].
        intros H. inversion H. auto.
      * intros H. inversion H. auto.
    + intros H. inversion H. auto.
  - apply bearerToken_second_piece.
Qed.

Lemma setOrganization_actor (req : Http.Request) (o : Store.Organization) :
  Http.userId (Http.setOrganization req o) = Http.userId req
  /\ Http.userRole (Http.setOrganization req o) = Http.userRole req.
Proof. split; reflexivity. Qed.

Lemma identifyOrganization_actor (d : Store.DB) (env : Http.Env)
    (req req' : Http.Request) :
  Organization.identifyOrganization d env req = Http.Next req' ->
  Http.userId req' = Http.userId req /\ Http.userRole req' = Http.userRole req.
Proof.
  unfold Organization.identifyOrganization, Organization.resolveSlug.
  destruct (Organization.organizationSlugOf env req) as [slug|].
  - destruct (JS.truthyS slug); simpl.
    + destruct (JS.truthyS (JS.normalizeSlug slug)); simpl.
      * destruct (Organization.lookupOrganization d _); [|discriminate].
        intros H. inversion H. split; reflexivity.
      * intros H. inversion H. auto.
    + intros H. inversion H. auto.
  - intros H. inversion H. auto.
Qed.

Lemma getOrganizationFromUser_actor (d : Store.DB) (req req' : Http.Request) :
  OrganizationFallback.getOrganizationFromUser d req = Http.Next req' ->
  Http.userId req' = Http.userId req /\ Http.userRole req' = Http.userRole req.
Proof.
  unfold OrganizationFallback.getOrganizationFromUser.
  destruct (JS.truthy (Http.organizationId req)).
  { intros H. inversion H. auto. }
  destruct (Http.userId req) as [uid|] eqn:Eu; [|discriminate].
  destruct (JS.truthyS uid); simpl; [|discriminate].
  destruct (OrganizationFallback.userOrganization_findFirst_byUser d uid);
    [|discriminate].
  destruct (OrganizationFallback.organization_findUnique d _); [|discriminate].
  intros H. inversion H. simpl. rewrite Eu. split; reflexivity.
Qed.

Lemma andThen_next (o : Http.Outcome) (next : Http.Request -> Http.Outcome)
    (req' : Http.Request) :
  OrganizationFallback.andThen o next = Http.Next req' ->
  exists r, o = Http.Next r /\ next r = Http.Next req'.
Proof. destruct o as [r|r]; simpl; [eauto | discriminate]. Qed.

(** X7. A request that gets through the guards of a member route carries
    the user and role of a verified token, a tenant, and that user has
    a Membership row on that tenant. Through the guards of an org-admin
    route, moreover, the role of that row is ADMIN or the role of the
    token is ADMIN. *)
Theorem guard_chains_establish_membership
    (verify : string -> option Auth.TokenPayload) (d : Store.DB) (env : Http.Env)
    (authorization : option string) (req req' : Http.Request) :
  (OrganizationFallback.memberChain verify d env authorization req = Http.Next req' ->
   exists token decoded oid m,
     Auth.bearerToken authorization = Some token
     /\ verify token = Some decoded
     /\ Http.userId req' = Some (Auth.tp_userId decoded)
     /\ Http.userRole req' = Some (Auth.tp_role decoded)
     /\ Http.organizationId req' = Some oid
     /\ JS.truthyS oid = true
     /\ Store.userOrganization_findUnique d (Auth.tp_userId decoded) oid = Some m)
  /\ (OrganizationFallback.adminChain verify d env authorization req = Http.Next req' ->
      exists token decoded oid m,
        Auth.bearerToken authorization = Some token
        /\ verify token = Some decoded
        /\ Http.userId req' = Some (Auth.tp_userId decoded)
        /\ Http.userRole req' = Some (Auth.tp_role decoded)
        /\ Http.organizationId req' = Some oid
        /\ JS.truthyS oid = true
        /\ Store.userOrganization_findUnique d (Auth.tp_userId decoded) oid = Some m
        /\ (Store.uo_role m = OrgRole.ADMIN \/ Auth.tp_role decoded = Role.ADMIN)).
Proof.
  assert (Pre : forall r3,
    OrganizationFallback.andThen
      (OrganizationFallback.andThen (Auth.authenticate verify authorization req)
         (Organization.identifyOrganization d env))
      (OrganizationFallback.getOrganizationFromUser d) = Http.Next r3 ->
    exists token decoded,
      Auth.bearerToken authorization = Some token
      /\ verify token = Some decoded
      /\ Http.userId r3 = Some (Auth.tp_userId decoded)
      /\ Http.userRole r3 = Some (Auth.tp_role decoded)).
  { intros r3 H.
    apply andThen_next in H. destruct H as [r2 [H H3]].
    apply andThen_next in H. destruct H as [r1 [H1 H2]].
    destruct (authenticate_next_inv verify authorization req r1 H1)
      as [token [decoded [Hb [Hv [Hu Hr]]]]].
    apply identifyOrganization_actor in H2. destruct H2 as [Hu2 Hr2].
    apply getOrganizationFromUser_actor in H3. destruct H3 as [Hu3 Hr3].
    exists token, decoded. repeat split; congruence. }
  split; intros H.
  - unfold OrganizationFallback.memberChain in H.
    apply andThen_next in H. destruct H as [r3 [H H4]].
    destruct (Pre r3 H) as [token [decoded [Hb [Hv [Hu Hr]]]]].
    apply verifyOrganizationAccess_next_inv in H4.
    destruct H4 as [-> [uid [oid [m [Hu' [_ [Ho [To F]]]]]]]].
    exists token, decoded, oid, m.
    assert (uid = Auth.tp_userId decoded) by congruence. subst uid.
    repeat (split; [assumption|]). assumption.
  - unfold OrganizationFallback.adminChain in H.
    apply andThen_next in H. destruct H as [r3 [H H4]].
    destruct (Pre r3 H) as [token [decoded [Hb [Hv [Hu Hr]]]]].
    apply requireOrgAdmin_next_inv in H4.
    destruct H4 as [-> [uid [oid [m [Hu' [_ [Ho [To [F Hrole]]]]]]]]].
    exists token, decoded, oid, m.
    assert (uid = Auth.tp_userId decoded) by congruence. subst uid.
    repeat (split; [assumption|]).
    destruct Hrole as [Hrole|Hrole]; [left; exact Hrole | right; congruence].
Qed.

Lemma find_pointwise {A} (p q : A -> bool) (l : list A) :
  (forall x, p x = q x) -> find p l = find q l.
Proof.
  intros E. induction l as [|x l IH]; simpl; [reflexivity|].
  rewrite E, IH. reflexivity.
Qed.

(** X8. When none of the four signals names a tenant and the request
    carries none, [identifyOrganization] hands the request on as it is,
    and the reads of the status router behind it run without an
    organization filter: the listing holds every stored status, of
    whatever organization, and [GET /:id] answers with the status that
    has the key, of whatever organization. *)
Theorem public_reads_unfiltered_without_tenant
    (d : Store.DB) (env : Http.Env) (req : Http.Request) :
  Organization.organizationSlugOf env req = None ->
  Http.organizationId req = None ->
  Organization.identifyOrganization d env req = Http.Next req
  /\ (exists l,
        Statuses.GET_root d env req = Http.json 200 (Http.StatusesJson l)
        /\ forall s, In s l <-> In s (Store.ticketStatuses d))
  /\ (forall id s,
        find (fun x => String.eqb (Store.ts_id x) id) (Store.ticketStatuses d)
        = Some s ->
        StatusesCrud.GET_id_handler d (Http.organizationId req) id
        = Rest.Row 200 (s, Store.ticketStatus_countTickets d (Store.ts_id s))).
Proof.
  intros Hs Ho.
  assert (Hid : Organization.identifyOrganization d env req = Http.Next req).
  { unfold Organization.identifyOrganization. rewrite Hs. reflexivity. }
  assert (Hl : Statuses.GET_root d env req =
               Http.json 200
                 (Http.StatusesJson (Store.sortByOrder (Store.ticketStatuses d)))).
  { unfold Statuses.GET_root. rewrite Hid. unfold Statuses.GET_root_handler.
    rewrite Ho. unfold Store.ticketStatus_findMany. simpl.
    replace (filter (fun _ => true) (Store.ticketStatuses d))
      with (Store.ticketStatuses d); [reflexivity|].
    induction (Store.ticketStatuses d) as [|x l IH]; simpl; congruence. }
  split; [exact Hid|]. split.
  - eexists. split; [exact Hl|]. intros s. apply In_sortByOrder.
  - intros id s F. unfold StatusesCrud.GET_id_handler. rewrite Ho.
    unfold Store.ticketStatus_findFirst, Store.whereField.
    rewrite (find_pointwise _ (fun x => String.eqb (Store.ts_id x) id))
      by (intros x; apply andb_true_r).
    rewrite F. reflexivity.
Qed.

(* ===================================================================== *)
(** * Which tenant a guarded request acts on *)
(* ===================================================================== *)

Lemma orTry_truthy (a b : option string) :
  (forall s, a = Some s -> JS.truthyS s = true) ->
  forall c, Organization.orTry a b = Some c -> JS.truthyS c = true.
Proof.
  intros Ha c. unfold Organization.orTry.
  destruct (negb (JS.truthy a) && JS.truthy b) eqn:E.
  - intros ->. apply andb_true_iff in E. apply E.
  - apply Ha.
Qed.

Lemma organizationSlugOf_truthy (env : Http.Env) (req : Http.Request) (c : string) :
  Organization.organizationSlugOf env req = Some c -> JS.truthyS c = true.
Proof.
  unfold Organization.organizationSlugOf.
  apply orTry_truthy. apply orTry_truthy. apply orTry_truthy.
  apply subdomainSignal_truthy.
Qed.

Lemma authenticate_next_eq (verify : string -> option Auth.TokenPayload)
    (authorization : option string) (req r1 : Http.Request) :
  Auth.authenticate verify authorization req = Http.Next r1 ->
  exists token decoded,
    Auth.bearerToken authorization = Some token
    /\ verify token = Some decoded
    /\ r1 = Auth.setUser req decoded.
Proof.
  unfold Auth.authenticate.
  destruct (Auth.bearerToken authorization) as [token|]; [|discriminate].
  destruct (JS.truthyS token); simpl; [|discriminate].
  destruct (verify token) as [decoded|] eqn:V; [|discriminate].
  intros H. inversion H. exists token, decoded. auto.
Qed.

(** What [identifyOrganization] does to the tenant of a request. *)
Lemma identifyOrganization_tenant (d : Store.DB) (env : Http.Env)
    (req r : Http.Request) :
  Organization.identifyOrganization d env req = Http.Next r ->
  match Organization.organizationSlugOf env req with
  | Some c =>
    if JS.truthyS (JS.normalizeSlug c)
    then exists o, Organization.lookupOrganization d (JS.normalizeSlug c) = Some o
                   /\ r = Http.setOrganization req o
    else r = req
  | None => r = req
  end.
Proof.
  unfold Organization.identifyOrganization, Organization.resolveSlug.
  destruct (Organization.organizationSlugOf env req) as [c|] eqn:Es.
  - rewrite (organizationSlugOf_truthy env req c Es). cbn [negb]. cbv zeta.
    destruct (JS.truthyS (JS.normalizeSlug c)); cbn [negb].
    + destruct (Organization.lookupOrganization d _) as [o|]; [|discriminate].
      intros H. inversion H. eauto.
    + intros H. inversion H. reflexivity.
  - intros H. inversion H. reflexivity.
Qed.

Lemma lookupOrganization_In (d : Store.DB) (n : string) (o : Store.Organization) :
  Organization.lookupOrganization d n = Some o -> In o (Store.organizations d).
Proof.
  unfold Organization.lookupOrganization,
    Store.organization_findFirst_slugOrSubdomain, Store.organization_findMany.
  destruct (find _ (Store.organizations d)) as [o'|] eqn:F.
  - intros H. inversion H; subst. apply find_some in F. apply F.
  - intros H. apply find_some in H. apply H.
Qed.

Lemma getOrganizationFromUser_next_cases (d : Store.DB) (req req' : Http.Request) :
  OrganizationFallback.getOrganizationFromUser d req = Http.Next req' ->
  (JS.truthy (Http.organizationId req) = true /\ req' = req)
  \/ (JS.truthy (Http.organizationId req) = false
      /\ exists uid m o,
           Http.userId req = Some uid
           /\ OrganizationFallback.userOrganization_findFirst_byUser d uid = Some m
           /\ OrganizationFallback.organization_findUnique d
                (Store.uo_organizationId m) = Some o
           /\ req' = OrganizationFallback.adoptOrganization req o).
Proof.
  unfold OrganizationFallback.getOrganizationFromUser.
  destruct (JS.truthy (Http.organizationId req)).
  { intros H. inversion H. left. auto. }
  destruct (Http.userId req) as [uid|]; [|discriminate].
  destruct (JS.truthyS uid); cbn [negb]; [|discriminate].
  destruct (OrganizationFallback.userOrganization_findFirst_byUser d uid)
    as [m|] eqn:F; [|discriminate].
  destruct (OrganizationFallback.organization_findUnique d
              (Store.uo_organizationId m)) as [o|] eqn:Fo; [|discriminate].
  intros H. inversion H. right. split; [reflexivity|].
  exists uid, m, o. auto.
Qed.

(** The URL names no tenant: no signal, or a candidate that normalises
    to the empty string. *)
Definition namesNoTenant (env : Http.Env) (req : Http.Request) : Prop :=
  match Organization.organizationSlugOf env req with
  | Some c => JS.normalizeSlug c = ""
  | None => True
  end.

Lemma namesNoTenant_identify (d : Store.DB) (env : Http.Env) (req : Http.Request) :
  namesNoTenant env req -> Organization.identifyOrganization d env req = Http.Next req.
Proof.
  unfold namesNoTenant, Organization.identifyOrganization, Organization.resolveSlug.
  destruct (Organization.organizationSlugOf env req) as [c|]; [|reflexivity].
  intros ->. destruct (JS.truthyS c); reflexivity.
Qed.

(** The keys of the stored organizations are not empty. *)
Definition organizationKeysSet (d : Store.DB) : Prop :=
  forall o, In o (Store.organizations d) -> JS.truthyS (Store.org_id o) = true.

(** X9. On the routes guarded by [authenticate, identifyOrganization,
    getOrganizationFromUser, ...] (the ticket, category and status
    routers) a request that gets through acts on one tenant, chosen in
    this order: the organization its URL names (Host subdomain, path,
    query or header), even when the token names another; else the
    organization the token names; else the organization of the
    actor's first membership. *)
Theorem tenant_precedence_authenticate_first
    (verify : string -> option Auth.TokenPayload) (d : Store.DB) (env : Http.Env)
    (authorization : option string) (req req' : Http.Request)
    (token : string) (decoded : Auth.TokenPayload) :
  organizationKeysSet d ->
  Http.organizationId req = None ->
  Auth.bearerToken authorization = Some token ->
  verify token = Some decoded ->
  OrganizationFallback.memberChain verify d env authorization req = Http.Next req' ->
  (forall c,
     Organization.organizationSlugOf env req = Some c -> JS.normalizeSlug c <> "" ->
     exists o, Organization.lookupOrganization d (JS.normalizeSlug c) = Some o
               /\ Http.organizationId req' = Some (Store.org_id o))
  /\ (namesNoTenant env req ->
      JS.truthy (Auth.tp_organizationId decoded) = true ->
      Http.organizationId req' = Auth.tp_organizationId decoded)
  /\ (namesNoTenant env req ->
      JS.truthy (Auth.tp_organizationId decoded) = false ->
      exists m,
        OrganizationFallback.userOrganization_findFirst_byUser d
          (Auth.tp_userId decoded) = Some m
        /\ Http.organizationId req' = Some (Store.uo_organizationId m)).
Proof.
  intros Hkeys Hnone Hb Hv H. unfold OrganizationFallback.memberChain in H.
  apply andThen_next in H. destruct H as [r3 [H H4]].
  apply andThen_next in H. destruct H as [r2 [H H3]].
  apply andThen_next in H. destruct H as [r1 [H1 H2]].
  apply authenticate_next_eq in H1.
  destruct H1 as [token' [decoded' [Hb' [Hv' ->]]]].
  assert (token' = token) by congruence. subst token'.
  assert (decoded' = decoded) by congruence. subst decoded'.
  apply verifyOrganizationAccess_next_inv in H4. destruct H4 as [-> _].
  apply getOrganizationFromUser_next_cases in H3.
  split; [|split].
  - intros c Hc Hn. apply identifyOrganization_tenant in H2.
    change (Organization.organizationSlugOf env (Auth.setUser req decoded))
      with (Organization.organizationSlugOf env req) in H2.
    rewrite Hc in H2.
    assert (Tn : JS.truthyS (JS.normalizeSlug c) = true).
    { destruct (JS.normalizeSlug c); [congruence | reflexivity]. }
    rewrite Tn in H2. destruct H2 as [o [Hl ->]].
    exists o. split; [exact Hl|].
    destruct H3 as [[_ ->]|[Hf _]]; [reflexivity|].
    change (JS.truthyS (Store.org_id o) = false) in Hf.
    rewrite (Hkeys o (lookupOrganization_In d _ o Hl)) in Hf. discriminate.
  - intros Hno Ht.
    rewrite (namesNoTenant_identify d env (Auth.setUser req decoded) Hno) in H2.
    inversion H2; subst r2. clear H2.
    cbn [Http.organizationId Auth.setUser] in H3. rewrite Ht in H3.
    destruct H3 as [[_ ->]|[Hf _]]; [|congruence].
    cbn [Http.organizationId Auth.setUser]. rewrite Ht. reflexivity.
  - intros Hno Ht.
    rewrite (namesNoTenant_identify d env (Auth.setUser req decoded) Hno) in H2.
    inversion H2; subst r2. clear H2.
    cbn [Http.organizationId Http.userId Auth.setUser] in H3.
    rewrite Ht, Hnone in H3.
    destruct H3 as [[Hf _]|[_ [uid [m [o [Hu [F [Fo E]]]]]]]].
    { discriminate Hf. }
    injection Hu as Hu. subst uid. exists m. split; [exact F|].
    apply organization_findUnique_some in Fo. destruct Fo as [_ Hid].
    rewrite E, <- Hid. reflexivity.
Qed.

(** X10. On the routes of the organization router guarded by
    [identifyOrganization, authenticate, ...] (update of an
    organization, its members) the order is the other way round:
    [authenticate] runs after the URL has been resolved and writes
    the organization of the token over it. A request that gets
    through acts on the organization its token names, whatever
    organization the URL names; only a token that names none leaves
    the organization of the URL in place. *)
Theorem token_tenant_overrides_url_when_identified_first
    (verify : string -> option Auth.TokenPayload) (d : Store.DB) (env : Http.Env)
    (authorization : option string) (req req' : Http.Request)
    (token : string) (decoded : Auth.TokenPayload) :
  Auth.bearerToken authorization = Some token ->
  verify token = Some decoded ->
  (Organizations.slugAdminChain verify d env authorization req = Http.Next req'
   \/ Organizations.slugMemberChain verify d env authorization req = Http.Next req') ->
  (JS.truthy (Auth.tp_organizationId decoded) = true ->
   Http.organizationId req' = Auth.tp_organizationId decoded)
  /\ (JS.truthy (Auth.tp_organizationId decoded) = false ->
      forall c,
        Organization.organizationSlugOf env req = Some c -> JS.normalizeSlug c <> "" ->
        exists o, Organization.lookupOrganization d (JS.normalizeSlug c) = Some o
                  /\ Http.organizationId req' = Some (Store.org_id o))
  /\ Http.userId req' = Some (Auth.tp_userId decoded)
  /\ exists oid m,
       Http.organizationId req' = Some oid
       /\ Store.userOrganization_findUnique d (Auth.tp_userId decoded) oid = Some m.
Proof.
  intros Hb Hv H.
  assert (Hpre : exists r1,
             Organization.identifyOrganization d env req = Http.Next r1
             /\ req' = Auth.setUser r1 decoded
             /\ exists uid oid m,
                  Http.userId req' = Some uid /\ Http.organizationId req' = Some oid
                  /\ Store.userOrganization_findUnique d uid oid = Some m).
  { destruct H as [H|H].
    - unfold Organizations.slugAdminChain in H.
      apply andThen_next in H. destruct H as [r2 [H H3]].
      apply andThen_next in H. destruct H as [r1 [H1 H2]].
      apply authenticate_next_eq in H2.
      destruct H2 as [token' [decoded' [Hb' [Hv' ->]]]].
      assert (token' = token) by congruence. subst token'.
      assert (decoded' = decoded) by congruence. subst decoded'.
      apply requireOrgAdmin_next_inv in H3.
      destruct H3 as [-> [uid [oid [m [Hu [_ [Ho [_ [F _]]]]]]]]].
      exists r1. split; [exact H1|]. split; [reflexivity|].
      exists uid, oid, m. auto.
    - unfold Organizations.slugMemberChain in H.
      apply andThen_next in H. destruct H as [r2 [H H3]].
      apply andThen_next in H. destruct H as [r1 [H1 H2]].
      apply authenticate_next_eq in H2.
      destruct H2 as [token' [decoded' [Hb' [Hv' ->]]]].
      assert (token' = token) by congruence. subst token'.
      assert (decoded' = decoded) by congruence. subst decoded'.
      apply verifyOrganizationAccess_next_inv in H3.
      destruct H3 as [-> [uid [oid [m [Hu [_ [Ho [_ F]]]]]]]].
      exists r1. split; [exact H1|]. split; [reflexivity|].
      exists uid, oid, m. auto. }
  destruct Hpre as [r1 [H1 [-> [uid [oid [m [Hu [Ho F]]]]]]]].
  split; [|split; [|split]].
  - intros Ht. simpl. rewrite Ht. reflexivity.
  - intros Ht c Hc Hn. apply identifyOrganization_tenant in H1. rewrite Hc in H1.
    assert (Tn : JS.truthyS (JS.normalizeSlug c) = true).
    { destruct (JS.normalizeSlug c); [congruence | reflexivity]. }
    rewrite Tn in H1. destruct H1 as [o [Hl ->]].
    exists o. split; [exact Hl|]. simpl. rewrite Ht. reflexivity.
  - reflexivity.
  - exists oid, m. split; [exact Ho|]. simpl in Hu. inversion Hu; subst uid. exact F.
Qed.

(* ===================================================================== *)
(** * The status router *)
(* ===================================================================== *)

(** ** The unique index and the keys of the status table *)

Definition statusKey (s : Store.TicketStatus) : string * string :=
  (Store.ts_name s, Store.ts_organizationId s).

(** Keys are pairwise different, and so are the pairs (name,
    organization). *)
Definition statusTableOk (d : Store.DB) : Prop :=
  NoDup (map Store.ts_id (Store.ticketStatuses d))
  /\ NoDup (map statusKey (Store.ticketStatuses d)).

Lemma NoDup_map_In_eq {A B} (f : A -> B) (l : list A) (a b : A) :
  NoDup (map f l) -> In a l -> In b l -> f a = f b -> a = b.
Proof.
  induction l as [|x l IH]; simpl; intros N Ha Hb E; [contradiction|].
  inversion N as [|y m Hx N']; subst.
  destruct Ha as [<-|Ha]; destruct Hb as [<-|Hb]; auto.
  - exfalso. apply Hx. rewrite E. apply in_map, Hb.
  - exfalso. apply Hx. rewrite <- E. apply in_map, Ha.
Qed.


Lemma filter_map_fix {A} (p : A -> bool) (f : A -> A) (l : list A) :
  (forall x, In x l -> p (f x) = p x /\ (p x = true -> f x = x)) ->
  filter p (map f l) = filter p l.
Proof.
  induction l as [|x l IH]; simpl; intros H; [reflexivity|].
  destruct (H x (or_introl eq_refl)) as [E F]. rewrite E.
  rewrite IH by (intros y Hy; apply H; right; exact Hy).
  destruct (p x); [rewrite F by reflexivity|]; reflexivity.
Qed.

Lemma filter_filter_fix {A} (p q : A -> bool) (l : list A) :
  (forall x, In x l -> p x = true -> q x = true) ->
  filter p (filter q l) = filter p l.
Proof.
  induction l as [|x l IH]; simpl; intros H; [reflexivity|].
  pose proof (H x (or_introl eq_refl)) as Hx.
  rewrite <- IH by (intros y Hy; apply H; right; exact Hy).
  destruct (q x) eqn:Q; simpl.
  - reflexivity.
  - destruct (p x); [|reflexivity]. specialize (Hx eq_refl). discriminate.
Qed.



Lemma ticketStatus_findFirst_some (d : Store.DB) (id oid : Store.Id)
    (s : Store.TicketStatus) :
  Store.ticketStatus_findFirst d id (Some oid) = Some s ->
  In s (Store.ticketStatuses d) /\ Store.ts_id s = id
  /\ Store.ts_organizationId s = oid.
Proof.
  unfold Store.ticketStatus_findFirst. intros F. apply find_some in F.
  destruct F as [Hin Hm]. apply andb_true_iff in Hm. destruct Hm as [Hi Ho].
  apply String.eqb_eq in Hi. simpl in Ho. apply String.eqb_eq in Ho. auto.
Qed.

Lemma ticketStatus_findFirst_none (d : Store.DB) (id oid : Store.Id) :
  (forall s, In s (Store.ticketStatuses d) -> Store.ts_id s = id ->
             Store.ts_organizationId s <> oid) ->
  Store.ticketStatus_findFirst d id (Some oid) = None.
Proof.
  intros H. unfold Store.ticketStatus_findFirst.
  destruct (find _ _) as [s|] eqn:F; [|reflexivity].
  apply find_some in F. destruct F as [Hin Hm].
  apply andb_true_iff in Hm. destruct Hm as [Hi Ho].
  apply String.eqb_eq in Hi. simpl in Ho. apply String.eqb_eq in Ho.
  exfalso. exact (H s Hin Hi (eq_sym Ho)).
Qed.

(** The row rewritten by an update with key [id]. *)
Definition updateRow (id : Store.Id) (data : StatusesCrud.UpdateStatus)
    (s : Store.TicketStatus) : Store.TicketStatus :=
  if String.eqb (Store.ts_id s) id then StatusesCrud.applyUpdate data s else s.



Lemma set_ticketStatuses_statuses (d : Store.DB) (l : list Store.TicketStatus) :
  Store.ticketStatuses (Store.set_ticketStatuses d l) = l.
Proof. reflexivity. Qed.

Lemma POST_status_store (newId : Store.Id) (d : Store.DB) (oid : Store.Id)
    (body : StatusesCrud.Body) :
  (snd (StatusesCrud.POST_root_handler newId d oid body) = d
   /\ Rest.statusOf (fst (StatusesCrud.POST_root_handler newId d oid body)) = 400)
  \/ exists data,
       StatusesCrud.createStatusSchema_parse body = Some data
       /\ StatusesCrud.nameTaken d None (StatusesCrud.cs_name data) oid = false
       /\ exists status,
            StatusesCrud.POST_root_handler newId d oid body
            = (Rest.Row 201 status,
               Store.set_ticketStatuses d (Store.ticketStatuses d ++ [status]))
            /\ Store.ts_id status = newId
            /\ statusKey status = (StatusesCrud.cs_name data, oid)
            /\ Store.ts_order status =
               match StatusesCrud.cs_order data with Some z => z | None => 0%Z end.
Proof.
  unfold StatusesCrud.POST_root_handler.
  destruct (StatusesCrud.createStatusSchema_parse body) as [data|];
    [|left; split; reflexivity].
  unfold StatusesCrud.ticketStatus_create.
  destruct (StatusesCrud.nameTaken d None _ oid) eqn:T; [left; split; reflexivity|].
  right. exists data. split; [reflexivity|]. split; [exact T|].
  eexists. split; [reflexivity|]. simpl. auto.
Qed.

Lemma PUT_status_store (d : Store.DB) (oid id : Store.Id) (body : StatusesCrud.Body) :
  (snd (StatusesCrud.PUT_id_handler d oid id body) = d
   /\ Rest.statusOf (fst (StatusesCrud.PUT_id_handler d oid id body)) <> 200)
  \/ exists data s0 row,
       Store.ticketStatus_findFirst d id (Some oid) = Some s0
       /\ find (fun s => String.eqb (Store.ts_id s) id) (Store.ticketStatuses d)
          = Some row
       /\ StatusesCrud.nameTaken d (Some id)
            (Store.ts_name (StatusesCrud.applyUpdate data row))
            (Store.ts_organizationId row) = false
       /\ StatusesCrud.PUT_id_handler d oid id body
          = (Rest.Row 200 (StatusesCrud.applyUpdate data row),
             Store.set_ticketStatuses d
               (map (updateRow id data) (Store.ticketStatuses d))).
Proof.
  unfold StatusesCrud.PUT_id_handler.
  destruct (StatusesCrud.updateStatusSchema_parse body) as [data|];
    [|left; split; [reflexivity | discriminate]].
  destruct (Store.ticketStatus_findFirst d id (Some oid)) as [s0|] eqn:F;
    [|left; split; [reflexivity | discriminate]].
  unfold StatusesCrud.ticketStatus_update.
  destruct (find _ (Store.ticketStatuses d)) as [row|] eqn:Fr;
    [|left; split; [reflexivity | discriminate]].
  destruct (StatusesCrud.nameTaken d (Some id) _ _) eqn:T;
    [left; split; [reflexivity | discriminate]|].
  right. exists data, s0, row. auto.
Qed.

Lemma DELETE_status_store (d : Store.DB) (req : Http.Request) (id : Store.Id) :
  (snd (Statuses.DELETE_id_handler d req id) = d
   /\ Http.status (fst (Statuses.DELETE_id_handler d req id)) <> 200)
  \/ exists s0,
       Store.ticketStatus_findFirst d id (Http.organizationId req) = Some s0
       /\ snd (Statuses.DELETE_id_handler d req id) = Store.ticketStatus_delete d id.
Proof.
  unfold Statuses.DELETE_id_handler.
  destruct (Store.ticketStatus_findFirst d id (Http.organizationId req))
    as [s0|] eqn:F; [|left; split; [reflexivity | discriminate]].
  destruct (0 <? _)%nat; [left; split; [reflexivity | discriminate]|].
  right. exists s0. auto.
Qed.



Lemma findMany_statuses_eq (d d' : Store.DB) (o : option Store.Id) :
  filter (fun s => Store.whereField o (Store.ts_organizationId s))
         (Store.ticketStatuses d')
  = filter (fun s => Store.whereField o (Store.ts_organizationId s))
           (Store.ticketStatuses d) ->
  Store.ticketStatus_findMany d' o = Store.ticketStatus_findMany d o.
Proof. unfold Store.ticketStatus_findMany. intros ->. reflexivity. Qed.

(** X13. The writes of the status router stay within the organization of
    the request: the status listing of every other organization is
    the same before and after a creation, an update or a deletion;
    and the key of a status of another organization is answered like
    a key no status has, with 404 and the store left as it was
    (keys being pairwise different). *)
Theorem status_writes_tenant_isolated (d : Store.DB) (oid other : Store.Id) :
  NoDup (map Store.ts_id (Store.ticketStatuses d)) ->
  other <> oid ->
  (forall newId body,
     Store.ticketStatus_findMany
       (snd (StatusesCrud.POST_root_handler newId d oid body)) (Some other)
     = Store.ticketStatus_findMany d (Some other))
  /\ (forall id body,
        Store.ticketStatus_findMany
          (snd (StatusesCrud.PUT_id_handler d oid id body)) (Some other)
        = Store.ticketStatus_findMany d (Some other))
  /\ (forall req id,
        Http.organizationId req = Some oid ->
        Store.ticketStatus_findMany
          (snd (Statuses.DELETE_id_handler d req id)) (Some other)
        = Store.ticketStatus_findMany d (Some other))
  /\ (forall id s,
        In s (Store.ticketStatuses d) -> Store.ts_id s = id ->
        Store.ts_organizationId s = other ->
        StatusesCrud.GET_id_handler d (Some oid) id
        = Rest.Notice 404 "Ticket status not found"
        /\ (forall body data,
              StatusesCrud.updateStatusSchema_parse body = Some data ->
              StatusesCrud.PUT_id_handler d oid id body
              = (Rest.Notice 404 "Ticket status not found", d))
        /\ (forall req,
              Http.organizationId req = Some oid ->
              Statuses.DELETE_id_handler d req id
              = (Http.json 404 (Http.Message "Ticket status not found"), d))).
Proof.
  intros Ni Hne. split; [|split; [|split]].
  - intros newId body.
    destruct (POST_status_store newId d oid body)
      as [[-> _]|[data [_ [_ [status [E [_ [Hkey _]]]]]]]]; [reflexivity|].
    rewrite E. apply findMany_statuses_eq. simpl. rewrite filter_app. simpl.
    unfold statusKey in Hkey. inversion Hkey as [[Hn Ho]]. rewrite Ho.
    destruct (String.eqb other oid) eqn:Eo.
    + apply String.eqb_eq in Eo. contradiction.
    + apply app_nil_r.
  - intros id body.
    destruct (PUT_status_store d oid id body)
      as [[-> _]|[data [s0 [row [F [_ [_ E]]]]]]]; [reflexivity|].
    rewrite E. apply findMany_statuses_eq. simpl.
    apply ticketStatus_findFirst_some in F. destruct F as [H0 [Hid0 Ho0]].
    apply filter_map_fix. intros x Hx. unfold updateRow.
    destruct (String.eqb (Store.ts_id x) id) eqn:Ex; [|auto].
    apply String.eqb_eq in Ex.
    assert (x = s0) by (apply (NoDup_map_In_eq Store.ts_id _ x s0 Ni Hx H0);
                        congruence).
    subst x. simpl. rewrite Ho0. split; [reflexivity|].
    intros Hm. apply String.eqb_eq in Hm. contradiction.
  - intros req id Hreq.
    destruct (DELETE_status_store d req id) as [[-> _]|[s0 [F ->]]]; [reflexivity|].
    rewrite Hreq in F.
    apply ticketStatus_findFirst_some in F. destruct F as [H0 [Hid0 Ho0]].
    apply findMany_statuses_eq. unfold Store.ticketStatus_delete. simpl.
    apply filter_filter_fix. intros x Hx Hm. apply String.eqb_eq in Hm.
    destruct (String.eqb (Store.ts_id x) id) eqn:Ex; [|reflexivity].
    apply String.eqb_eq in Ex.
    assert (x = s0) by (apply (NoDup_map_In_eq Store.ts_id _ x s0 Ni Hx H0);
                        congruence).
    subst x. congruence.
  - intros id s Hs Hid Ho.
    assert (F : Store.ticketStatus_findFirst d id (Some oid) = None).
    { apply ticketStatus_findFirst_none. intros s' Hs' Hid'.
      assert (s' = s) by (apply (NoDup_map_In_eq Store.ts_id _ s' s Ni Hs' Hs);
                          congruence).
      subst s'. congruence. }
    split; [|split].
    + unfold StatusesCrud.GET_id_handler. rewrite F. reflexivity.
    + intros body data Hp. unfold StatusesCrud.PUT_id_handler.
      rewrite Hp, F. reflexivity.
    + intros req Hreq. unfold Statuses.DELETE_id_handler. rewrite Hreq, F.
      reflexivity.
Qed.

Lemma set_ticketStatuses_same (d : Store.DB) :
  Store.set_ticketStatuses d (Store.ticketStatuses d) = d.
Proof. destruct d. reflexivity. Qed.

Lemma set_ticketStatuses_twice (d : Store.DB) (l l' : list Store.TicketStatus) :
  Store.set_ticketStatuses (Store.set_ticketStatuses d l) l'
  = Store.set_ticketStatuses d l'.
Proof. reflexivity. Qed.

Lemma filter_all {A} (p : A -> bool) (l : list A) :
  (forall x, In x l -> p x = true) -> filter p l = l.
Proof.
  induction l as [|x l IH]; simpl; intros H; [reflexivity|].
  rewrite (H x (or_introl eq_refl)), IH; [reflexivity|].
  intros y Hy. apply H. right. exact Hy.
Qed.

Lemma find_app_none {A} (p : A -> bool) (l : list A) (x : A) :
  (forall y, In y l -> p y = false) -> p x = true -> find p (l ++ [x]) = Some x.
Proof.
  induction l as [|y l IH]; simpl; intros H Hx.
  - rewrite Hx. reflexivity.
  - rewrite (H y (or_introl eq_refl)). apply IH; [|exact Hx].
    intros z Hz. apply H. right. exact Hz.
Qed.

(** X14. A status created by [POST /] (the store giving it a key no status
    and no ticket bears) is of the organization of the request, bears
    the name of the body and the order of the body, 0 when the body
    has none; the listing of the organization holds it; [GET /:id]
    finds it under its key with no ticket counted; and deleting it
    next gives back the store as it was before the creation. *)
Theorem status_create_then_read_then_delete
    (newId : Store.Id) (d d' : Store.DB) (oid : Store.Id)
    (body : StatusesCrud.Body) (status : Store.TicketStatus) (req : Http.Request) :
  ~ In newId (map Store.ts_id (Store.ticketStatuses d)) ->
  (forall t, In t (Store.tickets d) -> Store.t_statusId t <> Some newId) ->
  Http.organizationId req = Some oid ->
  StatusesCrud.POST_root_handler newId d oid body = (Rest.Row 201 status, d') ->
  Store.ts_id status = newId
  /\ Store.ts_organizationId status = oid
  /\ StatusesCrud.b_name body = Some (Store.ts_name status)
  /\ (StatusesCrud.b_order body = None -> Store.ts_order status = 0%Z)
  /\ (forall z, StatusesCrud.b_order body = Some (StatusesCrud.Integer z) ->
                Store.ts_order status = z)
  /\ In status (Store.ticketStatus_findMany d' (Some oid))
  /\ StatusesCrud.GET_id_handler d' (Some oid) newId = Rest.Row 200 (status, 0)
  /\ Statuses.DELETE_id_handler d' req newId
     = (Http.json 200 (Http.Message "Ticket status deleted successfully"), d).
Proof.
  intros Hfresh Hnoref Hreq H.
  destruct (POST_status_store newId d oid body)
    as [[_ Hcode]|[data [Hp [_ [status' [E [Hid [Hkey Hord]]]]]]]].
  { rewrite H in Hcode. discriminate. }
  rewrite E in H. inversion H; subst status' d'. clear H.
  unfold statusKey in Hkey. injection Hkey as Hn Ho.
  unfold StatusesCrud.createStatusSchema_parse in Hp.
  destruct (Tickets.zStringMin 2 (StatusesCrud.b_name body)) as [name|] eqn:Zn;
    [|discriminate].
  destruct (StatusesCrud.zIntOptional (StatusesCrud.b_order body)) as [order|] eqn:Zo;
    [|discriminate].
  inversion Hp; subst data. simpl in Hn, Hord.
  apply zStringMin_some in Zn. destruct Zn as [Zn _].
  assert (Hfind : Store.ticketStatus_findFirst
                    (Store.set_ticketStatuses d (Store.ticketStatuses d ++ [status]))
                    newId (Some oid) = Some status).
  { unfold Store.ticketStatus_findFirst. simpl. apply find_app_none.
    - intros y Hy. destruct (String.eqb (Store.ts_id y) newId) eqn:Ey; [|reflexivity].
      apply String.eqb_eq in Ey. exfalso. apply Hfresh. rewrite <- Ey.
      apply in_map, Hy.
    - rewrite Hid, Ho, !String.eqb_refl. reflexivity. }
  assert (Hcount : Store.ticketStatus_countTickets
                     (Store.set_ticketStatuses d (Store.ticketStatuses d ++ [status]))
                     newId = 0).
  { unfold Store.ticketStatus_countTickets. simpl.
    destruct (filter _ (Store.tickets d)) as [|t l] eqn:F; [reflexivity|].
    assert (Hin : In t (filter (fun t => Store.optEqb (Store.t_statusId t) newId)
                               (Store.tickets d))) by (rewrite F; left; reflexivity).
    apply filter_In in Hin. destruct Hin as [Hin Hm].
    apply optEqb_true in Hm. exfalso. exact (Hnoref t Hin Hm). }
  split; [exact Hid|]. split; [exact Ho|]. split; [rewrite Zn, Hn; reflexivity|].
  split; [|split; [|split; [|split]]].
  - intros Hb. rewrite Hb in Zo. inversion Zo; subst. exact Hord.
  - intros z Hb. rewrite Hb in Zo. inversion Zo; subst. exact Hord.
  - unfold Store.ticketStatus_findMany. apply In_sortByOrder. simpl.
    apply filter_In. split; [apply in_or_app; right; left; reflexivity|].
    rewrite Ho. simpl. apply String.eqb_refl.
  - unfold StatusesCrud.GET_id_handler. rewrite Hfind, Hid, Hcount. reflexivity.
  - unfold Statuses.DELETE_id_handler. rewrite Hreq, Hfind, Hid, Hcount. simpl.
    f_equal. unfold Store.ticketStatus_delete. simpl.
    rewrite filter_app. simpl. rewrite Hid, String.eqb_refl. simpl.
    rewrite app_nil_r, filter_all.
    + destruct d. reflexivity.
    + intros x Hx. destruct (String.eqb (Store.ts_id x) newId) eqn:Ex; [|reflexivity].
      apply String.eqb_eq in Ex. exfalso. apply Hfresh. rewrite <- Ex.
      apply in_map, Hx.
Qed.

(* ===================================================================== *)
(** * Further properties of ticket creation *)
(* ===================================================================== *)

Lemma parse_throw rt body w e w1 :
  Tickets.createTicketSchema_parse rt body w = (Effects.Thrown e, w1) ->
  e = Effects.ZodError /\ w1 = w.
Proof.
  unfold Tickets.createTicketSchema_parse, Effects.ret, Effects.throw.
  destruct (Tickets.zStringMin 3 _); [|intros H; inversion H; auto].
  destruct (Tickets.zStringMin 10 _); [|intros H; inversion H; auto].
  match goal with |- context [if ?c then _ else _] => destruct c end;
    intros H; inversion H; auto.
Qed.

Lemma parse_public_throw rt body w e w1 :
  Tickets.createPublicTicketSchema_parse rt body w = (Effects.Thrown e, w1) ->
  e = Effects.ZodError /\ w1 = w.
Proof.
  unfold Tickets.createPublicTicketSchema_parse, Effects.ret, Effects.throw.
  destruct (Tickets.zStringMin 3 _); [|intros H; inversion H; auto].
  destruct (Tickets.zStringMin 10 _); [|intros H; inversion H; auto].
  destruct (Tickets.zStringMin 2 _); [|intros H; inversion H; auto].
  destruct (Tickets.b_submitterEmail body); [|intros H; inversion H; auto].
  destruct (Effects.zodEmail rt _); intros H; inversion H; auto.
Qed.

Lemma ensureUniqueToken_drew rt w :
  exists s w' k, Tickets.ensureUniqueToken rt w = (Effects.Returned s, w')
                 /\ drew k w w'.
Proof.
  unfold Tickets.ensureUniqueToken. rewrite bind_run.
  destruct (generateLoop_frame rt 8 "" w) as [tok [w1 [E D1]]].
  unfold Tickets.generateSimpleToken. rewrite E.
  rewrite bind_run. unfold Effects.query at 1.
  match goal with
  | |- context [Tickets.retryLoop rt 10 ?s1 w1] =>
    destruct (retryLoop_frame rt 10 s1 w1) as [s' [w2 [k [E2 D2]]]]
  end.
  rewrite E2. exists s', w2, (8 + k). split; [reflexivity|].
  exact (drew_trans _ _ _ _ _ D1 D2).
Qed.

Lemma create_throw rt data w e w' :
  Tickets.prisma_ticket_create rt data w = (Effects.Thrown e, w') ->
  w' = w /\ e <> Effects.ZodError.
Proof.
  unfold Tickets.prisma_ticket_create.
  destruct (Tickets.d_organizationId data) as [oid|].
  - destruct (Tickets.tokenTaken _ _); intros H; inversion H.
    split; [reflexivity | discriminate].
  - intros H. inversion H. split; [reflexivity | discriminate].
Qed.

Lemma create_fresh rt data w t w' :
  Tickets.prisma_ticket_create rt data w = (Effects.Returned t, w') ->
  Tickets.tokenTaken (Effects.db w) (Tickets.d_publicToken data) = false.
Proof.
  unfold Tickets.prisma_ticket_create.
  destruct (Tickets.d_organizationId data) as [oid|]; [|discriminate].
  destruct (Tickets.tokenTaken _ _); [discriminate | reflexivity].
Qed.

Lemma onError_server e w :
  e <> Effects.ZodError ->
  Tickets.onError e w = (Effects.Returned (Http.json 500 Http.ServerError), w).
Proof. destruct e; intros H; try reflexivity. contradiction. Qed.

(** What [POST /public] does once the ticket row exists ends in the
    201 response. *)
Ltac submitted_returns :=
  apply returns_bind; [apply neverThrows_query | intros ?slug];
  apply returns_bind;
    [ match goal with
      | |- neverThrows (if ?c then _ else _) =>
        destruct c; eapply returns_neverThrows;
        first [apply returns_sendMail | apply returns_ret]
      end
    | intros _ ];
  apply returns_bind; [|intros _; apply returns_ret];
  eapply (returns_neverThrows _ tt);
  match goal with
  | |- returns (match ?l with _ => _ end) tt =>
    destruct l as [|?u0 ?us]; [apply returns_ret|]
  end;
  match goal with
  | |- returns (match ?c with _ => _ end) tt =>
    destruct c as [?cat|]; [|apply returns_ret]
  end;
  apply returns_forEach; intros ?x; unfold Tickets.mailAssignedUser;
  apply returns_bind; [apply neverThrows_query | intros ?mail];
  apply returns_sendMail.

(** Nothing but random draws happened between two worlds. *)
Definition onlyDrew (w w' : Effects.World) : Prop := exists k, drew k w w'.

Lemma onlyDrew_refl w : onlyDrew w w.
Proof. exists 0. apply drew_zero. Qed.

Lemma POST_root_outcome rt userId oid body w :
  exists resp w',
    Tickets.POST_root rt userId oid body w = (Effects.Returned resp, w')
    /\ ((exists t category s w3,
           resp = Http.json 201 (Http.TicketJson t)
           /\ Tickets.verifyCategory (Tickets.b_categoryId body) (Some oid) w
              = (Effects.Returned (inr category), w)
           /\ Tickets.ensureUniqueToken rt w = (Effects.Returned s, w3)
           /\ Store.t_publicToken t = Some (Tickets.publicToken s)
           /\ Tickets.tokenTaken (Effects.db w) (Some (Tickets.publicToken s)) = false)
        \/ ((Http.status resp = 400 \/ Http.status resp = 500) /\ onlyDrew w w')).
Proof.
  unfold Tickets.POST_root, Effects.tryCatch. rewrite bind_run.
  destruct (Tickets.createTicketSchema_parse rt body w) as [[d|e] w1] eqn:E1.
  2:{ apply parse_throw in E1. destruct E1 as [-> ->].
      eexists. exists w. split; [reflexivity|]. right.
      split; [left; reflexivity | apply onlyDrew_refl]. }
  apply parse_inv in E1. destruct E1 as [-> Hcat]. rewrite Hcat.
  rewrite bind_run.
  destruct (Tickets.verifyCategory (Tickets.b_categoryId body) (Some oid) w)
    as [r2 w2] eqn:E2.
  pose proof E2 as E2'. apply verifyCategory_inv in E2'.
  destruct E2' as [-> [[m ->]|[category [-> Hc]]]].
  { eexists. exists w. split; [reflexivity|]. right.
    split; [left; reflexivity | apply onlyDrew_refl]. }
  rewrite bind_run.
  destruct (ensureUniqueToken_drew rt w) as [s [w3 [k [E3 D3]]]]. rewrite E3.
  rewrite bind_run, autoAssign_run.
  destruct (autoAssignResult (Effects.db w3) (Tickets.b_categoryId body) (Some oid))
    as [assignedUserId allAssignedUsers].
  rewrite bind_run.
  destruct (Tickets.prisma_ticket_create rt _ w3) as [[t|e] w5] eqn:E5.
  - match goal with
    | |- context [Effects.bind ?m ?k w5] =>
      assert (R : returns (Effects.bind m k) (Http.json 201 (Http.TicketJson t)))
        by announce_returns;
      destruct (R w5) as [w' E]; rewrite E
    end.
    eexists. exists w'. split; [reflexivity|]. left.
    exists t, category, s, w3. split; [reflexivity|]. split; [reflexivity|].
    split; [reflexivity|].
    pose proof (create_fresh _ _ _ _ _ E5) as Hf.
    apply create_inv in E5. destruct E5 as [_ [_ [_ [_ [Htok _]]]]].
    simpl in Htok, Hf. destruct D3 as [Hdb _]. rewrite Hdb in Hf. auto.
  - apply create_throw in E5. destruct E5 as [-> He].
    rewrite (onError_server e w3 He).
    eexists. exists w3. split; [reflexivity|]. right.
    split; [right; reflexivity | exists k; exact D3].
Qed.

Lemma POST_public_outcome rt o body w :
  exists resp w',
    Tickets.POST_public_handler rt o body w = (Effects.Returned resp, w')
    /\ ((exists t category s w3 msg,
           resp = Http.json 201 (Http.SubmittedJson t (Tickets.publicToken s) msg)
           /\ Tickets.verifyCategory (Tickets.b_categoryId body) o w
              = (Effects.Returned (inr category), w)
           /\ Tickets.ensureUniqueToken rt w = (Effects.Returned s, w3)
           /\ Store.t_categoryId t = JS.orNull (Tickets.b_categoryId body)
           /\ Tickets.tokenTaken (Effects.db w) (Some (Tickets.publicToken s)) = false)
        \/ ((Http.status resp = 400 \/ Http.status resp = 500) /\ onlyDrew w w')).
Proof.
  unfold Tickets.POST_public_handler, Effects.tryCatch. rewrite bind_run.
  destruct (Tickets.createPublicTicketSchema_parse rt body w) as [[d|e] w1] eqn:E1.
  2:{ apply parse_public_throw in E1. destruct E1 as [-> ->].
      eexists. exists w. split; [reflexivity|]. right.
      split; [left; reflexivity | apply onlyDrew_refl]. }
  apply parse_public_inv in E1. destruct E1 as [-> [Hcat _]]. rewrite Hcat.
  rewrite bind_run.
  destruct (Tickets.verifyCategory (Tickets.b_categoryId body) o w)
    as [r2 w2] eqn:E2.
  pose proof E2 as E2'. apply verifyCategory_inv in E2'.
  destruct E2' as [-> [[m ->]|[category [-> Hc]]]].
  { eexists. exists w. split; [reflexivity|]. right.
    split; [left; reflexivity | apply onlyDrew_refl]. }
  rewrite bind_run.
  destruct (ensureUniqueToken_drew rt w) as [s [w3 [k [E3 D3]]]]. rewrite E3.
  rewrite bind_run, autoAssign_run.
  destruct (autoAssignResult (Effects.db w3) (Tickets.b_categoryId body) o)
    as [assignedUserId allAssignedUsers].
  rewrite bind_run.
  destruct (Tickets.prisma_ticket_create rt _ w3) as [[t|e] w5] eqn:E5.
  - match goal with
    | |- context [Effects.bind ?m ?k w5] =>
      match k with
      | context [Effects.ret (Http.json 201 ?p)] =>
        assert (R : returns (Effects.bind m k) (Http.json 201 p))
          by submitted_returns;
        destruct (R w5) as [w' E]; rewrite E
      end
    end.
    eexists. exists w'. split; [reflexivity|]. left.
    exists t, category, s, w3. eexists. split; [reflexivity|].
    split; [reflexivity|]. split; [reflexivity|].
    pose proof (create_fresh _ _ _ _ _ E5) as Hf.
    apply create_inv in E5. destruct E5 as [_ [_ [_ [Hcid _]]]].
    simpl in Hf, Hcid. rewrite Hcat in Hcid.
    destruct D3 as [Hdb _]. rewrite Hdb in Hf. auto.
  - apply create_throw in E5. destruct E5 as [-> He].
    rewrite (onError_server e w3 He).
    eexists. exists w3. split; [reflexivity|]. right.
    split; [right; reflexivity | exists k; exact D3].
Qed.


(** X15. Creation is all or nothing on both paths. The handler always
    answers. Either the answer is the 201 with the created ticket,
    and that ticket is the one row added to the ticket table; or the
    answer is a 400 or a 500 and the store, the outbox and the console
    are as they were: a refused creation leaves no ticket, no
    notification, no activity log and sends no e-mail. The public path
    creates nothing when the request carries no organization. *)
Theorem ticket_creation_all_or_nothing
    (rt : Effects.Runtime) (body : Tickets.Body) (w : Effects.World) :
  (forall userId oid,
     exists resp w',
       Tickets.POST_root rt userId oid body w = (Effects.Returned resp, w')
       /\ ((exists t, resp = Http.json 201 (Http.TicketJson t)
                      /\ Store.tickets (Effects.db w')
                         = Store.tickets (Effects.db w) ++ [t])
           \/ ((Http.status resp = 400 \/ Http.status resp = 500)
               /\ Effects.db w' = Effects.db w
               /\ Effects.outbox w' = Effects.outbox w
               /\ Effects.console w' = Effects.console w)))
  /\ (forall o,
        exists resp w',
          Tickets.POST_public_handler rt o body w = (Effects.Returned resp, w')
          /\ ((exists t tok msg,
                 resp = Http.json 201 (Http.SubmittedJson t tok msg)
                 /\ o = Some (Store.t_organizationId t)
                 /\ Store.tickets (Effects.db w')
                    = Store.tickets (Effects.db w) ++ [t])
              \/ ((Http.status resp = 400 \/ Http.status resp = 500)
                  /\ Effects.db w' = Effects.db w
                  /\ Effects.outbox w' = Effects.outbox w
                  /\ Effects.console w' = Effects.console w))).
Proof.
  split.
  - intros userId oid.
    destruct (POST_root_outcome rt userId oid body w) as [resp [w' [E H]]].
    exists resp, w'. split; [exact E|].
    destruct H as [[t [category [s [w3 [-> _]]]]]|[Hs [k [Hd [Hc [Ho _]]]]]].
    + left. exists t. split; [reflexivity|].
      apply POST_root_created in E.
      destruct E as [token [notes [_ [_ [_ [_ [_ [_ [_ [[At _] _]]]]]]]]]].
      exact At.
    + right. auto.
  - intros o.
    destruct (POST_public_outcome rt o body w) as [resp [w' [E H]]].
    exists resp, w'. split; [exact E|].
    destruct H as [[t [category [s [w3 [msg [-> _]]]]]]|[Hs [k [Hd [Hc [Ho _]]]]]].
    + left. exists t, (Tickets.publicToken s), msg. split; [reflexivity|].
      apply POST_public_created in E.
      destruct E as [name [email [_ [Horg [_ [_ [_ [_ [_ [_ [_ [_ [At _]]]]]]]]]]]]].
      auto.
    + right. auto.
Qed.

Lemma tokenTaken_false (d : Store.DB) (tok : string) (t0 : Store.Ticket) :
  Tickets.tokenTaken d (Some tok) = false ->
  In t0 (Store.tickets d) -> Store.optEqb (Store.t_publicToken t0) tok = false.
Proof.
  unfold Tickets.tokenTaken. intros H Hin.
  destruct (Store.optEqb (Store.t_publicToken t0) tok) eqn:E; [|reflexivity].
  rewrite <- H. symmetry. apply existsb_exists. exists t0. auto.
Qed.

(** A ticket added with a token no stored ticket carries keeps the
    stored tokens pairwise different. *)
Lemma uniqueTokens_kept (d d' : Store.DB) (t : Store.Ticket) (tok : string) :
  Tickets.tokenTaken d (Some tok) = false ->
  Store.tickets d' = Store.tickets d ++ [t] ->
  Store.t_publicToken t = Some tok ->
  uniqueTokens d -> uniqueTokens d'.
Proof.
  intros Hfree At Htok Hu t1 t2 p H1 H2 Hp1 Hp2. rewrite At in H1, H2.
  apply in_app_or in H1. apply in_app_or in H2.
  destruct H1 as [H1|[<-|[]]]; destruct H2 as [H2|[<-|[]]].
  - exact (Hu t1 t2 p H1 H2 Hp1 Hp2).
  - exfalso. pose proof (tokenTaken_false _ _ t1 Hfree H1) as Hf.
    rewrite Hp1 in Hf. rewrite Htok in Hp2. inversion Hp2; subst p.
    simpl in Hf. rewrite String.eqb_refl in Hf. discriminate Hf.
  - exfalso. pose proof (tokenTaken_false _ _ t2 Hfree H2) as Hf.
    rewrite Hp2 in Hf. rewrite Htok in Hp1. inversion Hp1; subst p.
    simpl in Hf. rewrite String.eqb_refl in Hf. discriminate Hf.
  - reflexivity.
Qed.

(** X16. The token a public submission answers with is the token of
    the ticket just created. With [Math.random] in [[0, 1)], it has 8
    characters of the alphabet and no ticket stored before carries
    it, so stored tokens stay pairwise different. *)
Theorem public_submission_token_fresh
    (rt : Effects.Runtime) (oid : Store.Id) (body : Tickets.Body)
    (w w' : Effects.World) (t : Store.Ticket) (tok msg : string) :
  (forall n, (0 <= Effects.random rt n)%Q /\ (Effects.random rt n < 1)%Q) ->
  Tickets.POST_public_handler rt (Some oid) body w
  = (Effects.Returned (Http.json 201 (Http.SubmittedJson t tok msg)), w') ->
  Store.t_publicToken t = Some tok
  /\ String.length tok = 8
  /\ overAlphabet tok
  /\ (forall t0, In t0 (Store.tickets (Effects.db w)) ->
                 Store.t_publicToken t0 <> Some tok)
  /\ Store.tickets (Effects.db w') = Store.tickets (Effects.db w) ++ [t]
  /\ (uniqueTokens (Effects.db w) -> uniqueTokens (Effects.db w')).
Proof.
  intros Hr H.
  destruct (POST_public_outcome rt (Some oid) body w) as [resp [w'' [E Hcase]]].
  rewrite H in E. inversion E; subst resp w''. clear E.
  destruct Hcase as [[t' [category [s [w3 [msg' [Eresp [_ [Es [_ Hfree]]]]]]]]]
                    |[[Hs|Hs] _]]; [|discriminate Hs|discriminate Hs].
  inversion Eresp; subst t' tok msg'. clear Eresp.
  destruct (ensureUniqueToken_spec rt Hr w) as [s2 [w2 [Es2 [[Hlen [Hal _]] _]]]].
  rewrite Es in Es2. inversion Es2; subst s2 w2. clear Es2.
  apply POST_public_created in H.
  destruct H as [name [email [_ [Horg [Htok [_ [_ [_ [_ [_ [_ [_ [At _]]]]]]]]]]]]].
  split; [exact Htok|]. split; [exact Hlen|]. split; [exact Hal|].
  split; [|split; [exact At|]].
  - intros t0 Hin Ht0. pose proof (tokenTaken_false _ _ t0 Hfree Hin) as Hf.
    rewrite Ht0 in Hf. simpl in Hf. rewrite String.eqb_refl in Hf. discriminate.
  - intros Hu. apply (uniqueTokens_kept _ _ t _ Hfree At Htok Hu).
Qed.

(** X17. The same holds of the authenticated path: the ticket [POST /]
    answers with carries a token of 8 characters of the alphabet that
    no ticket stored before carries, so stored tokens stay pairwise
    different. *)
Theorem authenticated_ticket_token_fresh
    (rt : Effects.Runtime) (userId oid : Store.Id) (body : Tickets.Body)
    (w w' : Effects.World) (t : Store.Ticket) :
  (forall n, (0 <= Effects.random rt n)%Q /\ (Effects.random rt n < 1)%Q) ->
  Tickets.POST_root rt userId oid body w
  = (Effects.Returned (Http.json 201 (Http.TicketJson t)), w') ->
  exists tok,
    Store.t_publicToken t = Some tok
    /\ String.length tok = 8
    /\ overAlphabet tok
    /\ (forall t0, In t0 (Store.tickets (Effects.db w)) ->
                   Store.t_publicToken t0 <> Some tok)
    /\ Store.tickets (Effects.db w') = Store.tickets (Effects.db w) ++ [t]
    /\ (uniqueTokens (Effects.db w) -> uniqueTokens (Effects.db w')).
Proof.
  intros Hr H.
  destruct (POST_root_outcome rt userId oid body w) as [resp [w'' [E Hcase]]].
  rewrite H in E. inversion E; subst resp w''. clear E.
  destruct Hcase as [[t' [category [s [w3 [Eresp [_ [Es [Htok Hfree]]]]]]]]
                    |[[Hs|Hs] _]]; [|discriminate Hs|discriminate Hs].
  inversion Eresp; subst t'. clear Eresp.
  destruct (ensureUniqueToken_spec rt Hr w) as [s2 [w2 [Es2 [[Hlen [Hal _]] _]]]].
  rewrite Es in Es2. inversion Es2; subst s2 w2. clear Es2.
  apply POST_root_created in H.
  destruct H as [token [notes [_ [Horg [_ [_ [_ [_ [_ [[At _] _]]]]]]]]]].
  exists (Tickets.publicToken s).
  split; [exact Htok|]. split; [exact Hlen|]. split; [exact Hal|].
  split; [|split; [exact At|]].
  - intros t0 Hin Ht0. pose proof (tokenTaken_false _ _ t0 Hfree Hin) as Hf.
    rewrite Ht0 in Hf. simpl in Hf. rewrite String.eqb_refl in Hf. discriminate Hf.
  - intros Hu. apply (uniqueTokens_kept _ _ t _ Hfree At Htok Hu).
Qed.

Lemma verifyCategory_found c o w category cid :
  Tickets.verifyCategory c o w = (Effects.Returned (inr category), w) ->
  JS.orNull c = Some cid ->
  exists cat, In cat (Store.categories (Effects.db w))
              /\ Store.cat_id cat = cid
              /\ Store.whereField o (Store.cat_organizationId cat) = true.
Proof.
  unfold Tickets.verifyCategory, JS.orNull. destruct c as [x|]; simpl; [|discriminate].
  destruct (JS.truthyS x); [|discriminate].
  intros H Hc. inversion Hc; subst x. clear Hc.
  rewrite bind_run in H. unfold Effects.query in H.
  destruct (Store.category_findFirst (Effects.db w) cid o) as [cat|] eqn:F;
    [|inversion H].
  unfold Store.category_findFirst in F. apply find_some in F.
  destruct F as [Hin Hm]. apply andb_true_iff in Hm. destruct Hm as [Hi Ho].
  apply String.eqb_eq in Hi. exists cat. auto.
Qed.

Lemma autoAssign_assignee d c o u :
  JS.orNull (fst (autoAssignResult d c o)) = Some u ->
  exists a cid, JS.orNull c = Some cid
                /\ In a (Store.userCategoryAssignments d)
                /\ Store.uca_userId a = u
                /\ Store.uca_categoryId a = cid
                /\ Store.whereField o (Store.uca_organizationId a) = true.
Proof.
  unfold autoAssignResult. destruct c as [cid|]; [|discriminate].
  destruct (JS.truthyS cid) eqn:T; [|discriminate].
  destruct (Store.userCategoryAssignment_findMany d cid o) as [|first rest] eqn:F;
    [discriminate|].
  simpl. intros H.
  assert (Hu : Store.uca_userId first = u).
  { unfold JS.orNull in H. destruct (JS.truthy _); congruence. }
  assert (Hin : In first (Store.userCategoryAssignment_findMany d cid o))
    by (rewrite F; left; reflexivity).
  unfold Store.userCategoryAssignment_findMany in Hin. apply filter_In in Hin.
  destruct Hin as [Hin Hm]. apply andb_true_iff in Hm. destruct Hm as [Hc Ho].
  apply String.eqb_eq in Hc.
  exists first, cid. unfold JS.orNull. simpl. rewrite T. auto.
Qed.

(** What a created ticket refers to, on both creation paths. *)
Lemma created_within_tenant
    (rt : Effects.Runtime) (oid : Store.Id) (body : Tickets.Body)
    (w w' : Effects.World) (t : Store.Ticket) :
  ((exists userId,
      Tickets.POST_root rt userId oid body w
      = (Effects.Returned (Http.json 201 (Http.TicketJson t)), w'))
   \/ (exists tok msg,
         Tickets.POST_public_handler rt (Some oid) body w
         = (Effects.Returned (Http.json 201 (Http.SubmittedJson t tok msg)), w'))) ->
  Store.t_organizationId t = oid
  /\ (forall cid, Store.t_categoryId t = Some cid ->
        exists cat, In cat (Store.categories (Effects.db w))
                    /\ Store.cat_id cat = cid
                    /\ Store.cat_organizationId cat = oid)
  /\ (forall u, Store.t_assignedTo t = Some u ->
        exists a cid, Store.t_categoryId t = Some cid
                      /\ In a (Store.userCategoryAssignments (Effects.db w))
                      /\ Store.uca_userId a = u
                      /\ Store.uca_categoryId a = cid
                      /\ Store.uca_organizationId a = oid).
Proof.
  intros H.
  assert (Hall : Store.t_organizationId t = oid
                 /\ Store.t_categoryId t = JS.orNull (Tickets.b_categoryId body)
                 /\ Store.t_assignedTo t =
                    JS.orNull (fst (autoAssignResult (Effects.db w)
                                      (Tickets.b_categoryId body) (Some oid)))
                 /\ exists category,
                      Tickets.verifyCategory (Tickets.b_categoryId body) (Some oid) w
                      = (Effects.Returned (inr category), w)).
  { destruct H as [[userId H]|[tok [msg H]]].
    - destruct (POST_root_outcome rt userId oid body w) as [resp [w'' [E Hcase]]].
      rewrite H in E. inversion E; subst resp w''. clear E.
      destruct Hcase as [[t' [category [s [w3 [Eresp [Hv _]]]]]]|[[Hs|Hs] _]];
        [|discriminate Hs|discriminate Hs].
      apply POST_root_created in H.
      destruct H as [token [notes [_ [Ho [_ [_ [_ [Hc [Ha _]]]]]]]]].
      split; [exact Ho|]. split; [exact Hc|]. split; [exact Ha|]. eauto.
    - destruct (POST_public_outcome rt (Some oid) body w) as [resp [w'' [E Hcase]]].
      rewrite H in E. inversion E; subst resp w''. clear E.
      destruct Hcase as [[t' [category [s [w3 [msg' [Eresp [Hv [_ [Hc _]]]]]]]]]
                        |[[Hs|Hs] _]]; [|discriminate Hs|discriminate Hs].
      inversion Eresp; subst t' tok msg'. clear Eresp.
      apply POST_public_created in H.
      destruct H as [name [email [_ [Ho [_ [_ [_ [_ [_ [_ [_ [Ha _]]]]]]]]]]]].
      inversion Ho as [Ho']. rewrite <- Ho'.
      split; [reflexivity|]. split; [exact Hc|]. split; [exact Ha|]. eauto. }
  destruct Hall as [Ho [Hc [Ha [category Hv]]]].
  split; [exact Ho|]. split.
  - intros cid Hcid. rewrite Hc in Hcid.
    destruct (verifyCategory_found _ _ _ _ cid Hv Hcid) as [cat [Hin [Hi Hw]]].
    exists cat. simpl in Hw. apply String.eqb_eq in Hw. auto.
  - intros u Hu. rewrite Ha in Hu.
    destruct (autoAssign_assignee _ _ _ _ Hu) as [a [cid [Hcid [Hin [Hau [Hac Hw]]]]]].
    exists a, cid. simpl in Hw. apply String.eqb_eq in Hw.
    rewrite Hc. auto.
Qed.

(** X18. What a created ticket refers to lies within its organization: the
    ticket is of the organization of the request, its category (when
    it has one) is a stored category of that organization, and its
    assignee (when it has one) is the user of a stored assignment row
    of that category and that organization. This holds on both
    creation paths. *)
Theorem created_ticket_refers_within_tenant
    (rt : Effects.Runtime) (oid : Store.Id) (body : Tickets.Body)
    (w w' : Effects.World) (t : Store.Ticket) :
  ((exists userId,
      Tickets.POST_root rt userId oid body w
      = (Effects.Returned (Http.json 201 (Http.TicketJson t)), w'))
   \/ (exists tok msg,
         Tickets.POST_public_handler rt (Some oid) body w
         = (Effects.Returned (Http.json 201 (Http.SubmittedJson t tok msg)), w'))) ->
  Store.t_organizationId t = oid
  /\ (forall cid, Store.t_categoryId t = Some cid ->
        exists cat, In cat (Store.categories (Effects.db w))
                    /\ Store.cat_id cat = cid
                    /\ Store.cat_organizationId cat = oid)
  /\ (forall u, Store.t_assignedTo t = Some u ->
        exists a cid, Store.t_categoryId t = Some cid
                      /\ In a (Store.userCategoryAssignments (Effects.db w))
                      /\ Store.uca_userId a = u
                      /\ Store.uca_categoryId a = cid
                      /\ Store.uca_organizationId a = oid).
Proof. exact (created_within_tenant rt oid body w w' t). Qed.


(** ** Reading one ticket, notifying about a comment *)

(** Who may read a ticket: its submitter, its assignee, an actor whose
    global role is ADMIN, or an actor whose membership of the
    organization has the role ADMIN. *)
Definition mayRead (d : Store.DB) (userId : Store.Id) (userRole : Role.t)
    (oid : Store.Id) (t : Store.Ticket) : Prop :=
  Store.t_userId t = Some userId
  \/ Store.t_assignedTo t = Some userId
  \/ userRole = Role.ADMIN
  \/ exists m, Store.userOrganization_findUnique d userId oid = Some m
               /\ Store.uo_role m = OrgRole.ADMIN.

Lemma Role_eqb_true (a b : Role.t) : Role.eqb a b = true <-> a = b.
Proof. destruct a, b; simpl; split; congruence. Qed.

Lemma isOrgAdmin_true (d : Store.DB) (userId oid : Store.Id) (userRole : Role.t) :
  TicketAccess.isOrgAdmin d userId oid userRole = true <->
  (userRole = Role.ADMIN
   \/ exists m, Store.userOrganization_findUnique d userId oid = Some m
                /\ Store.uo_role m = OrgRole.ADMIN).
Proof.
  unfold TicketAccess.isOrgAdmin. rewrite orb_true_iff, Role_eqb_true.
  destruct (Store.userOrganization_findUnique d userId oid) as [m|].
  - rewrite OrgRole_eqb_true. split.
    + intros [H|H]; [right; exists m; auto | left; exact H].
    + intros [H|[m' [E H]]]; [right; exact H | left; congruence].
  - split.
    + intros [H|H]; [discriminate | left; exact H].
    + intros [H|[m' [E _]]]; [right; exact H | discriminate].
Qed.

Lemma mayRead_decide (d : Store.DB) (userId : Store.Id) (userRole : Role.t)
    (oid : Store.Id) (t : Store.Ticket) :
  (negb (TicketAccess.isOrgAdmin d userId oid userRole)
   && negb (Store.optEqb (Store.t_userId t) userId)
   && negb (Store.optEqb (Store.t_assignedTo t) userId)) = false
  <-> mayRead d userId userRole oid t.
Proof.
  unfold mayRead. rewrite <- isOrgAdmin_true.
  rewrite !andb_false_iff, !negb_false_iff, !optEqb_true. tauto.
Qed.

Lemma ticket_findFirst_some (d : Store.DB) (id oid : Store.Id) (t : Store.Ticket) :
  TicketAccess.ticket_findFirst d id oid = Some t ->
  In t (Store.tickets d) /\ Store.t_id t = id /\ Store.t_organizationId t = oid.
Proof.
  unfold TicketAccess.ticket_findFirst. intros F. apply find_some in F.
  destruct F as [Hin Hm]. apply andb_true_iff in Hm. destruct Hm as [Hi Ho].
  apply String.eqb_eq in Hi. apply String.eqb_eq in Ho. auto.
Qed.

(** X19. [GET /:id] discloses a ticket only of the organization of the
    request and only to an actor who may read it. The key of a ticket
    of another organization is answered like a key no ticket has,
    with 404. For a ticket of the organization the answer is the
    ticket exactly when the actor may read it, and 403 otherwise: a
    plain member reads the tickets they submitted or are assigned
    to, and no others. *)
Theorem ticket_read_disclosure
    (d : Store.DB) (userId : Store.Id) (userRole : Role.t) (oid id : Store.Id) :
  (forall t,
     TicketAccess.GET_id_handler d userId userRole oid id = Rest.Row 200 t ->
     In t (Store.tickets d) /\ Store.t_id t = id /\ Store.t_organizationId t = oid
     /\ mayRead d userId userRole oid t)
  /\ ((forall t, In t (Store.tickets d) -> Store.t_id t = id ->
                 Store.t_organizationId t <> oid) ->
      TicketAccess.GET_id_handler d userId userRole oid id
      = Rest.Notice 404 "Ticket not found")
  /\ (forall t,
        TicketAccess.ticket_findFirst d id oid = Some t ->
        (mayRead d userId userRole oid t ->
         TicketAccess.GET_id_handler d userId userRole oid id = Rest.Row 200 t)
        /\ (~ mayRead d userId userRole oid t ->
            TicketAccess.GET_id_handler d userId userRole oid id
            = Rest.Notice 403 "Access denied")).
Proof.
  unfold TicketAccess.GET_id_handler. split; [|split].
  - intros t.
    destruct (TicketAccess.ticket_findFirst d id oid) as [t0|] eqn:F; [|discriminate].
    match goal with |- context [if ?c then _ else _] => destruct c eqn:C end;
      [discriminate|].
    intros H. inversion H; subst t0.
    apply ticket_findFirst_some in F. destruct F as [Hin [Hi Ho]].
    apply mayRead_decide in C. auto.
  - intros Hnone.
    destruct (TicketAccess.ticket_findFirst d id oid) as [t0|] eqn:F; [|reflexivity].
    apply ticket_findFirst_some in F. destruct F as [Hin [Hi Ho]].
    exfalso. exact (Hnone t0 Hin Hi Ho).
  - intros t ->. split.
    + intros Hm. apply mayRead_decide in Hm. rewrite Hm. reflexivity.
    + intros Hm.
      match goal with |- context [if ?c then _ else _] => destruct c eqn:C end;
        [reflexivity|].
      apply mayRead_decide in C. contradiction.
Qed.

(** The value of [notifyUserIds] after the first [if]. *)
Definition ownerPart (ticket : Store.Ticket) (userId : Store.Id) : list Store.Id :=
  match Store.t_userId ticket with
  | Some owner =>
    if JS.truthyS owner && negb (String.eqb owner userId) then [owner] else []
  | None => []
  end.

Lemma ownerPart_In (ticket : Store.Ticket) (userId u : Store.Id) :
  In u (ownerPart ticket userId) <->
  Store.t_userId ticket = Some u /\ JS.truthyS u = true /\ u <> userId.
Proof.
  unfold ownerPart. destruct (Store.t_userId ticket) as [o|].
  - destruct (JS.truthyS o) eqn:T; destruct (String.eqb_spec o userId) as [E|E];
      simpl; intuition congruence.
  - simpl. intuition congruence.
Qed.

Lemma ownerPart_NoDup (ticket : Store.Ticket) (userId : Store.Id) :
  NoDup (ownerPart ticket userId) /\ length (ownerPart ticket userId) <= 1.
Proof.
  unfold ownerPart. destruct (Store.t_userId ticket) as [o|].
  - destruct (JS.truthyS o && negb (String.eqb o userId)); simpl;
      split; try lia; repeat constructor. intros [].
  - simpl. split; [constructor | lia].
Qed.

Lemma existsb_eqb_In (a : string) (l : list string) :
  existsb (String.eqb a) l = true <-> In a l.
Proof.
  rewrite existsb_exists. split.
  - intros [x [Hin E]]. apply String.eqb_eq in E. subst. exact Hin.
  - intros Hin. exists a. split; [exact Hin | apply String.eqb_refl].
Qed.

(** X20. The users notified in-app of a comment are the submitter and the
    assignee of the ticket, each once and in that order, without the
    author of the comment and without empty keys: the author is never
    notified of their own comment, and a user who both submitted the
    ticket and is assigned to it is notified once. *)
Theorem comment_notifications_skip_author (ticket : Store.Ticket) (userId : Store.Id) :
  NoDup (TicketAccess.notifyUserIds ticket userId)
  /\ ~ In userId (TicketAccess.notifyUserIds ticket userId)
  /\ (forall u,
        In u (TicketAccess.notifyUserIds ticket userId) <->
        u <> userId /\ JS.truthyS u = true
        /\ (Store.t_userId ticket = Some u \/ Store.t_assignedTo ticket = Some u))
  /\ length (TicketAccess.notifyUserIds ticket userId) <= 2.
Proof.
  assert (Hin : forall u,
            In u (TicketAccess.notifyUserIds ticket userId) <->
            u <> userId /\ JS.truthyS u = true
            /\ (Store.t_userId ticket = Some u \/ Store.t_assignedTo ticket = Some u)).
  { intros u. change (TicketAccess.notifyUserIds ticket userId)
      with (match Store.t_assignedTo ticket with
            | Some assignee =>
              if JS.truthyS assignee && negb (String.eqb assignee userId)
                 && negb (existsb (String.eqb assignee) (ownerPart ticket userId))
              then ownerPart ticket userId ++ [assignee]
              else ownerPart ticket userId
            | None => ownerPart ticket userId
            end).
    destruct (Store.t_assignedTo ticket) as [a|].
    - destruct (JS.truthyS a) eqn:Ta; destruct (String.eqb_spec a userId) as [Ea|Ea];
        destruct (existsb (String.eqb a) (ownerPart ticket userId)) eqn:Ex; simpl;
        try rewrite in_app_iff; rewrite ownerPart_In; simpl.
      all: try (apply existsb_eqb_In in Ex; apply ownerPart_In in Ex).
      all: intuition congruence.
    - rewrite ownerPart_In. intuition congruence. }
  split; [|split; [|split; [exact Hin|]]].
  - change (TicketAccess.notifyUserIds ticket userId)
      with (match Store.t_assignedTo ticket with
            | Some assignee =>
              if JS.truthyS assignee && negb (String.eqb assignee userId)
                 && negb (existsb (String.eqb assignee) (ownerPart ticket userId))
              then ownerPart ticket userId ++ [assignee]
              else ownerPart ticket userId
            | None => ownerPart ticket userId
            end).
    destruct (ownerPart_NoDup ticket userId) as [N _].
    destruct (Store.t_assignedTo ticket) as [a|]; [|exact N].
    destruct (existsb (String.eqb a) (ownerPart ticket userId)) eqn:Ex;
      [rewrite andb_false_r; exact N|].
    destruct (JS.truthyS a && negb (String.eqb a userId)); simpl; [|exact N].
    apply NoDup_app; [exact N | repeat constructor; intros [] |].
    intros x Hx [<-|[]]. apply existsb_eqb_In in Hx. congruence.
  - intros H. apply Hin in H. destruct H as [H _]. congruence.
  - change (TicketAccess.notifyUserIds ticket userId)
      with (match Store.t_assignedTo ticket with
            | Some assignee =>
              if JS.truthyS assignee && negb (String.eqb assignee userId)
                 && negb (existsb (String.eqb assignee) (ownerPart ticket userId))
              then ownerPart ticket userId ++ [assignee]
              else ownerPart ticket userId
            | None => ownerPart ticket userId
            end).
    destruct (ownerPart_NoDup ticket userId) as [_ L].
    destruct (Store.t_assignedTo ticket) as [a|]; [|lia].
    match goal with |- context [if ?c then _ else _] => destruct c end;
      [rewrite length_app; simpl; lia | lia].
Qed.

(* ===================================================================== *)
(** * The organization router *)
(* ===================================================================== *)

Lemma userOrganization_findUnique_app (d : Store.DB) (uid oid : Store.Id)
    (m : Store.UserOrganization) :
  Store.userOrganization_findUnique d uid oid = None ->
  Store.uo_userId m = uid -> Store.uo_organizationId m = oid ->
  Store.userOrganization_findUnique
    (StoreWrites.set_userOrganizations d (Store.userOrganizations d ++ [m])) uid oid
  = Some m.
Proof.
  unfold Store.userOrganization_findUnique. simpl. intros F Hu Ho.
  apply find_app_none.
  - intros y Hy. apply (find_none _ _ F y Hy).
  - rewrite Hu, Ho, !String.eqb_refl. reflexivity.
Qed.

Lemma find_app_other {A} (p : A -> bool) (l : list A) (x : A) :
  p x = false -> find p (l ++ [x]) = find p l.
Proof.
  intros Hx. induction l as [|y l IH]; simpl.
  - rewrite Hx. reflexivity.
  - destruct (p y); [reflexivity | exact IH].
Qed.

(** The key [newId] is borne by no organization and named by no
    membership. *)
Definition freshOrganizationKey (d : Store.DB) (newId : Store.Id) : Prop :=
  (forall o, In o (Store.organizations d) -> Store.org_id o <> newId)
  /\ (forall m, In m (Store.userOrganizations d) ->
                Store.uo_organizationId m <> newId).

Lemma findUnique_fresh (d : Store.DB) (uid newId : Store.Id) :
  freshOrganizationKey d newId ->
  Store.userOrganization_findUnique d uid newId = None.
Proof.
  intros [_ Hm]. unfold Store.userOrganization_findUnique.
  destruct (find _ _) as [m|] eqn:F; [|reflexivity].
  apply find_some in F. destruct F as [Hin H].
  apply andb_true_iff in H. destruct H as [_ H]. apply String.eqb_eq in H.
  exfalso. exact (Hm m Hin H).
Qed.

Lemma organization_create_after_check (d : Store.DB) (slug : string)
    (subdomain : option string) (o : Store.Organization) :
  Organizations.organization_findFirst_taken d slug subdomain = None ->
  Store.org_slug o = slug ->
  Store.org_subdomain o = Organizations.storedSubdomain subdomain ->
  Organizations.organization_create d o
  = Some (StoreWrites.set_organizations d (Store.organizations d ++ [o])).
Proof.
  intros F Hs Hd. unfold Organizations.organization_create.
  destruct (existsb _ (Store.organizations d)) eqn:E; [|reflexivity].
  exfalso. apply existsb_exists in E. destruct E as [x [Hin Hx]].
  unfold Organizations.organization_findFirst_taken in F.
  pose proof (find_none _ _ F x Hin) as Hn. simpl in Hn.
  apply orb_false_iff in Hn. destruct Hn as [Hn1 Hn2].
  apply orb_true_iff in Hx. destruct Hx as [Hx|Hx].
  - rewrite Hs in Hx. congruence.
  - rewrite Hd in Hx. unfold Organizations.storedSubdomain, JS.orNull in Hx.
    destruct subdomain as [sd|]; simpl in Hx; [|discriminate].
    destruct (JS.truthyS (JS.toLowerCase sd)) eqn:T; [|discriminate].
    assert (Tsd : JS.truthyS sd = true).
    { destruct sd; [discriminate T | reflexivity]. }
    rewrite Tsd in Hn2. simpl in Hn2. congruence.
Qed.

Lemma POST_organization_outcome (newId : Store.Id) (d : Store.DB)
    (userId : Store.Id) (body : Organizations.Body) :
  freshOrganizationKey d newId ->
  (snd (Organizations.POST_root_handler newId d userId body) = d
   /\ Rest.statusOf (fst (Organizations.POST_root_handler newId d userId body)) = 400)
  \/ exists data,
       Organizations.createOrganizationSchema_parse body = Some data
       /\ Organizations.userOrganization_findFirst_admin d userId = None
       /\ Organizations.organization_findFirst_taken d
            (Organizations.storedSlug (Organizations.co_slug data))
            (Organizations.co_subdomain data) = None
       /\ ((Store.user_findUnique d userId = None
            /\ Organizations.POST_root_handler newId d userId body
               = (Rest.Failure,
                  StoreWrites.set_organizations d
                    (Store.organizations d
                     ++ [{| Store.org_id := newId;
                            Store.org_name := Organizations.co_name data;
                            Store.org_slug :=
                              Organizations.storedSlug (Organizations.co_slug data);
                            Store.org_subdomain :=
                              Organizations.storedSubdomain
                                (Organizations.co_subdomain data) |}])))
           \/ (Store.user_findUnique d userId <> None
               /\ Organizations.POST_root_handler newId d userId body
                  = (Rest.Row 201
                       {| Store.org_id := newId;
                          Store.org_name := Organizations.co_name data;
                          Store.org_slug :=
                            Organizations.storedSlug (Organizations.co_slug data);
                          Store.org_subdomain :=
                            Organizations.storedSubdomain
                              (Organizations.co_subdomain data) |},
                     StoreWrites.set_userOrganizations
                       (StoreWrites.set_organizations d
                          (Store.organizations d
                           ++ [{| Store.org_id := newId;
                                  Store.org_name := Organizations.co_name data;
                                  Store.org_slug :=
                                    Organizations.storedSlug
                                      (Organizations.co_slug data);
                                  Store.org_subdomain :=
                                    Organizations.storedSubdomain
                                      (Organizations.co_subdomain data) |}]))
                       (Store.userOrganizations d
                        ++ [{| Store.uo_userId := userId;
                               Store.uo_organizationId := newId;
                               Store.uo_role := OrgRole.ADMIN |}])))).
Proof.
  intros Hfresh. unfold Organizations.POST_root_handler.
  destruct (Organizations.createOrganizationSchema_parse body) as [data|];
    [|left; split; reflexivity].
  destruct (Organizations.userOrganization_findFirst_admin d userId) eqn:Fa;
    [left; split; reflexivity|].
  destruct (Organizations.organization_findFirst_taken d _ _) eqn:Ft;
    [left; split; reflexivity|].
  match goal with
  | |- context [Organizations.organization_create d ?o] =>
    rewrite (organization_create_after_check d _ _ o Ft eq_refl eq_refl)
  end.
  unfold Organizations.userOrganization_create.
  simpl Store.uo_userId. simpl Store.uo_organizationId.
  match goal with
  | |- context [Store.userOrganization_findUnique ?db userId newId] =>
    change (Store.userOrganization_findUnique db userId newId)
      with (Store.userOrganization_findUnique d userId newId)
  end.
  match goal with
  | |- context [Store.user_findUnique ?db userId] =>
    change (Store.user_findUnique db userId) with (Store.user_findUnique d userId)
  end.
  rewrite (findUnique_fresh d userId newId Hfresh).
  right. exists data. split; [reflexivity|]. split; [reflexivity|].
  split; [exact Ft|].
  destruct (Store.user_findUnique d userId) as [u|] eqn:Fu.
  - right. split; [discriminate | reflexivity].
  - left. split; reflexivity.
Qed.

Lemma findFirst_admin_none (d : Store.DB) (userId : Store.Id) :
  Organizations.userOrganization_findFirst_admin d userId = None ->
  forall m, In m (Store.userOrganizations d) -> Store.uo_userId m = userId ->
            Store.uo_role m <> OrgRole.ADMIN.
Proof.
  unfold Organizations.userOrganization_findFirst_admin. intros F m Hin Hu Hr.
  pose proof (find_none _ _ F m Hin) as Hn. simpl in Hn.
  rewrite Hu, Hr, String.eqb_refl in Hn. discriminate.
Qed.

Lemma findFirst_taken_none (d : Store.DB) (slug : string) (subdomain : option string) :
  Organizations.organization_findFirst_taken d slug subdomain = None ->
  forall x, In x (Store.organizations d) -> Store.org_slug x <> slug.
Proof.
  unfold Organizations.organization_findFirst_taken. intros F x Hin Hs.
  pose proof (find_none _ _ F x Hin) as Hn. simpl in Hn.
  rewrite Hs, String.eqb_refl in Hn. discriminate.
Qed.

(** X21. Creation of an organization, the store giving it a key no
    organization bears and no membership names. On the 201 the
    organization is added with the slug of the body lower-cased and
    every character outside [[a-z0-9-]] replaced by a hyphen, no
    stored organization had that slug, the creator has a user row, had
    no ADMIN membership and gets one on the new organization, so that
    [requireOrgAdmin] lets the creator through on it; and every later
    creation by the same user is answered 400 (one organization per
    admin). The handler answers 201, 400 or 500. A 400 leaves the
    store as it was. The two writes are not in a transaction: the 500
    is the answer when the body is valid, the slug free and the user
    of the token has no user row, and it leaves the organization
    stored with no membership on it. *)
Theorem organization_creation_makes_creator_admin
    (newId : Store.Id) (d : Store.DB) (userId : Store.Id)
    (body : Organizations.Body) :
  freshOrganizationKey d newId ->
  JS.truthyS userId = true ->
  JS.truthyS newId = true ->
  (forall o d',
     Organizations.POST_root_handler newId d userId body = (Rest.Row 201 o, d') ->
     Store.org_id o = newId
     /\ (exists slug, Organizations.b_slug body = Some slug
                      /\ Store.org_slug o = JS.replaceNonSlug (JS.toLowerCase slug))
     /\ Store.organizations d' = Store.organizations d ++ [o]
     /\ Store.userOrganizations d'
        = Store.userOrganizations d
          ++ [{| Store.uo_userId := userId; Store.uo_organizationId := newId;
                 Store.uo_role := OrgRole.ADMIN |}]
     /\ Store.user_findUnique d userId <> None
     /\ (forall m, In m (Store.userOrganizations d) -> Store.uo_userId m = userId ->
                   Store.uo_role m <> OrgRole.ADMIN)
     /\ (forall x, In x (Store.organizations d) -> Store.org_slug x <> Store.org_slug o)
     /\ (forall req,
           Http.userId req = Some userId -> Http.organizationId req = Some newId ->
           Organization.requireOrgAdmin d' req = Http.Next req)
     /\ (forall newId' body',
           exists r,
             Organizations.POST_root_handler newId' d' userId body' = (r, d')
             /\ Rest.statusOf r = 400))
  /\ ((exists o, fst (Organizations.POST_root_handler newId d userId body)
                 = Rest.Row 201 o)
      \/ Rest.statusOf (fst (Organizations.POST_root_handler newId d userId body)) = 400
      \/ fst (Organizations.POST_root_handler newId d userId body) = Rest.Failure)
  /\ (Rest.statusOf (fst (Organizations.POST_root_handler newId d userId body)) = 400 ->
      snd (Organizations.POST_root_handler newId d userId body) = d)
  /\ (fst (Organizations.POST_root_handler newId d userId body) = Rest.Failure <->
      Store.user_findUnique d userId = None
      /\ exists data,
           Organizations.createOrganizationSchema_parse body = Some data
           /\ Organizations.userOrganization_findFirst_admin d userId = None
           /\ Organizations.organization_findFirst_taken d
                (Organizations.storedSlug (Organizations.co_slug data))
                (Organizations.co_subdomain data) = None)
  /\ (fst (Organizations.POST_root_handler newId d userId body) = Rest.Failure ->
      exists o,
        Store.org_id o = newId
        /\ Store.organizations
             (snd (Organizations.POST_root_handler newId d userId body))
           = Store.organizations d ++ [o]
        /\ Store.userOrganizations
             (snd (Organizations.POST_root_handler newId d userId body))
           = Store.userOrganizations d
        /\ forall m,
             In m (Store.userOrganizations
                     (snd (Organizations.POST_root_handler newId d userId body))) ->
             Store.uo_organizationId m <> newId).
Proof.
  intros Hfresh Tu Tn.
  destruct (POST_organization_outcome newId d userId body Hfresh)
    as [[Hd Hc]|[data [Hp [Fa [Ft [[Fu E]|[Fu E]]]]]]].
  { split.
    { intros o d' H. rewrite H in Hc. discriminate Hc. }
    split; [right; left; exact Hc|]. split; [intros _; exact Hd|].
    split.
    - split.
      + intros F. rewrite F in Hc. discriminate Hc.
      + intros [Fu [data [Hp [Fa Ft]]]]. exfalso.
        unfold Organizations.POST_root_handler in Hd, Hc.
        rewrite Hp, Fa, Ft in Hc.
        match type of Hc with
        | context [Organizations.organization_create d ?o] =>
          rewrite (organization_create_after_check d _ _ o Ft eq_refl eq_refl) in Hc
        end.
        unfold Organizations.userOrganization_create in Hc.
        simpl Store.uo_userId in Hc. simpl Store.uo_organizationId in Hc.
        match type of Hc with
        | context [Store.userOrganization_findUnique ?db userId newId] =>
          change (Store.userOrganization_findUnique db userId newId)
            with (Store.userOrganization_findUnique d userId newId) in Hc
        end.
        match type of Hc with
        | context [Store.user_findUnique ?db userId] =>
          change (Store.user_findUnique db userId)
            with (Store.user_findUnique d userId) in Hc
        end.
        rewrite (findUnique_fresh d userId newId Hfresh), Fu in Hc.
        discriminate Hc.
    - intros F. rewrite F in Hc. discriminate Hc. }
  { split.
    { intros o d' H. rewrite E in H. discriminate H. }
    split; [right; right; rewrite E; reflexivity|].
    split; [rewrite E; simpl; intros H; discriminate H|].
    split.
    - split; [intros _; split; [exact Fu | exists data; auto] | intros _; rewrite E; reflexivity].
    - intros _. rewrite E. simpl. eexists. split; [|split; [reflexivity|split; [reflexivity|]]].
      + reflexivity.
      + intros m Hin. apply (proj2 Hfresh m Hin). }
  split.
  2:{ split; [left; rewrite E; eexists; reflexivity|].
      split; [rewrite E; simpl; intros H; discriminate H|].
      split.
      - split; [rewrite E; simpl; intros H; discriminate H|].
        intros [Fn _]. contradiction.
      - rewrite E. simpl. intros H. discriminate H. }
  intros o d' H. rewrite E in H. inversion H; subst o d'. clear H. simpl.
  assert (Hadmin : Store.userOrganization_findUnique
            (StoreWrites.set_userOrganizations
               (StoreWrites.set_organizations d
                  (Store.organizations d
                   ++ [{| Store.org_id := newId;
                          Store.org_name := Organizations.co_name data;
                          Store.org_slug :=
                            Organizations.storedSlug (Organizations.co_slug data);
                          Store.org_subdomain :=
                            Organizations.storedSubdomain
                              (Organizations.co_subdomain data) |}]))
               (Store.userOrganizations d
                ++ [{| Store.uo_userId := userId; Store.uo_organizationId := newId;
                       Store.uo_role := OrgRole.ADMIN |}])) userId newId
          = Some {| Store.uo_userId := userId; Store.uo_organizationId := newId;
                    Store.uo_role := OrgRole.ADMIN |}).
  { unfold Store.userOrganization_findUnique. simpl. apply find_app_none.
    - intros y Hy. pose proof (findUnique_fresh d userId newId Hfresh) as Fn.
      apply (find_none _ _ Fn y Hy).
    - simpl. rewrite !String.eqb_refl. reflexivity. }
  split; [reflexivity|]. split.
  { unfold Organizations.createOrganizationSchema_parse in Hp.
    destruct (Tickets.zStringMin 2 (Organizations.b_name body)); [|discriminate].
    destruct (Tickets.zStringMin 2 (Organizations.b_slug body)) as [slug|] eqn:Zs;
      [|discriminate].
    inversion Hp; subst data. simpl. apply zStringMin_some in Zs.
    exists slug. split; [apply Zs | reflexivity]. }
  split; [reflexivity|]. split; [reflexivity|].
  split; [exact Fu|].
  split; [exact (findFirst_admin_none d userId Fa)|].
  split; [exact (findFirst_taken_none d _ _ Ft)|].
  split.
  - intros req Hu Ho. unfold Organization.requireOrgAdmin.
    rewrite Hu, Ho, Tu, Tn. simpl. rewrite Hadmin. reflexivity.
  - intros newId' body'. unfold Organizations.POST_root_handler.
    destruct (Organizations.createOrganizationSchema_parse body') as [data'|].
    2:{ eexists. split; reflexivity. }
    assert (Fa' : exists m, Organizations.userOrganization_findFirst_admin
              (StoreWrites.set_userOrganizations
               (StoreWrites.set_organizations d
                  (Store.organizations d
                   ++ [{| Store.org_id := newId;
                          Store.org_name := Organizations.co_name data;
                          Store.org_slug :=
                            Organizations.storedSlug (Organizations.co_slug data);
                          Store.org_subdomain :=
                            Organizations.storedSubdomain
                              (Organizations.co_subdomain data) |}]))
               (Store.userOrganizations d
                ++ [{| Store.uo_userId := userId; Store.uo_organizationId := newId;
                       Store.uo_role := OrgRole.ADMIN |}])) userId = Some m).
    { unfold Organizations.userOrganization_findFirst_admin. simpl.
      eexists. apply find_app_none.
      - intros y Hy. unfold Organizations.userOrganization_findFirst_admin in Fa.
        apply (find_none _ _ Fa y Hy).
      - simpl. rewrite String.eqb_refl. reflexivity. }
    destruct Fa' as [m ->]. eexists. split; reflexivity.
Qed.

(** X22. After its creation an organization is found by tenant resolution
    under every candidate that normalises as its stored slug does,
    provided no organization stored before answers to that
    normalised candidate (by its slug or its subdomain). *)
Theorem organization_create_then_resolve
    (newId : Store.Id) (d d' : Store.DB) (userId : Store.Id)
    (body : Organizations.Body) (o : Store.Organization)
    (req : Http.Request) (c : string) :
  freshOrganizationKey d newId ->
  Organizations.POST_root_handler newId d userId body = (Rest.Row 201 o, d') ->
  JS.truthyS c = true ->
  JS.normalizeSlug c = JS.normalizeSlug (Store.org_slug o) ->
  JS.normalizeSlug c <> "" ->
  (forall x, In x (Store.organizations d) -> ~ answersTo (JS.normalizeSlug c) x) ->
  Organization.resolveSlug d' req (Some c) = Http.Next (Http.setOrganization req o).
Proof.
  intros Hfresh H Tc Hn Hne Hnone.
  destruct (POST_organization_outcome newId d userId body Hfresh)
    as [[_ Hc]|[data [_ [_ [_ [[_ E]|[_ E]]]]]]].
  { rewrite H in Hc. discriminate Hc. }
  { rewrite H in E. discriminate E. }
  rewrite E in H. injection H as Ho Hd. clear E.
  assert (Horgs : Store.organizations d' = Store.organizations d ++ [o]).
  { rewrite <- Hd, Ho. reflexivity. }
  clear Hd Ho.
  assert (Tn : JS.truthyS (JS.normalizeSlug c) = true).
  { destruct (JS.normalizeSlug c); [congruence | reflexivity]. }
  assert (Hl : Organization.lookupOrganization d' (JS.normalizeSlug c) = Some o).
  { unfold Organization.lookupOrganization,
      Store.organization_findFirst_slugOrSubdomain, Store.organization_findMany.
    rewrite Horgs.
    assert (Hexact : forall x, In x (Store.organizations d) ->
              (String.eqb (Store.org_slug x) (JS.normalizeSlug c)
               || Store.optEqb (Store.org_subdomain x) (JS.normalizeSlug c)) = false).
    { intros x Hx.
      destruct (String.eqb (Store.org_slug x) (JS.normalizeSlug c)
                || Store.optEqb (Store.org_subdomain x) (JS.normalizeSlug c)) eqn:Ex;
        [|reflexivity].
      exfalso. apply (Hnone x Hx). apply exact_match_answers; assumption. }
    destruct (String.eqb (Store.org_slug o) (JS.normalizeSlug c)
              || Store.optEqb (Store.org_subdomain o) (JS.normalizeSlug c)) eqn:Eo.
    - rewrite find_app_none; [reflexivity | exact Hexact | exact Eo].
    - rewrite find_app_other by exact Eo.
      destruct (find _ (Store.organizations d)) as [x|] eqn:F.
      + apply find_some in F. destruct F as [Hx Hm].
        rewrite (Hexact x Hx) in Hm. discriminate.
      + apply find_app_none.
        * intros y Hy. destruct (Organization.fallbackMatch _ y) eqn:Ef; [|reflexivity].
          exfalso. exact (Hnone y Hy Ef).
        * unfold Organization.fallbackMatch. rewrite <- Hn, String.eqb_refl.
          reflexivity. }
  unfold Organization.resolveSlug. rewrite Tc. cbv zeta. rewrite Tn.
  cbn [negb]. rewrite Hl. reflexivity.
Qed.


(** ** Members *)

Lemma find_filter_fix {A} (p q : A -> bool) (l : list A) :
  (forall x, p x = true -> q x = true) -> find p (filter q l) = find p l.
Proof.
  intros H. induction l as [|x l IH]; simpl; [reflexivity|].
  destruct (q x) eqn:Q; simpl.
  - destruct (p x); [reflexivity | exact IH].
  - destruct (p x) eqn:P; [|exact IH]. rewrite (H x P) in Q. discriminate.
Qed.

Lemma find_filter_negb {A} (p : A -> bool) (l : list A) :
  find p (filter (fun x => negb (p x)) l) = None.
Proof.
  induction l as [|x l IH]; simpl; [reflexivity|].
  destruct (p x) eqn:P; simpl; [exact IH|]. rewrite P. exact IH.
Qed.

Lemma find_map_commute {A} (p : A -> bool) (f : A -> A) (l : list A) :
  (forall x, p (f x) = p x) -> find p (map f l) = option_map f (find p l).
Proof.
  intros H. induction l as [|x l IH]; simpl; [reflexivity|].
  rewrite H. destruct (p x); [reflexivity | exact IH].
Qed.

Lemma find_map_fix {A} (p : A -> bool) (f : A -> A) (l : list A) :
  (forall x, p (f x) = p x) -> (forall x, p x = true -> f x = x) ->
  find p (map f l) = find p l.
Proof.
  intros H1 H2. rewrite find_map_commute by exact H1.
  destruct (find p l) as [x|] eqn:F; [|reflexivity].
  apply find_some in F. simpl. rewrite (H2 x); [reflexivity | apply F].
Qed.

Lemma pair_differs (u o target oid : string) :
  u <> target \/ o <> oid ->
  forall m, (String.eqb (Store.uo_userId m) u
             && String.eqb (Store.uo_organizationId m) o) = true ->
            (String.eqb (Store.uo_userId m) target
             && String.eqb (Store.uo_organizationId m) oid) = false.
Proof.
  intros Hne m H. apply andb_true_iff in H. destruct H as [Hu Ho].
  apply String.eqb_eq in Hu. apply String.eqb_eq in Ho.
  apply andb_false_iff. rewrite !String.eqb_neq. destruct Hne; [left | right];
    congruence.
Qed.

(** A user found by e-mail has a user row under its key. *)
Lemma user_by_email_has_row (d : Store.DB) (email : string) (user : Store.User) :
  Organizations.user_findUnique_email d email = Some user ->
  exists row, Store.user_findUnique d (Store.user_id user) = Some row.
Proof.
  unfold Organizations.user_findUnique_email, Store.user_findUnique. intros F.
  apply find_some in F. destruct F as [Hin _].
  destruct (find (fun u => String.eqb (Store.user_id u) (Store.user_id user))
                 (Store.users d)) as [row|] eqn:E; [eauto|].
  pose proof (find_none _ _ E user Hin) as Hn. simpl in Hn.
  rewrite String.eqb_refl in Hn. discriminate Hn.
Qed.

(** X23. The member routes are what [verifyOrganizationAccess] goes by.
    After a member has been added (201) the organization lets that
    user through; after a member has been removed (200) it answers
    that user 403; a change of role (200) is the role the membership
    then has. None of the three touches the membership of another
    user or of another organization, and a removal leaves the
    category assignments of the removed user in place. *)
Theorem membership_routes_drive_access
    (zodEmail : string -> bool) (d : Store.DB) (oid : Store.Id) :
  JS.truthyS oid = true ->
  (forall body user role d',
     Organizations.POST_members_handler zodEmail d oid body
     = (Rest.Row 201 (user, role), d') ->
     Organizations.mb_email body = Some (Store.user_email user)
     /\ In user (Store.users d)
     /\ Store.userOrganization_findUnique d (Store.user_id user) oid = None
     /\ Store.userOrganization_findUnique d' (Store.user_id user) oid
        = Some {| Store.uo_userId := Store.user_id user;
                  Store.uo_organizationId := oid; Store.uo_role := role |}
     /\ (forall req,
           Http.userId req = Some (Store.user_id user) ->
           JS.truthyS (Store.user_id user) = true ->
           Http.organizationId req = Some oid ->
           Organization.verifyOrganizationAccess d' req = Http.Next req)
     /\ (forall u o, u <> Store.user_id user \/ o <> oid ->
           Store.userOrganization_findUnique d' u o
           = Store.userOrganization_findUnique d u o))
  /\ (forall target message d',
        Organizations.DELETE_members_handler d oid target
        = (Rest.Notice 200 message, d') ->
        Store.userOrganization_findUnique d target oid <> None
        /\ Store.userOrganization_findUnique d' target oid = None
        /\ (forall req,
              Http.userId req = Some target -> JS.truthyS target = true ->
              Http.organizationId req = Some oid ->
              Organization.verifyOrganizationAccess d' req
              = Http.Respond
                  (Http.json 403
                     (Http.Message
                        "Access denied: User does not belong to this organization")))
        /\ (forall u o, u <> target \/ o <> oid ->
              Store.userOrganization_findUnique d' u o
              = Store.userOrganization_findUnique d u o)
        /\ Store.userCategoryAssignments d' = Store.userCategoryAssignments d)
  /\ (forall target bodyRole role d',
        Organizations.PUT_members_handler d oid target bodyRole
        = (Rest.Row 200 role, d') ->
        Store.userOrganization_findUnique d target oid <> None
        /\ Store.userOrganization_findUnique d' target oid
           = Some {| Store.uo_userId := target; Store.uo_organizationId := oid;
                     Store.uo_role := role |}
        /\ (forall u o, u <> target \/ o <> oid ->
              Store.userOrganization_findUnique d' u o
              = Store.userOrganization_findUnique d u o)).
Proof.
  intros To. split; [|split].
  - intros body user role d'. unfold Organizations.POST_members_handler.
    destruct (Organizations.addMemberSchema_parse zodEmail body) as [[email role']|] eqn:P;
      [|discriminate].
    destruct (Organizations.user_findUnique_email d email) as [user'|] eqn:Fu;
      [|discriminate].
    destruct (Store.userOrganization_findUnique d (Store.user_id user') oid) eqn:Fm;
      [discriminate|].
    unfold Organizations.userOrganization_create. simpl. rewrite Fm.
    destruct (user_by_email_has_row d email user' Fu) as [row Fr]. rewrite Fr.
    intros H. inversion H; subst user' role' d'. clear H.
    assert (Hnew : Store.userOrganization_findUnique
                     (StoreWrites.set_userOrganizations d
                        (Store.userOrganizations d
                         ++ [{| Store.uo_userId := Store.user_id user;
                                Store.uo_organizationId := oid;
                                Store.uo_role := role |}]))
                     (Store.user_id user) oid
                   = Some {| Store.uo_userId := Store.user_id user;
                             Store.uo_organizationId := oid;
                             Store.uo_role := role |}).
    { apply userOrganization_findUnique_app; [exact Fm | reflexivity | reflexivity]. }
    unfold Organizations.user_findUnique_email in Fu. apply find_some in Fu.
    destruct Fu as [Hin He]. apply String.eqb_eq in He.
    split.
    { unfold Organizations.addMemberSchema_parse in P.
      destruct (Organizations.mb_email body) as [e|]; [|discriminate].
      destruct (zodEmail e); [|discriminate].
      destruct (Organizations.mb_role body) as [r|].
      - destruct (Organizations.zOrgRole r); [|discriminate].
        simpl in P. inversion P; subst. reflexivity.
      - inversion P; subst. reflexivity. }
    split; [exact Hin|]. split; [exact Fm|]. split; [exact Hnew|]. split.
    + intros req Hu Tu Ho. unfold Organization.verifyOrganizationAccess.
      rewrite Hu, Ho, Tu, To. simpl. rewrite Hnew. reflexivity.
    + intros u o Hne. unfold Store.userOrganization_findUnique. simpl.
      apply find_app_other. simpl.
      apply andb_false_iff. rewrite !String.eqb_neq.
      destruct Hne; [left | right]; congruence.
  - intros target message d'. unfold Organizations.DELETE_members_handler.
    destruct (Store.userOrganization_findUnique d target oid) as [m|] eqn:F;
      [|discriminate].
    intros H. inversion H; subst message d'. clear H.
    assert (Hgone : Store.userOrganization_findUnique
                      (Organizations.userOrganization_delete d target oid) target oid
                    = None).
    { unfold Store.userOrganization_findUnique, Organizations.userOrganization_delete.
      simpl. apply (find_filter_negb
                      (fun m => String.eqb (Store.uo_userId m) target
                                && String.eqb (Store.uo_organizationId m) oid)). }
    split; [discriminate|]. split; [exact Hgone|]. split; [|split].
    + intros req Hu Tu Ho. unfold Organization.verifyOrganizationAccess.
      rewrite Hu, Ho, Tu, To. simpl. rewrite Hgone. reflexivity.
    + intros u o Hne.
      unfold Store.userOrganization_findUnique, Organizations.userOrganization_delete.
      simpl. apply find_filter_fix. intros x Hx.
      rewrite (pair_differs u o target oid Hne x Hx). reflexivity.
    + reflexivity.
  - intros target bodyRole role d'. unfold Organizations.PUT_members_handler.
    destruct (match bodyRole with Some r => Organizations.zOrgRole r | None => None end)
      as [role'|]; [|discriminate].
    destruct (Store.userOrganization_findUnique d target oid) as [m|] eqn:F;
      [|discriminate].
    intros H. inversion H; subst role' d'. clear H.
    split; [discriminate|]. split.
    + unfold Store.userOrganization_findUnique, Organizations.userOrganization_updateRole.
      simpl. rewrite find_map_commute.
      * unfold Store.userOrganization_findUnique in F. rewrite F. simpl.
        apply find_some in F. destruct F as [_ Hm]. rewrite Hm.
        apply andb_true_iff in Hm. destruct Hm as [Hu Ho].
        apply String.eqb_eq in Hu. apply String.eqb_eq in Ho.
        rewrite Hu, Ho. reflexivity.
      * intros x. destruct (String.eqb (Store.uo_userId x) target
                            && String.eqb (Store.uo_organizationId x) oid) eqn:E;
          simpl; rewrite ?E; reflexivity.
    + intros u o Hne.
      unfold Store.userOrganization_findUnique, Organizations.userOrganization_updateRole.
      simpl. apply find_map_fix.
      * intros x. destruct (String.eqb (Store.uo_userId x) target
                            && String.eqb (Store.uo_organizationId x) oid);
          reflexivity.
      * intros x Hx. rewrite (pair_differs u o target oid Hne x Hx). reflexivity.
Qed.

(* ===================================================================== *)
(** * The category router: assignments *)
(* ===================================================================== *)

Lemma POST_assign_user_created (d d' : Store.DB) (oid cid : Store.Id)
    (bodyUserId : option string) (a : Store.UserCategoryAssignment) :
  Categories.POST_assign_user_handler d oid cid bodyUserId = (Rest.Row 201 a, d') ->
  exists userId cat m user,
    bodyUserId = Some userId
    /\ Store.category_findFirst d cid (Some oid) = Some cat
    /\ Store.userOrganization_findUnique d userId oid = Some m
    /\ Categories.userCategoryAssignment_findUnique d userId cid = None
    /\ Store.user_findUnique d userId = Some user
    /\ a = {| Store.uca_userId := userId; Store.uca_categoryId := cid;
              Store.uca_organizationId := oid; Store.uca_user := user |}
    /\ d' = StoreWrites.set_userCategoryAssignments d
              (Store.userCategoryAssignments d ++ [a]).
Proof.
  unfold Categories.POST_assign_user_handler.
  destruct bodyUserId as [userId|]; [|discriminate].
  destruct (Store.category_findFirst d cid (Some oid)) as [cat|] eqn:Fc;
    [|discriminate].
  destruct (Store.userOrganization_findUnique d userId oid) as [m|] eqn:Fm;
    [|discriminate].
  destruct (Categories.userCategoryAssignment_findUnique d userId cid) eqn:Fa;
    [discriminate|].
  destruct (Store.user_findUnique d userId) as [user|] eqn:Fu; [|discriminate].
  intros H. inversion H; subst. exists userId, cat, m, user.
  repeat (split; [reflexivity || assumption|]). reflexivity.
Qed.

(** X24. An assignment is created only within one organization: on the 201
    the new row is of the organization of the request, its category
    is a stored category of that organization, its user has a
    membership of that organization and was not assigned to the
    category before; the row is added after the stored ones, and the
    assignments of every other category are as they were. *)
Theorem category_assignment_within_tenant
    (d d' : Store.DB) (oid cid : Store.Id) (bodyUserId : option string)
    (a : Store.UserCategoryAssignment) :
  Categories.POST_assign_user_handler d oid cid bodyUserId = (Rest.Row 201 a, d') ->
  bodyUserId = Some (Store.uca_userId a)
  /\ Store.uca_categoryId a = cid
  /\ Store.uca_organizationId a = oid
  /\ Store.user_id (Store.uca_user a) = Store.uca_userId a
  /\ (exists cat, In cat (Store.categories d) /\ Store.cat_id cat = cid
                  /\ Store.cat_organizationId cat = oid)
  /\ hasMembership d (Store.uca_userId a) oid
  /\ (forall x, In x (Store.userCategoryAssignments d) ->
                Store.uca_categoryId x = cid ->
                Store.uca_userId x <> Store.uca_userId a)
  /\ Store.userCategoryAssignments d' = Store.userCategoryAssignments d ++ [a]
  /\ (forall cid' o, cid' <> cid ->
        Store.userCategoryAssignment_findMany d' cid' o
        = Store.userCategoryAssignment_findMany d cid' o).
Proof.
  intros H. apply POST_assign_user_created in H.
  destruct H as [userId [cat [m [user [-> [Fc [Fm [Fa [Fu [-> ->]]]]]]]]]]. simpl.
  split; [reflexivity|]. split; [reflexivity|]. split; [reflexivity|].
  split.
  { unfold Store.user_findUnique in Fu. apply find_some in Fu.
    apply String.eqb_eq, Fu. }
  split.
  { unfold Store.category_findFirst in Fc. apply find_some in Fc.
    destruct Fc as [Hin Hm]. apply andb_true_iff in Hm. destruct Hm as [Hi Ho].
    apply String.eqb_eq in Hi. simpl in Ho. apply String.eqb_eq in Ho.
    exists cat. auto. }
  split.
  { apply findUnique_hasMembership in Fm. exists m. exact Fm. }
  split.
  { intros x Hx Hc Hu. unfold Categories.userCategoryAssignment_findUnique in Fa.
    pose proof (find_none _ _ Fa x Hx) as Hn. simpl in Hn.
    rewrite Hu, Hc, !String.eqb_refl in Hn. discriminate. }
  split; [reflexivity|].
  intros cid' o Hne. unfold Store.userCategoryAssignment_findMany. simpl.
  rewrite filter_app. simpl.
  destruct (String.eqb cid cid') eqn:E.
  - apply String.eqb_eq in E. congruence.
  - simpl. apply app_nil_r.
Qed.

Lemma autoAssignResult_of_list (d : Store.DB) (cid oid : Store.Id) :
  JS.truthyS cid = true ->
  autoAssignResult d (Some cid) (Some oid)
  = (option_map Store.uca_userId
       (hd_error (Store.userCategoryAssignment_findMany d cid (Some oid))),
     map Store.uca_user (Store.userCategoryAssignment_findMany d cid (Some oid))).
Proof.
  intros T. unfold autoAssignResult. rewrite T.
  destruct (Store.userCategoryAssignment_findMany d cid (Some oid)); reflexivity.
Qed.

(** X25. Assignments and auto-assignment. [autoAssignResult] is what the
    auto-assignment block of ticket creation computes from the rows
    its query answers with. Assigning one more user to a category
    adds that user, and no one else, to those who are told of its new
    tickets; its new tickets then have an assignee, who is a user
    assigned before or the new one, and the new one when the category
    had no assignment. Removing an assignment takes that user, and no
    one else, out of the rows of the category: the user is no longer
    the assignee of its new tickets. Neither touches the rows of
    another category. Which of several assigned users is the assignee
    is not said: the query has no [orderBy]. *)
Theorem assignment_changes_auto_assign (d : Store.DB) (oid cid : Store.Id) :
  JS.truthyS cid = true ->
  (forall w, Tickets.autoAssign (Some cid) (Some oid) w
             = (Effects.Returned (autoAssignResult (Effects.db w) (Some cid) (Some oid)),
                w))
  /\ (forall bodyUserId a d',
        Categories.POST_assign_user_handler d oid cid bodyUserId = (Rest.Row 201 a, d') ->
        (forall u, In u (snd (autoAssignResult d' (Some cid) (Some oid))) <->
                   In u (snd (autoAssignResult d (Some cid) (Some oid)))
                   \/ u = Store.uca_user a)
        /\ (exists v, fst (autoAssignResult d' (Some cid) (Some oid)) = Some v
                      /\ (v = Store.uca_userId a
                          \/ exists x,
                               In x (Store.userCategoryAssignment_findMany d cid
                                       (Some oid))
                               /\ Store.uca_userId x = v))
        /\ (Store.userCategoryAssignment_findMany d cid (Some oid) = [] ->
            autoAssignResult d' (Some cid) (Some oid)
            = (Some (Store.uca_userId a), [Store.uca_user a]))
        /\ (forall cid' o x, cid' <> cid ->
              In x (Store.userCategoryAssignment_findMany d' cid' o) <->
              In x (Store.userCategoryAssignment_findMany d cid' o)))
  /\ (forall userId message d',
        Categories.DELETE_assign_user_handler d oid cid userId
        = (Rest.Notice 200 message, d') ->
        (forall x, In x (Store.userCategoryAssignment_findMany d' cid (Some oid)) <->
                   In x (Store.userCategoryAssignment_findMany d cid (Some oid))
                   /\ Store.uca_userId x <> userId)
        /\ (forall u, fst (autoAssignResult d' (Some cid) (Some oid)) = Some u ->
                      u <> userId)
        /\ (forall cid' o x, cid' <> cid ->
              In x (Store.userCategoryAssignment_findMany d' cid' o) <->
              In x (Store.userCategoryAssignment_findMany d cid' o))).
Proof.
  intros T. split; [intros w; apply autoAssign_run|]. split.
  - intros bodyUserId a d' H. apply POST_assign_user_created in H.
    destruct H as [userId [cat [m [user [-> [Fc [Fm [Fa [Fu [-> ->]]]]]]]]]].
    rewrite !(autoAssignResult_of_list _ cid oid T).
    assert (Hl : Store.userCategoryAssignment_findMany
                   (StoreWrites.set_userCategoryAssignments d
                      (Store.userCategoryAssignments d
                       ++ [{| Store.uca_userId := userId; Store.uca_categoryId := cid;
                              Store.uca_organizationId := oid;
                              Store.uca_user := user |}])) cid (Some oid)
                 = Store.userCategoryAssignment_findMany d cid (Some oid)
                   ++ [{| Store.uca_userId := userId; Store.uca_categoryId := cid;
                          Store.uca_organizationId := oid; Store.uca_user := user |}]).
    { unfold Store.userCategoryAssignment_findMany. simpl.
      rewrite filter_app. simpl. rewrite !String.eqb_refl. reflexivity. }
    rewrite Hl. cbn [fst snd Store.uca_user Store.uca_userId].
    split; [|split; [|split]].
    + intros u. rewrite map_app, in_app_iff. simpl. intuition.
    + destruct (Store.userCategoryAssignment_findMany d cid (Some oid))
        as [|first rest]; simpl.
      * eexists. split; [reflexivity | left; reflexivity].
      * eexists. split; [reflexivity|]. right. exists first.
        split; [left; reflexivity | reflexivity].
    + intros E. rewrite E. reflexivity.
    + intros cid' o x Hne. unfold Store.userCategoryAssignment_findMany. simpl.
      rewrite filter_app, in_app_iff. simpl.
      destruct (String.eqb cid cid') eqn:E.
      * apply String.eqb_eq in E. congruence.
      * simpl. intuition.
  - intros userId message d'. unfold Categories.DELETE_assign_user_handler.
    destruct (Store.category_findFirst d cid (Some oid)); [|discriminate].
    destruct (Categories.userCategoryAssignment_findUnique d userId cid);
      [|discriminate].
    intros H. inversion H; subst message d'. clear H.
    assert (Hl : Store.userCategoryAssignment_findMany
                   (Categories.userCategoryAssignment_delete d userId cid) cid (Some oid)
                 = filter (fun x => negb (String.eqb (Store.uca_userId x) userId))
                          (Store.userCategoryAssignment_findMany d cid (Some oid))).
    { unfold Store.userCategoryAssignment_findMany,
        Categories.userCategoryAssignment_delete. simpl.
      induction (Store.userCategoryAssignments d) as [|x l IH]; simpl; [reflexivity|].
      destruct (String.eqb (Store.uca_userId x) userId) eqn:Eu;
        destruct (String.eqb (Store.uca_categoryId x) cid) eqn:Ec;
        destruct (String.eqb oid (Store.uca_organizationId x)) eqn:Eo;
        simpl; rewrite ?Eu, ?Ec, ?Eo; simpl; rewrite ?Eu; simpl; rewrite IH;
        reflexivity. }
    split; [|split].
    + intros x. rewrite Hl, filter_In, negb_true_iff, String.eqb_neq. reflexivity.
    + rewrite (autoAssignResult_of_list _ cid oid T), Hl. cbn [fst].
      intros v Hv Heq.
      destruct (filter _ (Store.userCategoryAssignment_findMany d cid (Some oid)))
        as [|first rest] eqn:F; [discriminate|].
      simpl in Hv. injection Hv as Hfirst.
      assert (Hin : In first
                (filter (fun x => negb (String.eqb (Store.uca_userId x) userId))
                        (Store.userCategoryAssignment_findMany d cid (Some oid))))
        by (rewrite F; left; reflexivity).
      apply filter_In in Hin. destruct Hin as [_ Hn].
      rewrite Hfirst, Heq, String.eqb_refl in Hn. discriminate.
    + intros cid' o x Hne.
      assert (E : Store.userCategoryAssignment_findMany
                    (Categories.userCategoryAssignment_delete d userId cid) cid' o
                  = Store.userCategoryAssignment_findMany d cid' o);
        [|rewrite E; reflexivity].
      unfold Store.userCategoryAssignment_findMany,
        Categories.userCategoryAssignment_delete. simpl.
      apply filter_filter_fix. intros y Hy Hm.
      apply andb_true_iff in Hm. destruct Hm as [Hc _].
      apply String.eqb_eq in Hc.
      destruct (String.eqb (Store.uca_categoryId y) cid) eqn:Ec.
      * apply String.eqb_eq in Ec. congruence.
      * rewrite andb_false_r. reflexivity.
Qed.

(* ===================================================================== *)
(** * The ticket router: which route answers a GET on one segment *)
(* ===================================================================== *)

Lemma route_eq (segment : string) :
  TicketRouter.route segment
  = if JS.truthyS segment then Some TicketRouter.Handler_id else None.
Proof.
  unfold TicketRouter.route, TicketRouter.getRoutes. simpl.
  destruct segment; reflexivity.
Qed.

(** A request that got through the guards of a member route. *)
Lemma member_guards_passed (verify : string -> option Auth.TokenPayload)
    (d : Store.DB) (env : Http.Env) (authorization : option string)
    (req req' : Http.Request) :
  OrganizationFallback.memberChain verify d env authorization req = Http.Next req' ->
  exists decoded oid m,
    Http.userId req' = Some (Auth.tp_userId decoded)
    /\ Http.userRole req' = Some (Auth.tp_role decoded)
    /\ Http.organizationId req' = Some oid
    /\ Store.userOrganization_findUnique d (Auth.tp_userId decoded) oid = Some m.
Proof.
  unfold OrganizationFallback.memberChain. intros H.
  apply andThen_next in H. destruct H as [r3 [H H4]].
  apply andThen_next in H. destruct H as [r2 [H H3]].
  apply andThen_next in H. destruct H as [r1 [H1 H2]].
  destruct (authenticate_next_inv verify authorization req r1 H1)
    as [token [decoded [Hb [Hv [Hu Hr]]]]].
  apply identifyOrganization_actor in H2. destruct H2 as [Hu2 Hr2].
  apply getOrganizationFromUser_actor in H3. destruct H3 as [Hu3 Hr3].
  apply verifyOrganizationAccess_next_inv in H4.
  destruct H4 as [-> [uid [oid [m [Hu' [_ [Ho [_ F]]]]]]]].
  exists decoded, oid, m.
  assert (uid = Auth.tp_userId decoded) by congruence. subst uid.
  split; [congruence|]. split; [congruence|]. split; assumption.
Qed.

(** The ticket [GET /:id] answers with: one of the organization it is
    asked for, with the key it is asked for. *)
Lemma GET_id_handler_row (d : Store.DB) (userId : Store.Id) (userRole : Role.t)
    (oid id : Store.Id) (t : Store.Ticket) :
  TicketAccess.GET_id_handler d userId userRole oid id = Rest.Row 200 t ->
  In t (Store.tickets d) /\ Store.t_id t = id /\ Store.t_organizationId t = oid.
Proof.
  unfold TicketAccess.GET_id_handler.
  destruct (TicketAccess.ticket_findFirst d id oid) as [t0|] eqn:F;
    [|intros H; discriminate H].
  match goal with |- context [if ?c then _ else _] => destruct c end;
    intros H; [discriminate H|].
  injection H as <-. apply ticket_findFirst_some, F.
Qed.

(** What the router does with [GET /<segment>]: the route of [GET /:id],
    whatever the segment. *)
Lemma GET_segment_served (verify : string -> option Auth.TokenPayload)
    (d : Store.DB) (env : Http.Env) (authorization : option string)
    (req : Http.Request) (segment : string) :
  JS.truthyS segment = true ->
  TicketRouter.GET_segment verify d env authorization req segment
  = match OrganizationFallback.memberChain verify d env authorization req with
    | Http.Respond r => TicketRouter.Refused r
    | Http.Next req' =>
      match Http.userId req', Http.userRole req', Http.organizationId req' with
      | Some userId, Some userRole, Some organizationId =>
        TicketRouter.Single
          (TicketAccess.GET_id_handler d userId userRole organizationId segment)
      | _, _, _ => TicketRouter.Single Rest.Failure
      end
    end.
Proof.
  intros T. unfold TicketRouter.GET_segment. rewrite route_eq, T. reflexivity.
Qed.

Lemma GET_segment_single (verify : string -> option Auth.TokenPayload)
    (d : Store.DB) (env : Http.Env) (authorization : option string)
    (req : Http.Request) (segment : string) (t : Store.Ticket) :
  TicketRouter.GET_segment verify d env authorization req segment
  = TicketRouter.Single (Rest.Row 200 t) ->
  exists req' uid role oid,
    OrganizationFallback.memberChain verify d env authorization req = Http.Next req'
    /\ Http.userId req' = Some uid
    /\ Http.userRole req' = Some role
    /\ Http.organizationId req' = Some oid
    /\ hasMembership d uid oid
    /\ TicketAccess.GET_id_handler d uid role oid segment = Rest.Row 200 t.
Proof.
  unfold TicketRouter.GET_segment. rewrite route_eq.
  destruct (JS.truthyS segment); [|intros H; discriminate H].
  destruct (OrganizationFallback.memberChain verify d env authorization req)
    as [req'|r] eqn:C; [|intros H; discriminate H].
  destruct (member_guards_passed verify d env authorization req req' C)
    as [decoded [oid [m [Hu [Hr [Ho F]]]]]].
  rewrite Hu, Hr, Ho. intros H. injection H as H.
  exists req', (Auth.tp_userId decoded), (Auth.tp_role decoded), oid.
  split; [reflexivity|]. split; [exact Hu|]. split; [exact Hr|].
  split; [exact Ho|]. split; [|exact H].
  exists m. apply findUnique_hasMembership, F.
Qed.

(** X27. The router serves every [GET] on a path of one segment by the
    route of [GET /:id], which is registered before [GET /public] and
    matches the segment [public] as it matches any other. So
    [GET /public] is answered behind the four guards of a member
    route: a guard's refusal (the 401 of [authenticate] when no bearer
    token is sent) is the answer, and past the guards the answer is
    that of the handler of [GET /:id] asked for the ticket whose key
    is the segment. The handler registered for [GET /public] answers
    no request, and a ticket is answered only under its own key. *)
Theorem one_segment_GET_served_by_id_route
    (verify : string -> option Auth.TokenPayload) (d : Store.DB) (env : Http.Env)
    (authorization : option string) (req : Http.Request) (segment : string) :
  TicketRouter.route "public" = Some TicketRouter.Handler_id
  /\ (forall r,
        TicketRouter.GET_segment verify d env authorization req segment
        <> TicketRouter.Tracked r)
  /\ (JS.truthyS segment = true ->
      forall r,
        Auth.authenticate verify authorization req = Http.Respond r ->
        TicketRouter.GET_segment verify d env authorization req segment
        = TicketRouter.Refused r)
  /\ (JS.truthyS segment = true ->
      TicketRouter.GET_segment verify d env None req segment
      = TicketRouter.Refused
          (Http.json 401 (Http.Message "Authentication required")))
  /\ (forall req',
        JS.truthyS segment = true ->
        OrganizationFallback.memberChain verify d env authorization req
        = Http.Next req' ->
        exists uid role oid,
          Http.userId req' = Some uid /\ Http.userRole req' = Some role
          /\ Http.organizationId req' = Some oid
          /\ TicketRouter.GET_segment verify d env authorization req segment
             = TicketRouter.Single
                 (TicketAccess.GET_id_handler d uid role oid segment))
  /\ (forall t,
        TicketRouter.GET_segment verify d env authorization req segment
        = TicketRouter.Single (Rest.Row 200 t) ->
        Store.t_id t = segment).
Proof.
  split; [reflexivity|]. split.
  { intros r. unfold TicketRouter.GET_segment. rewrite route_eq.
    destruct (JS.truthyS segment); [|intros H; discriminate H].
    destruct (OrganizationFallback.memberChain verify d env authorization req)
      as [req'|r']; [|intros H; discriminate H].
    destruct (Http.userId req'), (Http.userRole req'), (Http.organizationId req');
      intros H; discriminate H. }
  split.
  { intros T r A. rewrite (GET_segment_served verify d env authorization req segment T).
    unfold OrganizationFallback.memberChain. rewrite A. reflexivity. }
  split.
  { intros T. rewrite (GET_segment_served verify d env None req segment T).
    reflexivity. }
  split.
  { intros req' T C.
    rewrite (GET_segment_served verify d env authorization req segment T), C.
    destruct (member_guards_passed verify d env authorization req req' C)
      as [decoded [oid [m [Hu [Hr [Ho F]]]]]].
    rewrite Hu, Hr, Ho. eauto 8. }
  intros t H. apply GET_segment_single in H.
  destruct H as [req' [uid [role [oid [_ [_ [_ [_ [_ H]]]]]]]]].
  apply GET_id_handler_row in H. apply H.
Qed.

(* ===================================================================== *)
(** * Which organization the reads of the routes are filtered by *)
(* ===================================================================== *)







(* ===================================================================== *)
(** * The further properties on the example deployment *)
(* ===================================================================== *)

Lemma resolveSlug_by_normalised_slug_witness :
  JS.truthyS "ACME-Corp" = true
  /\ Organization.resolveSlug Examples.db0 Examples.reqMainHost (Some "ACME-Corp")
     = Http.Next (Http.setOrganization Examples.reqMainHost Examples.orgA)
  /\ Organization.resolveSlug Examples.db0 Examples.reqMainHost (Some "nobody")
     = Http.Respond (Http.json 404 (Http.Message "Organization not found")).
Proof.
  split; [reflexivity|]. split.
  - destruct (proj2 (proj2 (resolveSlug_by_normalised_slug Examples.db0
                              Examples.reqMainHost "ACME-Corp" eq_refl)))
      as [o [Hin [Ha E]]].
    + vm_compute. discriminate.
    + exists Examples.orgA. split; [left; reflexivity | reflexivity].
    + rewrite E. destruct Hin as [<-|[<-|[]]]; [reflexivity|].
      vm_compute in Ha. discriminate.
  - apply (proj1 (proj2 (resolveSlug_by_normalised_slug Examples.db0
                           Examples.reqMainHost "nobody" eq_refl))).
    + vm_compute. discriminate.
    + intros o [<-|[<-|[]]] Ha; vm_compute in Ha; discriminate.
Defined.

Lemma public_reads_unfiltered_witness :
  Organization.organizationSlugOf Examples.envMain Examples.reqNoTenant = None
  /\ Http.organizationId Examples.reqNoTenant = None
  /\ (exists l,
        Statuses.GET_root Examples.db0 Examples.envMain Examples.reqNoTenant
        = Http.json 200 (Http.StatusesJson l)
        /\ In Examples.statusA l /\ In Examples.statusB l)
  /\ StatusesCrud.GET_id_handler Examples.db0
       (Http.organizationId Examples.reqNoTenant) "st-b"
     = Rest.Row 200 (Examples.statusB, 1).
Proof.
  split; [reflexivity|]. split; [reflexivity|].
  destruct (public_reads_unfiltered_without_tenant Examples.db0 Examples.envMain
              Examples.reqNoTenant eq_refl eq_refl) as [_ [[l [El Hl]] Hid]].
  split.
  - exists l. split; [exact El|]. split; apply Hl.
    + left. reflexivity.
    + right. left. reflexivity.
  - exact (Hid "st-b" Examples.statusB eq_refl).
Defined.

Lemma organizationKeysSet_db0 : organizationKeysSet Examples.db0.
Proof. intros o [<-|[<-|[]]]; reflexivity. Qed.

Lemma getOrganizationFromUser_adopts_witness :
  JS.truthy (Http.organizationId
               (Auth.setUser Scenarios.reqPlain Scenarios.tokenU1)) = false
  /\ OrganizationFallback.getOrganizationFromUser Examples.db0
       (Auth.setUser Scenarios.reqPlain Scenarios.tokenU1)
     = Http.Next Scenarios.reqPlain_passed
  /\ Http.organizationId Scenarios.reqPlain_passed = Some "org-a"
  /\ Organization.verifyOrganizationAccess Examples.db0 Scenarios.reqPlain_passed
     = Http.Next Scenarios.reqPlain_passed.
Proof.
  split; [reflexivity|]. split; [reflexivity|]. split; [reflexivity|].
  destruct (proj2 (getOrganizationFromUser_adopts_first_membership Examples.db0
                     (Auth.setUser Scenarios.reqPlain Scenarios.tokenU1))
                  Scenarios.reqPlain_passed eq_refl eq_refl)
    as [uid [m [o [_ [_ [Hin [_ [_ Hv]]]]]]]].
  exact (Hv (organizationKeysSet_db0 o Hin)).
Defined.

Lemma guard_chains_witness :
  OrganizationFallback.memberChain Scenarios.verifyToken Examples.db0 Examples.envNone
    (Some "Bearer jwt-u1-b") Examples.reqHeaderA
  = Http.Next Scenarios.reqHeaderA_passed
  /\ exists oid m,
       Http.userId Scenarios.reqHeaderA_passed = Some "u1"
       /\ Http.organizationId Scenarios.reqHeaderA_passed = Some oid
       /\ Store.userOrganization_findUnique Examples.db0 "u1" oid = Some m.
Proof.
  split; [reflexivity|].
  destruct (proj1 (guard_chains_establish_membership Scenarios.verifyToken
                     Examples.db0 Examples.envNone (Some "Bearer jwt-u1-b")
                     Examples.reqHeaderA Scenarios.reqHeaderA_passed) eq_refl)
    as [token [decoded [oid [m [_ [_ [Hu [_ [Ho [_ F]]]]]]]]]].
  exists oid, m. split; [reflexivity|]. split; [exact Ho|].
  change (Some "u1" = Some (Auth.tp_userId decoded)) in Hu.
  injection Hu as Hu. rewrite Hu. exact F.
Defined.

Lemma tenant_precedence_witness :
  organizationKeysSet Examples.db0
  /\ Http.organizationId Examples.reqHeaderA = None
  /\ Auth.bearerToken (Some "Bearer jwt-u1-b") = Some "jwt-u1-b"
  /\ Scenarios.verifyToken "jwt-u1-b" = Some Scenarios.tokenU1B
  /\ Auth.tp_organizationId Scenarios.tokenU1B = Some "org-b"
  /\ OrganizationFallback.memberChain Scenarios.verifyToken Examples.db0 Examples.envNone
       (Some "Bearer jwt-u1-b") Examples.reqHeaderA
     = Http.Next Scenarios.reqHeaderA_passed
  /\ Http.organizationId Scenarios.reqHeaderA_passed = Some "org-a".
Proof.
  split; [exact organizationKeysSet_db0|].
  repeat (split; [reflexivity|]).
  destruct (proj1 (tenant_precedence_authenticate_first Scenarios.verifyToken
                     Examples.db0 Examples.envNone (Some "Bearer jwt-u1-b")
                     Examples.reqHeaderA Scenarios.reqHeaderA_passed
                     "jwt-u1-b" Scenarios.tokenU1B organizationKeysSet_db0
                     eq_refl eq_refl eq_refl eq_refl)
                  "acme-corp" eq_refl) as [o [Hl Ho]].
  - vm_compute. discriminate.
  - rewrite Ho. vm_compute in Hl. inversion Hl. reflexivity.
Defined.

Lemma token_tenant_overrides_url_witness :
  Auth.bearerToken (Some "Bearer jwt-u1-a") = Some "jwt-u1-a"
  /\ Scenarios.verifyToken "jwt-u1-a" = Some Scenarios.tokenU1A
  /\ Organization.identifyOrganization Examples.db0 Examples.envNone Scenarios.reqHeaderB
     = Http.Next (Http.setOrganization Scenarios.reqHeaderB Examples.orgB)
  /\ Organizations.slugMemberChain Scenarios.verifyToken Examples.db0 Examples.envNone
       (Some "Bearer jwt-u1-a") Scenarios.reqHeaderB
     = Http.Next Scenarios.reqHeaderB_passed
  /\ Http.organizationId Scenarios.reqHeaderB_passed = Some "org-a".
Proof.
  repeat (split; [reflexivity|]).
  exact (proj1 (token_tenant_overrides_url_when_identified_first Scenarios.verifyToken
                  Examples.db0 Examples.envNone (Some "Bearer jwt-u1-a")
                  Scenarios.reqHeaderB Scenarios.reqHeaderB_passed
                  "jwt-u1-a" Scenarios.tokenU1A eq_refl eq_refl
                  (or_intror eq_refl))
               eq_refl).
Defined.

Lemma rtHalf_unit (n : nat) :
  (0 <= Effects.random Examples.rtHalf n)%Q /\ (Effects.random Examples.rtHalf n < 1)%Q.
Proof. split; [discriminate | reflexivity]. Qed.

Lemma uniqueTokens_db0 : uniqueTokens Examples.db0.
Proof. intros t1 t2 p [<-|[]] [<-|[]] _ _. reflexivity. Qed.

Lemma public_submission_token_fresh_witness :
  (forall n, (0 <= Effects.random Examples.rtHalf n)%Q
             /\ (Effects.random Examples.rtHalf n < 1)%Q)
  /\ Store.t_publicToken Examples.createdPublic = Some "SSSSSSSS"
  /\ Store.t_publicToken Examples.ticketB <> Some "SSSSSSSS"
  /\ Store.tickets (Effects.db Examples.wPublic)
     = [Examples.ticketB; Examples.createdPublic]
  /\ uniqueTokens (Effects.db Examples.wPublic).
Proof.
  split; [exact rtHalf_unit|].
  destruct (public_submission_token_fresh Examples.rtHalf "org-a"
              Examples.body0 Examples.w0 Examples.wPublic Examples.createdPublic
              "SSSSSSSS" _ rtHalf_unit created_public_run)
    as [Htok [_ [_ [Hfresh [Hadd Hu]]]]].
  split; [exact Htok|].
  split; [exact (Hfresh Examples.ticketB (or_introl eq_refl))|].
  split; [exact Hadd | exact (Hu uniqueTokens_db0)].
Defined.

Lemma authenticated_ticket_token_fresh_witness :
  (forall n, (0 <= Effects.random Examples.rtHalf n)%Q
             /\ (Effects.random Examples.rtHalf n < 1)%Q)
  /\ Store.t_publicToken Examples.createdAuth = Some "SSSSSSSS"
  /\ Store.tickets (Effects.db Examples.wAuth)
     = [Examples.ticketB; Examples.createdAuth]
  /\ uniqueTokens (Effects.db Examples.wAuth).
Proof.
  split; [exact rtHalf_unit|]. split; [reflexivity|].
  destruct (authenticated_ticket_token_fresh Examples.rtHalf "u1" "org-a"
              Examples.body0 Examples.w0 Examples.wAuth Examples.createdAuth
              rtHalf_unit created_auth_run)
    as [tok [_ [_ [_ [_ [Hadd Hu]]]]]].
  split; [exact Hadd | exact (Hu uniqueTokens_db0)].
Defined.

Lemma created_ticket_refers_within_tenant_witness :
  Store.t_organizationId Examples.createdAuth = "org-a"
  /\ (exists cat, In cat (Store.categories Examples.db0)
                  /\ Store.cat_id cat = "cat-a"
                  /\ Store.cat_organizationId cat = "org-a")
  /\ (exists a cid, Store.t_categoryId Examples.createdAuth = Some cid
                    /\ In a (Store.userCategoryAssignments Examples.db0)
                    /\ Store.uca_userId a = "u1"
                    /\ Store.uca_categoryId a = cid
                    /\ Store.uca_organizationId a = "org-a").
Proof.
  destruct (created_ticket_refers_within_tenant Examples.rtHalf "org-a"
              Examples.body0 Examples.w0 Examples.wAuth Examples.createdAuth
              (or_introl (ex_intro _ "u1" created_auth_run)))
    as [Ho [Hc Ha]].
  split; [exact Ho|]. split.
  - exact (Hc "cat-a" eq_refl).
  - exact (Ha "u1" eq_refl).
Defined.

Lemma ticket_read_disclosure_witness :
  TicketAccess.GET_id_handler Examples.db0 "u1" Role.USER "org-a" "t-b"
  = Rest.Notice 404 "Ticket not found"
  /\ TicketAccess.GET_id_handler Examples.db0 "u1" Role.USER "org-b" "t-b"
     = Rest.Notice 403 "Access denied"
  /\ TicketAccess.GET_id_handler Examples.db0 "u1" Role.ADMIN "org-b" "t-b"
     = Rest.Row 200 Examples.ticketB.
Proof.
  split; [|split].
  - apply (proj1 (proj2 (ticket_read_disclosure Examples.db0 "u1" Role.USER
                           "org-a" "t-b"))).
    intros t [<-|[]] _. discriminate.
  - apply (proj2 (proj2 (proj2 (ticket_read_disclosure Examples.db0 "u1" Role.USER
                                  "org-b" "t-b")) Examples.ticketB eq_refl)).
    intros [H|[H|[H|[m [H _]]]]]; discriminate.
  - apply (proj1 (proj2 (proj2 (ticket_read_disclosure Examples.db0 "u1" Role.ADMIN
                                  "org-b" "t-b")) Examples.ticketB eq_refl)).
    right. right. left. reflexivity.
Defined.

Lemma statusTableOk_db0 : statusTableOk Examples.db0.
Proof.
  split; simpl; repeat constructor; simpl; intuition discriminate.
Qed.


Lemma status_writes_tenant_isolated_witness :
  NoDup (map Store.ts_id (Store.ticketStatuses Examples.db0))
  /\ "org-b" <> "org-a"
  /\ Store.ticketStatus_findMany Scenarios.dbClosed (Some "org-b")
     = Store.ticketStatus_findMany Examples.db0 (Some "org-b")
  /\ Statuses.DELETE_id_handler Examples.db0 Examples.reqPlatformAdmin "st-b"
     = (Http.json 404 (Http.Message "Ticket status not found"), Examples.db0).
Proof.
  split; [exact (proj1 statusTableOk_db0)|].
  assert (Hne : "org-b" <> "org-a") by discriminate.
  split; [exact Hne|].
  destruct (status_writes_tenant_isolated Examples.db0 "org-a" "org-b"
              (proj1 statusTableOk_db0) Hne) as [Hpost [_ [_ Hforeign]]].
  split.
  - exact (Hpost "st-new" Scenarios.statusBody).
  - destruct (Hforeign "st-b" Examples.statusB) as [_ [_ Hdel]];
      [right; left; reflexivity | reflexivity | reflexivity |].
    exact (Hdel Examples.reqPlatformAdmin eq_refl).
Defined.

Lemma status_create_then_read_then_delete_witness :
  ~ In "st-new" (map Store.ts_id (Store.ticketStatuses Examples.db0))
  /\ Http.organizationId Examples.reqPlatformAdmin = Some "org-a"
  /\ StatusesCrud.POST_root_handler "st-new" Examples.db0 "org-a" Scenarios.statusBody
     = (Rest.Row 201 Scenarios.statusClosed, Scenarios.dbClosed)
  /\ In Scenarios.statusClosed
        (Store.ticketStatus_findMany Scenarios.dbClosed (Some "org-a"))
  /\ Statuses.DELETE_id_handler Scenarios.dbClosed Examples.reqPlatformAdmin "st-new"
     = (Http.json 200 (Http.Message "Ticket status deleted successfully"),
        Examples.db0).
Proof.
  assert (Hfresh : ~ In "st-new" (map Store.ts_id (Store.ticketStatuses Examples.db0))).
  { simpl. intuition discriminate. }
  split; [exact Hfresh|]. split; [reflexivity|]. split; [reflexivity|].
  destruct (status_create_then_read_then_delete "st-new" Examples.db0
              Scenarios.dbClosed "org-a" Scenarios.statusBody Scenarios.statusClosed
              Examples.reqPlatformAdmin Hfresh)
    as [_ [_ [_ [_ [_ [Hin [_ Hdel]]]]]]]; try reflexivity.
  - intros t [<-|[]]. discriminate.
  - split; [exact Hin | exact Hdel].
Defined.

Lemma freshOrganizationKey_db0 : freshOrganizationKey Examples.db0 "org-c".
Proof.
  split.
  - intros o [<-|[<-|[]]]; discriminate.
  - intros m [<-|[]]. discriminate.
Qed.

Lemma organization_creation_witness :
  freshOrganizationKey Examples.db0 "org-c"
  /\ Organizations.POST_root_handler "org-c" Examples.db0 "u2" Scenarios.organizationBody
     = (Rest.Row 201 Scenarios.orgC, Scenarios.dbGlobex)
  /\ Organization.requireOrgAdmin Scenarios.dbGlobex Scenarios.reqFounder
     = Http.Next Scenarios.reqFounder
  /\ (exists r,
        Organizations.POST_root_handler "org-d" Scenarios.dbGlobex "u2"
          Scenarios.organizationBody = (r, Scenarios.dbGlobex)
        /\ Rest.statusOf r = 400)
  /\ fst (Organizations.POST_root_handler "org-c" Examples.db0 "ghost"
            Scenarios.ghostBody) = Rest.Failure
  /\ exists o,
       Store.org_id o = "org-c"
       /\ Store.organizations
            (snd (Organizations.POST_root_handler "org-c" Examples.db0 "ghost"
                    Scenarios.ghostBody))
          = Store.organizations Examples.db0 ++ [o]
       /\ Store.userOrganizations
            (snd (Organizations.POST_root_handler "org-c" Examples.db0 "ghost"
                    Scenarios.ghostBody))
          = Store.userOrganizations Examples.db0.
Proof.
  split; [exact freshOrganizationKey_db0|]. split; [reflexivity|].
  destruct (proj1 (organization_creation_makes_creator_admin "org-c" Examples.db0
                     "u2" Scenarios.organizationBody freshOrganizationKey_db0
                     eq_refl eq_refl)
                  Scenarios.orgC Scenarios.dbGlobex eq_refl)
    as [_ [_ [_ [_ [_ [_ [_ [Hadmin Hagain]]]]]]]].
  split; [exact (Hadmin Scenarios.reqFounder eq_refl eq_refl)|].
  split; [exact (Hagain "org-d" Scenarios.organizationBody)|].
  split; [reflexivity|].
  destruct (proj2 (proj2 (proj2 (proj2
             (organization_creation_makes_creator_admin "org-c" Examples.db0
                "ghost" Scenarios.ghostBody freshOrganizationKey_db0
                eq_refl eq_refl)))) eq_refl)
    as [o [Hid [Ho [Hm _]]]].
  exists o. split; [exact Hid|]. split; [exact Ho | exact Hm].
Defined.

Lemma organization_create_then_resolve_witness :
  JS.normalizeSlug "GLOBEX inc" = JS.normalizeSlug (Store.org_slug Scenarios.orgC)
  /\ Organization.resolveSlug Scenarios.dbGlobex Examples.reqMainHost (Some "GLOBEX inc")
     = Http.Next (Http.setOrganization Examples.reqMainHost Scenarios.orgC).
Proof.
  split; [reflexivity|].
  apply (organization_create_then_resolve "org-c" Examples.db0 Scenarios.dbGlobex
           "u2" Scenarios.organizationBody Scenarios.orgC Examples.reqMainHost
           "GLOBEX inc" freshOrganizationKey_db0 eq_refl eq_refl eq_refl).
  - vm_compute. discriminate.
  - intros x [<-|[<-|[]]] Ha; vm_compute in Ha; discriminate.
Defined.

Lemma membership_routes_witness :
  JS.truthyS "org-b" = true
  /\ Organizations.POST_members_handler (JS.includesChar "@") Examples.db0 "org-b"
       Scenarios.memberBody
     = (Rest.Row 201 (Examples.u1, OrgRole.MEMBER), Scenarios.dbJoined)
  /\ Organization.verifyOrganizationAccess Scenarios.dbJoined Scenarios.reqU1AtB
     = Http.Next Scenarios.reqU1AtB
  /\ Organizations.DELETE_members_handler Scenarios.dbJoined "org-b" "u1"
     = (Rest.Notice 200 "Member removed successfully", Examples.db0)
  /\ Organization.verifyOrganizationAccess Examples.db0 Scenarios.reqU1AtB
     = Http.Respond
         (Http.json 403
            (Http.Message "Access denied: User does not belong to this organization")).
Proof.
  split; [reflexivity|]. split; [reflexivity|].
  destruct (proj1 (membership_routes_drive_access (JS.includesChar "@") Examples.db0
                     "org-b" eq_refl)
                  Scenarios.memberBody Examples.u1 OrgRole.MEMBER Scenarios.dbJoined
                  eq_refl) as [_ [_ [_ [_ [Hpass _]]]]].
  split; [exact (Hpass Scenarios.reqU1AtB eq_refl eq_refl eq_refl)|].
  split; [reflexivity|].
  destruct (proj1 (proj2 (membership_routes_drive_access (JS.includesChar "@")
                            Scenarios.dbJoined "org-b" eq_refl))
                  "u1" "Member removed successfully" Examples.db0 eq_refl)
    as [_ [_ [Hdeny _]]].
  exact (Hdeny Scenarios.reqU1AtB eq_refl eq_refl eq_refl).
Defined.

Lemma category_assignment_witness :
  Categories.POST_assign_user_handler Scenarios.db1 "org-a" "cat-a" (Some "u2")
  = (Rest.Row 201 Examples.assign2, Scenarios.dbAssigned)
  /\ hasMembership Scenarios.db1 "u2" "org-a"
  /\ Store.userCategoryAssignments Scenarios.dbAssigned
     = [Examples.assign1; Examples.assign2]
  /\ Categories.POST_assign_user_handler Scenarios.db1 "org-b" "cat-a" (Some "u2")
     = (Rest.Notice 404 "Category not found", Scenarios.db1).
Proof.
  split; [reflexivity|].
  destruct (category_assignment_within_tenant Scenarios.db1 Scenarios.dbAssigned
              "org-a" "cat-a" (Some "u2") Examples.assign2 eq_refl)
    as [_ [_ [_ [_ [_ [Hm [_ [Hl _]]]]]]]].
  split; [exact Hm|]. split; [exact Hl | reflexivity].
Defined.

Lemma assignment_changes_auto_assign_witness :
  JS.truthyS "cat-a" = true
  /\ Categories.POST_assign_user_handler Scenarios.db1 "org-a" "cat-a" (Some "u2")
     = (Rest.Row 201 Examples.assign2, Scenarios.dbAssigned)
  /\ In Examples.u2
        (snd (autoAssignResult Scenarios.dbAssigned (Some "cat-a") (Some "org-a")))
  /\ (exists v,
        fst (autoAssignResult Scenarios.dbAssigned (Some "cat-a") (Some "org-a"))
        = Some v)
  /\ (forall x,
        In x (Store.userCategoryAssignment_findMany Scenarios.dbAssigned "cat-b"
                (Some "org-b")) <->
        In x (Store.userCategoryAssignment_findMany Scenarios.db1 "cat-b"
                (Some "org-b"))).
Proof.
  split; [reflexivity|]. split; [reflexivity|].
  destruct (proj1 (proj2 (assignment_changes_auto_assign Scenarios.db1 "org-a" "cat-a"
                            eq_refl))
                  (Some "u2") Examples.assign2 Scenarios.dbAssigned eq_refl)
    as [Hs [[v [Hv _]] [_ Hother]]].
  split; [apply Hs; right; reflexivity|].
  split; [exists v; exact Hv|].
  intros x. apply Hother. discriminate.
Defined.

(** A slug that differs from a stored one only by a trailing hyphen
    passes the uniqueness check of the creation, and the new
    organization is then shadowed: its own slug resolves to the
    older organization. *)
Example organization_slug_shadowed :
  exists o d',
    Organizations.POST_root_handler "org-c" Examples.db0 "u2"
      {| Organizations.b_name := Some "Acme Two";
         Organizations.b_slug := Some "acme-corp-";
         Organizations.b_subdomain := None |}
    = (Rest.Row 201 o, d')
    /\ Store.org_slug o = "acme-corp-"
    /\ Organization.resolveSlug d' Examples.reqMainHost (Some "acme-corp-")
       = Http.Next (Http.setOrganization Examples.reqMainHost Examples.orgA).
Proof. eexists. eexists. split; [reflexivity|]. split; reflexivity. Qed.

(** A removed member keeps their category assignments: the second
    user of the example, who is assigned to the category without
    being a member, is still told of its new tickets. *)
Example removed_member_still_assigned :
  ~ hasMembership Examples.db0 "u2" "org-a"
  /\ In Examples.u2
        (snd (autoAssignResult Examples.db0 (Some "cat-a") (Some "org-a"))).
Proof.
  split; [|right; left; reflexivity].
  intros [m [[<-|[]] [Hu _]]]. discriminate.
Qed.

Lemma requireOrgAdmin_exactly_witness :
  Organization.requireOrgAdmin Scenarios.db1
    (Examples.request None None None None None (Some "org-a") (Some "u2")
       (Some Role.USER))
  = Http.Next (Examples.request None None None None None (Some "org-a") (Some "u2")
                 (Some Role.USER))
  /\ Organization.requireOrgAdmin Scenarios.db1 Scenarios.reqPlain
     = Http.Respond (Http.json 401 (Http.Message "Authentication required")).
Proof.
  destruct (requireOrgAdmin_exactly Scenarios.db1
              (Examples.request None None None None None (Some "org-a") (Some "u2")
                 (Some Role.USER))) as [Hiff _].
  destruct (requireOrgAdmin_exactly Scenarios.db1 Scenarios.reqPlain)
    as [_ [_ Hmissing]].
  split.
  - apply Hiff. split; [reflexivity|].
    exists "u2", "org-a", Scenarios.member2.
    split; [reflexivity|]. split; [reflexivity|]. split; [reflexivity|].
    split; [reflexivity|]. split; [reflexivity|]. left. reflexivity.
  - apply Hmissing. left. reflexivity.
Defined.

Lemma membershipsResolve_db0 : membershipsResolve Examples.db0.
Proof.
  intros m [<-|[]]. exists Examples.orgA. split; [left; reflexivity | reflexivity].
Qed.

Lemma optional_fallback_witness :
  membershipsResolve Examples.db0
  /\ OrganizationFallback.getOrganizationFromUser Examples.db0 Scenarios.reqPlain
     = Http.Respond (Http.json 401 (Http.Message "Authentication required"))
  /\ exists req',
       OrganizationFallback.getOrganizationFromUserOptionalAuth Examples.db0
         Scenarios.reqPlain = Http.Next req'.
Proof.
  split; [exact membershipsResolve_db0|]. split; [reflexivity|].
  exact (proj1 (optional_fallback_never_rejects Examples.db0 Scenarios.reqPlain)
               membershipsResolve_db0).
Defined.

Lemma optionalAuthenticate_witness :
  Auth.authenticate Scenarios.verifyToken (Some "Bearer jwt-u1") Scenarios.reqPlain
  = Http.Next (Auth.setUser Scenarios.reqPlain Scenarios.tokenU1)
  /\ Auth.optionalAuthenticate Scenarios.verifyToken (Some "Bearer jwt-u1")
       Scenarios.reqPlain
     = Http.Next (Auth.setUser Scenarios.reqPlain Scenarios.tokenU1)
  /\ Auth.authenticate Scenarios.verifyToken (Some "Bearer forged") Scenarios.reqPlain
     = Http.Respond (Http.json 401 (Http.Message "Invalid or expired token"))
  /\ Auth.optionalAuthenticate Scenarios.verifyToken (Some "Bearer forged")
       Scenarios.reqPlain
     = Http.Next Scenarios.reqPlain.
Proof.
  split; [reflexivity|].
  destruct (optionalAuthenticate_agrees_with_authenticate Scenarios.verifyToken
              (Some "Bearer jwt-u1") Scenarios.reqPlain) as [_ [Hpass _]].
  destruct (optionalAuthenticate_agrees_with_authenticate Scenarios.verifyToken
              (Some "Bearer forged") Scenarios.reqPlain) as [_ [_ [Hdeny _]]].
  split; [exact (proj1 (Hpass _ eq_refl))|].
  split; [reflexivity|].
  exact (proj2 (Hdeny _ eq_refl)).
Defined.


(** C5, on the example deployment. A public submission has stored a ticket
    with a tracking token. The submitter asks for it as the answer of
    the submission tells them to, with the token and the organization
    and without a bearer token: the router answers 401, the request
    being served by the route of [GET /:id]. The handler written for
    the request would have answered with the ticket. With a bearer
    token the answer is the 404 of [GET /:id] for the key [public]. *)
Theorem public_tracking_answered_401 :
  In Examples.createdPublic (Store.tickets (Effects.db Examples.wPublic))
  /\ Store.t_publicToken Examples.createdPublic = Some "SSSSSSSS"
  /\ Http.query_token Scenarios.reqTrackPublic = Some "SSSSSSSS"
  /\ Organization.identifyOrganization (Effects.db Examples.wPublic) Examples.envNone
       Scenarios.reqTrackPublic
     = Http.Next (Http.setOrganization Scenarios.reqTrackPublic Examples.orgA)
  /\ TicketRouter.GET_segment Scenarios.verifyToken (Effects.db Examples.wPublic)
       Examples.envNone None Scenarios.reqTrackPublic "public"
     = TicketRouter.Refused
         (Http.json 401 (Http.Message "Authentication required"))
  /\ Tickets.GET_public_handler (Effects.db Examples.wPublic)
       (Http.setOrganization Scenarios.reqTrackPublic Examples.orgA)
     = Http.json 200
         (Http.PublicTicketJson
            (Tickets.publicView (Effects.db Examples.wPublic) Examples.createdPublic))
  /\ TicketRouter.GET_segment Scenarios.verifyToken (Effects.db Examples.wPublic)
       Examples.envNone (Some "Bearer jwt-u1-a") Scenarios.reqTrackPublic "public"
     = TicketRouter.Single (Rest.Notice 404 "Ticket not found").
Proof.
  split; [right; left; reflexivity|].
  repeat (split; [reflexivity|]). reflexivity.
Qed.



(** Adding a comment with the store refusing the best-effort writes:
    the comment is stored and answered with 201 all the same. *)
Example comment_with_store_down :
  fst (Comments.POST_comments_handler Examples.rtDown "c-new" "u1" "org-b" "t-b"
         (Some "Thanks") Examples.w0)
  = Effects.Returned
      (Rest.Row 201
         {| Store.c_id := "c-new"; Store.c_ticketId := "t-b";
            Store.c_userId := Some "u1"; Store.c_content := "Thanks" |}).
Proof. vm_compute. reflexivity. Qed.
